(** * Decentralized cloud-storage marketplace: a shallow embedding

    This development embeds the agent simulation of
    [enhanced_cloud_storage.py] (message bus, buyer, storage provider,
    broker and metrics aggregator) and proves the properties its
    specification states about it.

    Modelling conventions.
    - Python [int] is [Z]; Python [float] is an exact rational [Q]
      (rounding is not modelled); [str] is [string].
    - A [dict] whose iteration order is irrelevant to the code reading it
      is a [gmap]; the broker's provider registry, whose iteration order
      decides ties, is an insertion-ordered association list.
    - [random] draws and [time.time()] readings are explicit arguments.
    - A Python exception is the [Raised] outcome; a [try]/[except] that logs
      and continues keeps the state reached when the exception was raised.
    - Tasks are cooperative: code between two [await]s runs atomically.
      A handler is one function, applied to the state of the moment it
      takes its decision; the [await message_bus.send_message(...)] calls
      it makes are returned as its outbox, in order, and what it does on
      the other side of an [await] touches only state that no other task
      of the agent writes.  [send_message] itself, whose caller is
      suspended for the simulated latency, is modelled with its
      suspension.  Each [while self.running] loop is modelled by its
      body. *)

From Stdlib Require Import QArith Lqa ZArith Lia.
From stdpp Require Import gmap strings list fin_maps pretty sorting.

(** ** Python primitives *)

Inductive exn : Set :=
| ZeroDivisionError
| StatisticsError
| KeyError.

Inductive outcome (A : Type) : Type :=
| Return (a : A)
| Raised (e : exn).
Arguments Return {A} a.
Arguments Raised {A} e.

Definition Qltb (x y : Q) : bool := negb (Qle_bool y x).

(** [min(a, b)] keeps [a] unless [b < a]; [max(a, b)] keeps [a] unless
    [b > a]. *)
Definition py_min (a b : Q) : Q := if Qltb b a then b else a.
Definition py_max (a b : Q) : Q := if Qltb a b then b else a.

Definition Qzero (x : Q) : bool := Qeq_bool x 0.

(** [a / b] on floats. *)
Definition truediv (a b : Q) : outcome Q :=
  if Qzero b then Raised ZeroDivisionError else Return (a / b)%Q.

(** [a / b] on ints (true division). *)
Definition int_truediv (a b : Z) : outcome Q :=
  truediv (inject_Z a) (inject_Z b).

(** [int(x)] on a float: truncation toward zero. *)
Definition py_int (x : Q) : Z := Z.quot (Qnum x) (Zpos (Qden x)).

Definition Qsum (l : list Q) : Q := foldr Qplus 0%Q l.

Definition Qlen (l : list Q) : Q := inject_Z (Z.of_nat (length l)).

(** [statistics.mean]: raises on an empty sample. *)
Definition mean (l : list Q) : outcome Q :=
  match l with
  | [] => Raised StatisticsError
  | _ => Return (Qsum l / Qlen l)%Q
  end.

(** [statistics.stdev]: the square root of the sample variance; raises on
    fewer than two points.  The float square root is a parameter. *)
Definition stdev (float_sqrt : Q -> Q) (l : list Q) : outcome Q :=
  match l with
  | [] | [_] => Raised StatisticsError
  | _ =>
      let mu := (Qsum l / Qlen l)%Q in
      let ss := Qsum (map (fun x => (x - mu) * (x - mu))%Q l) in
      Return (float_sqrt (ss / (Qlen l - 1))%Q)
  end.

(** ** Data model *)

Module StorageRequest.
Record t : Type := mk {
  buyer_id : string;
  space_gb : Z;
  duration_hours : Q;
  max_price_per_gb_hour : Q;
  timestamp : Q;
  request_id : string
}.
End StorageRequest.

Module StorageContract.
Record t : Type := mk {
  contract_id : string;
  buyer_id : string;
  provider_id : string;
  space_gb : Z;
  duration_hours : Q;
  price_per_gb_hour : Q;
  total_cost : Q;
  start_time : Q;
  end_time : Q;
  status : string   (* 'pending', 'active', 'completed', 'failed' *)
}.

Definition set_status (s : string) (c : t) : t :=
  mk (contract_id c) (buyer_id c) (provider_id c) (space_gb c)
     (duration_hours c) (price_per_gb_hour c) (total_cost c)
     (start_time c) (end_time c) s.
End StorageContract.

Module ProviderInfo.
Record t : Type := mk {
  agent_id : string;
  total_space_gb : Z;
  available_space_gb : Z;
  reputation : Q;
  price_per_gb_hour : Q;
  last_seen : Q;
  success_count : Z;
  failure_count : Z;
  response_time_avg : Q
}.
End ProviderInfo.

(** ** Metrics aggregator *)

Module SimulationMetrics.
Record t : Type := mk {
  start_time : Q;
  total_requests : Z;
  successful_requests : Z;
  failed_requests : Z;
  response_times : list Q;
  contracts_created : Z;
  contracts_completed : Z;
  contracts_failed : Z;
  contract_durations : list Q;
  contract_values : list Q;
  provider_utilizations : list Q;
  provider_reputations : list Q;
  provider_earnings : list Q;
  network_corruptions : Z;
  provider_failures : Z;
  network_latencies : list Q;
  total_space_allocated : Z;
  peak_utilization : Q;
  avg_utilization : Q
}.

Definition reset (now : Q) : t :=
  mk now 0 0 0 [] 0 0 0 [] [] [] [] [] 0 0 [] 0 0 0.

Definition record_request (successful : bool) (response_time : Q) (m : t) : t :=
  mk (start_time m)
     (total_requests m + 1)
     (if successful then successful_requests m + 1 else successful_requests m)
     (if successful then failed_requests m else failed_requests m + 1)
     (if Qltb 0 response_time
      then response_times m ++ [response_time] else response_times m)
     (contracts_created m) (contracts_completed m) (contracts_failed m)
     (contract_durations m) (contract_values m)
     (provider_utilizations m) (provider_reputations m) (provider_earnings m)
     (network_corruptions m) (provider_failures m) (network_latencies m)
     (total_space_allocated m) (peak_utilization m) (avg_utilization m).

Definition record_contract (contract : StorageContract.t) (completed : bool)
    (m : t) : t :=
  let active := String.eqb (StorageContract.status contract) "active" in
  mk (start_time m) (total_requests m) (successful_requests m)
     (failed_requests m) (response_times m)
     (if active then contracts_created m + 1 else contracts_created m)
     (if active then contracts_completed m
      else if completed then contracts_completed m + 1
           else contracts_completed m)
     (contracts_failed m)
     (if active
      then contract_durations m ++ [StorageContract.duration_hours contract]
      else contract_durations m)
     (if active
      then contract_values m ++ [StorageContract.total_cost contract]
      else contract_values m)
     (provider_utilizations m) (provider_reputations m) (provider_earnings m)
     (network_corruptions m) (provider_failures m) (network_latencies m)
     (total_space_allocated m) (peak_utilization m) (avg_utilization m).

Definition record_provider_metrics (utilization reputation earnings : Q)
    (m : t) : t :=
  mk (start_time m) (total_requests m) (successful_requests m)
     (failed_requests m) (response_times m)
     (contracts_created m) (contracts_completed m) (contracts_failed m)
     (contract_durations m) (contract_values m)
     (provider_utilizations m ++ [utilization])
     (provider_reputations m ++ [reputation])
     (if Qltb 0 earnings
      then provider_earnings m ++ [earnings] else provider_earnings m)
     (network_corruptions m) (provider_failures m) (network_latencies m)
     (total_space_allocated m) (peak_utilization m) (avg_utilization m).

Definition record_network_event (event_type : string) (latency : Q)
    (m : t) : t :=
  mk (start_time m) (total_requests m) (successful_requests m)
     (failed_requests m) (response_times m)
     (contracts_created m) (contracts_completed m) (contracts_failed m)
     (contract_durations m) (contract_values m)
     (provider_utilizations m) (provider_reputations m) (provider_earnings m)
     (if String.eqb event_type "corruption"
      then network_corruptions m + 1 else network_corruptions m)
     (if String.eqb event_type "corruption" then provider_failures m
      else if String.eqb event_type "provider_failure"
           then provider_failures m + 1 else provider_failures m)
     (if Qltb 0 latency
      then network_latencies m ++ [latency] else network_latencies m)
     (total_space_allocated m) (peak_utilization m) (avg_utilization m).

(** The nested dictionaries [get_summary] returns. *)
Record requests_summary : Type := mk_requests {
  total : Z;
  successful : Z;
  failed : Z;
  success_rate : Q;
  avg_response_time : Q;
  std_response_time : Q
}.

Record contracts_summary : Type := mk_contracts {
  created : Z;
  completed : Z;
  contracts_failed_total : Z;   (* key 'failed' *)
  avg_duration_hours : Q;
  avg_value : Q;
  completion_rate : Q
}.

Record providers_summary : Type := mk_providers {
  providers_avg_utilization : Q;   (* key 'avg_utilization' *)
  avg_reputation : Q;
  total_earnings : Q;
  avg_earnings_per_provider : Q
}.

Record network_summary : Type := mk_network {
  corruptions : Z;
  failures : Z;                    (* key 'provider_failures' *)
  avg_latency : Q;
  corruption_rate : Q
}.

Record summary : Type := mk_summary {
  simulation_duration : Q;
  requests : requests_summary;
  contracts : contracts_summary;
  providers : providers_summary;
  network : network_summary
}.

(** [x if cond else 0], for the guarded statistics. *)
Definition bind {A B} (o : outcome A) (f : A -> outcome B) : outcome B :=
  match o with
  | Return a => f a
  | Raised e => Raised e
  end.

Definition mean_or_zero (l : list Q) : outcome Q :=
  match l with [] => Return 0%Q | _ => mean l end.

Definition stdev_or_zero (float_sqrt : Q -> Q) (l : list Q) : outcome Q :=
  if (1 <? length l)%nat then stdev float_sqrt l else Return 0%Q.

Definition rate (num den : Z) : outcome Q :=
  bind (int_truediv num (Z.max den 1)) (fun r => Return (r * 100)%Q).

Definition get_summary (float_sqrt : Q -> Q) (now : Q) (m : t)
    : outcome summary :=
  let simulation_duration := (now - start_time m)%Q in
  bind (rate (successful_requests m) (total_requests m)) (fun success_rate =>
  bind (mean_or_zero (response_times m)) (fun avg_response_time =>
  bind (stdev_or_zero float_sqrt (response_times m)) (fun std_response_time =>
  bind (mean_or_zero (contract_durations m)) (fun avg_contract_duration =>
  bind (mean_or_zero (contract_values m)) (fun avg_contract_value =>
  bind (mean_or_zero (provider_utilizations m)) (fun avg_utilization =>
  bind (mean_or_zero (provider_reputations m)) (fun avg_reputation =>
  let total_earnings :=
    match provider_earnings m with
    | [] => 0%Q
    | _ => Qsum (provider_earnings m)
    end in
  bind (mean_or_zero (network_latencies m)) (fun avg_network_latency =>
  bind (rate (contracts_completed m) (contracts_created m)) (fun completion =>
  bind (if Qltb 0 total_earnings then truediv total_earnings 3
        else Return 0%Q) (fun per_provider =>
  bind (rate (network_corruptions m) (total_requests m)) (fun corruption =>
  Return
    (mk_summary simulation_duration
       (mk_requests (total_requests m) (successful_requests m)
          (failed_requests m) success_rate avg_response_time
          std_response_time)
       (mk_contracts (contracts_created m) (contracts_completed m)
          (contracts_failed m) avg_contract_duration avg_contract_value
          completion)
       (mk_providers avg_utilization avg_reputation total_earnings
          per_provider)
       (mk_network (network_corruptions m) (provider_failures m)
          avg_network_latency corruption))))))))))))).
End SimulationMetrics.

(** ** Messages *)

Module Message.
(** The body of a message, a dictionary tagged by its ['type'] key.
    [status] and [reason] stay strings, as the handlers compare them;
    a key that a sender may leave out is an [option]. *)
Inductive body : Type :=
| storage_request (request : StorageRequest.t)
| allocation_request (request_id : string) (contract : StorageContract.t)
| allocation_response (request_id : string) (contract_id : option string)
    (status : string) (reason : option string) (provider_id : string)
| storage_response (request_id : string) (status : string)
    (contract : option StorageContract.t) (reason : option string)
| provider_registration (provider_info : ProviderInfo.t)
| status_update (provider_id : string) (available_space_gb : Z)
    (utilization reputation price_per_gb_hour : Q) (active_contracts : Z).

Record envelope : Type := mk {
  from : string;
  to : string;
  payload : body;       (* key 'body' *)
  timestamp : Q;
  latency : Q;
  id : Z
}.

(** The ['status'] and ['reason'] keys of a response. *)
Definition status (b : body) : option string :=
  match b with
  | allocation_response _ _ s _ _ => Some s
  | storage_response _ s _ _ => Some s
  | _ => None
  end.

Definition reason (b : body) : option string :=
  match b with
  | allocation_response _ _ _ r _ => r
  | storage_response _ _ _ r => r
  | _ => None
  end.

(** A send a handler performs: destination and body. *)
Definition outgoing : Type := (string * body)%type.
End Message.

(** ** Message bus *)

Module MessageBus.
Record t : Type := mk {
  mailboxes : gmap string (list Message.envelope);
  message_count : Z
}.

Definition init : t := mk ∅ 0.

(** [self.mailboxes[agent_id] = asyncio.Queue()]: a fresh empty queue,
    also when the id is already registered. *)
Definition register_agent (agent_id : string) (b : t) : t :=
  mk (<[agent_id := []]> (mailboxes b)) (message_count b).

(** What a call of a coroutine with at most one suspension point does:
    it returns at once, or it suspends the caller for [latency] and is
    resumed later on the state and the clock of that moment. *)
Inductive call (S A : Type) : Type :=
| Returns (s : S) (a : A)
| Sleeps (s : S) (latency : Q) (resume : Q -> S -> S * A).
Arguments Returns {S A} s a.
Arguments Sleeps {S A} s latency resume.

(** The envelope is built and put on the queue of [to_agent]; a failing
    [put] (here: no such queue) is caught and reported as [False]. *)
Definition enqueue (from_agent to_agent : string) (message : Message.body)
    (latency now : Q) (b : t) : t * bool :=
  let msg_envelope :=
    Message.mk from_agent to_agent message now latency (message_count b) in
  match mailboxes b !! to_agent with
  | Some queue =>
      (mk (<[to_agent := queue ++ [msg_envelope]]> (mailboxes b))
          (message_count b + 1), true)
  | None => (mk (mailboxes b) (message_count b + 1), false)
  end.

(** [send_message]; [latency] is the draw of [random.uniform(0.05, 0.5)]
    and [now] the clock read when the envelope is built. *)
Definition send_message (from_agent to_agent : string)
    (message : Message.body) (simulate_latency : bool) (latency now : Q)
    (w : t * SimulationMetrics.t) : call (t * SimulationMetrics.t) bool :=
  match mailboxes w.1 !! to_agent with
  | None => Returns w false
  | Some _ =>
      if simulate_latency then
        Sleeps w latency (fun now' w' =>
          let metrics :=
            SimulationMetrics.record_network_event "latency" latency w'.2 in
          let '(b, ok) := enqueue from_agent to_agent message latency now' w'.1 in
          ((b, metrics), ok))
      else
        let '(b, ok) := enqueue from_agent to_agent message 0 now w.1 in
        Returns (b, w.2) ok
  end.


(** [receive_message] when the wait ends: the oldest envelope, or [None]
    on timeout with an empty queue. *)
Definition receive_message (agent_id : string) (b : t)
    : outcome (option Message.envelope * t) :=
  match mailboxes b !! agent_id with
  | None => Raised KeyError
  | Some [] => Return (None, b)
  | Some (msg :: queue) =>
      Return (Some msg, mk (<[agent_id := queue]> (mailboxes b)) (message_count b))
  end.
(** Everything any task can do to the bus while another one sleeps. *)
Inductive step : t -> t -> Prop :=
| step_register agent_id b :
    step b (register_agent agent_id b)
| step_enqueue from_agent to_agent message latency now b :
    step b (enqueue from_agent to_agent message latency now b).1
| step_receive agent_id b msg b' :
    receive_message agent_id b = Return (msg, b') -> step b b'.

Definition registered (agent_id : string) (b : t) : Prop :=
  is_Some (mailboxes b !! agent_id).
End MessageBus.

(** ** Buyer agent *)

Module BuyerAgent.
Record stats_t : Type := mk_stats {
  requests_sent : Z;
  requests_successful : Z;
  requests_failed : Z;
  total_spent : Q;
  total_storage_used : Z;
  avg_response_time : Q;
  contracts_completed : Z
}.

Record t : Type := mk {
  agent_id : string;
  broker_id : string;
  request_interval : Q * Q;
  budget_per_hour : Q;
  pending_requests : gmap string StorageRequest.t;
  active_contracts : gmap string StorageContract.t;
  completed_contracts : list StorageContract.t;
  running : bool;
  stats : stats_t
}.

Definition init (agent_id broker_id : string) (request_interval : Q * Q)
    (budget_per_hour : Q) (bus : MessageBus.t) : t * MessageBus.t :=
  (mk agent_id broker_id request_interval budget_per_hour ∅ ∅ [] false
      (mk_stats 0 0 0 0 0 0 0),
   MessageBus.register_agent agent_id bus).

Definition set_pending (pending : gmap string StorageRequest.t) (a : t) : t :=
  mk (agent_id a) (broker_id a) (request_interval a) (budget_per_hour a)
     pending (active_contracts a) (completed_contracts a) (running a)
     (stats a).

Definition set_active (active : gmap string StorageContract.t) (a : t) : t :=
  mk (agent_id a) (broker_id a) (request_interval a) (budget_per_hour a)
     (pending_requests a) active (completed_contracts a) (running a)
     (stats a).

Definition set_completed (l : list StorageContract.t) (a : t) : t :=
  mk (agent_id a) (broker_id a) (request_interval a) (budget_per_hour a)
     (pending_requests a) (active_contracts a) l (running a) (stats a).

Definition set_stats (s : stats_t) (a : t) : t :=
  mk (agent_id a) (broker_id a) (request_interval a) (budget_per_hour a)
     (pending_requests a) (active_contracts a) (completed_contracts a)
     (running a) s.


(** One iteration of [request_behavior] for the request built above:
    the request is stored as pending, sent to the broker, and, when the
    send returned [success], counted.  [success] is what
    [send_message] returned. *)
Definition request_behavior (request : StorageRequest.t) (success : bool)
    (w : t * SimulationMetrics.t)
    : t * SimulationMetrics.t * list Message.outgoing :=
  let '(a, metrics) := w in
  let a1 :=
    set_pending (<[StorageRequest.request_id request := request]>
                   (pending_requests a)) a in
  let message := Message.storage_request request in
  if success then
    let s := stats a1 in
    let a2 :=
      set_stats (mk_stats (requests_sent s + 1) (requests_successful s)
                   (requests_failed s) (total_spent s)
                   (total_storage_used s) (avg_response_time s)
                   (contracts_completed s)) a1 in
    (a2, SimulationMetrics.record_request false 0 metrics,
     [(broker_id a, message)])
  else (a1, metrics, [(broker_id a, message)]).

Definition update_avg_response_time (response_time : Q) (s : stats_t)
    : stats_t :=
  let total_responses := (requests_successful s + requests_failed s)%Z in
  if (0 <? total_responses)%Z then
    mk_stats (requests_sent s) (requests_successful s) (requests_failed s)
      (total_spent s) (total_storage_used s)
      ((avg_response_time s * (inject_Z total_responses - 1) + response_time)
         / inject_Z total_responses)%Q
      (contracts_completed s)
  else s.

(** [process_response]; [now] is the clock read for the response time.
    A success response without its contract raises before anything is
    changed; the handler logs it and returns. *)
Definition process_response (msg : Message.envelope) (now : Q)
    (w : t * SimulationMetrics.t) : t * SimulationMetrics.t :=
  let '(a, metrics) := w in
  match Message.payload msg with
  | Message.storage_response request_id status contract reason =>
      match pending_requests a !! request_id with
      | None => w
      | Some original_request =>
          let response_time :=
            (now - StorageRequest.timestamp original_request)%Q in
          let s := stats a in
          if String.eqb status "success" then
            match contract with
            | None => w
            | Some contract =>
                let a1 :=
                  set_active
                    (<[StorageContract.contract_id contract := contract]>
                       (active_contracts a)) a in
                let s1 :=
                  mk_stats (requests_sent s) (requests_successful s + 1)
                    (requests_failed s)
                    (total_spent s + StorageContract.total_cost contract)%Q
                    (total_storage_used s + StorageContract.space_gb contract)
                    (avg_response_time s) (contracts_completed s) in
                let metrics1 :=
                  SimulationMetrics.record_contract contract false
                    (SimulationMetrics.record_request true response_time
                       metrics) in
                let a2 :=
                  set_stats (update_avg_response_time response_time s1) a1 in
                (set_pending (delete request_id (pending_requests a2)) a2,
                 metrics1)
            end
          else
            let s1 :=
              mk_stats (requests_sent s) (requests_successful s)
                (requests_failed s + 1) (total_spent s)
                (total_storage_used s) (avg_response_time s)
                (contracts_completed s) in
            let metrics1 :=
              SimulationMetrics.record_request false response_time metrics in
            let a2 :=
              set_stats (update_avg_response_time response_time s1) a in
            (set_pending (delete request_id (pending_requests a2)) a2,
             metrics1)
      end
  | _ => w
  end.

(** [track_contract_completion] once its wait is over. *)
Definition track_contract_completion (contract : StorageContract.t)
    (w : t * SimulationMetrics.t) : t * SimulationMetrics.t :=
  let '(a, metrics) := w in
  let cid := StorageContract.contract_id contract in
  match active_contracts a !! cid with
  | None => w
  | Some _ =>
      let a1 := set_active (delete cid (active_contracts a)) a in
      let a2 := set_completed (completed_contracts a1 ++ [contract]) a1 in
      let s := stats a2 in
      (set_stats
         (mk_stats (requests_sent s) (requests_successful s)
            (requests_failed s) (total_spent s) (total_storage_used s)
            (avg_response_time s) (contracts_completed s + 1)) a2,
       SimulationMetrics.record_contract contract true metrics)
  end.
End BuyerAgent.

(** ** Storage provider agent *)

Module StorageProviderAgent.
Record stats_t : Type := mk_stats {
  requests_received : Z;
  requests_accepted : Z;
  requests_rejected : Z;
  total_earnings : Q;
  uptime : Q;
  avg_utilization : Q;
  contracts_completed : Z;
  current_reputation : Q
}.

Record t : Type := mk {
  agent_id : string;
  broker_id : string;
  total_space_gb : Z;
  available_space_gb : Z;
  base_price_per_gb_hour : Q;
  failure_probability : Q;
  current_price_per_gb_hour : Q;
  active_contracts : gmap string StorageContract.t;
  completed_contracts : list StorageContract.t;
  reputation : Q;
  success_count : Z;
  failure_count : Z;
  stats : stats_t;
  start_time : Q;
  running : bool
}.

Definition init (agent_id broker_id : string) (total_space_gb : Z)
    (base_price_per_gb_hour failure_probability now : Q)
    (bus : MessageBus.t) : t * MessageBus.t :=
  (mk agent_id broker_id total_space_gb total_space_gb
      base_price_per_gb_hour failure_probability base_price_per_gb_hour
      ∅ [] 5.0 0 0 (mk_stats 0 0 0 0 0 0 0 5.0) now false,
   MessageBus.register_agent agent_id bus).

Definition set_stats (s : stats_t) (p : t) : t :=
  mk (agent_id p) (broker_id p) (total_space_gb p) (available_space_gb p)
     (base_price_per_gb_hour p) (failure_probability p)
     (current_price_per_gb_hour p) (active_contracts p)
     (completed_contracts p) (reputation p) (success_count p)
     (failure_count p) s (start_time p) (running p).

(** The capacity ledger: available space, active and completed contracts. *)
Definition set_ledger (available : Z)
    (active : gmap string StorageContract.t)
    (completed : list StorageContract.t) (p : t) : t :=
  mk (agent_id p) (broker_id p) (total_space_gb p) available
     (base_price_per_gb_hour p) (failure_probability p)
     (current_price_per_gb_hour p) active completed (reputation p)
     (success_count p) (failure_count p) (stats p) (start_time p)
     (running p).

Definition set_reputation (rep : Q) (successes failures : Z) (p : t) : t :=
  mk (agent_id p) (broker_id p) (total_space_gb p) (available_space_gb p)
     (base_price_per_gb_hour p) (failure_probability p)
     (current_price_per_gb_hour p) (active_contracts p)
     (completed_contracts p) rep successes failures (stats p)
     (start_time p) (running p).

Definition set_price (price : Q) (p : t) : t :=
  mk (agent_id p) (broker_id p) (total_space_gb p) (available_space_gb p)
     (base_price_per_gb_hour p) (failure_probability p) price
     (active_contracts p) (completed_contracts p) (reputation p)
     (success_count p) (failure_count p) (stats p) (start_time p)
     (running p).

(** [register_with_broker]: the registration message sent at start. *)
Definition register_with_broker (now : Q) (p : t) : Message.outgoing :=
  (broker_id p,
   Message.provider_registration
     (ProviderInfo.mk (agent_id p) (total_space_gb p) (available_space_gb p)
        (reputation p) (current_price_per_gb_hour p) now (success_count p)
        (failure_count p) 0.1)).

(** [can_fulfill_request]; [draw] is the value of [random.random()]. *)
Definition can_fulfill_request (space_needed : Z) (draw : Q) (p : t) : bool :=
  if (available_space_gb p <? space_needed)%Z then false
  else if Qltb draw (failure_probability p) then false
  else true.

Definition get_utilization (p : t) : outcome Q :=
  int_truediv (total_space_gb p - available_space_gb p) (total_space_gb p).

(** [update_reputation]: the counters and the reputation are updated,
    then the sample is recorded in the global metrics; the utilization
    read for the sample raises when the provider has no capacity. *)
Definition update_reputation (success : bool)
    (w : t * SimulationMetrics.t) : t * SimulationMetrics.t * outcome unit :=
  let '(p, metrics) := w in
  let p1 :=
    if success
    then set_reputation (py_min (reputation p * 1.02) 10.0)
           (success_count p + 1) (failure_count p) p
    else set_reputation (py_max (reputation p * 0.98) 0.1)
           (success_count p) (failure_count p + 1) p in
  let s := stats p1 in
  let p2 :=
    set_stats (mk_stats (requests_received s) (requests_accepted s)
                 (requests_rejected s) (total_earnings s) (uptime s)
                 (avg_utilization s) (contracts_completed s)
                 (reputation p1)) p1 in
  match get_utilization p2 with
  | Raised e => (p2, metrics, Raised e)
  | Return utilization =>
      (p2,
       SimulationMetrics.record_provider_metrics utilization (reputation p2)
         (total_earnings (stats p2)) metrics,
       Return tt)
  end.

Definition count_received (p : t) : t :=
  let s := stats p in
  set_stats (mk_stats (requests_received s + 1) (requests_accepted s)
               (requests_rejected s) (total_earnings s) (uptime s)
               (avg_utilization s) (contracts_completed s)
               (current_reputation s)) p.

Definition count_accepted (cost : Q) (p : t) : t :=
  let s := stats p in
  set_stats (mk_stats (requests_received s) (requests_accepted s + 1)
               (requests_rejected s) (total_earnings s + cost)%Q (uptime s)
               (avg_utilization s) (contracts_completed s)
               (current_reputation s)) p.

Definition count_rejected (p : t) : t :=
  let s := stats p in
  set_stats (mk_stats (requests_received s) (requests_accepted s)
               (requests_rejected s + 1) (total_earnings s) (uptime s)
               (avg_utilization s) (contracts_completed s)
               (current_reputation s)) p.

(** [process_allocation_request], run on the state the provider has when
    its simulated processing delay is over (the request was counted as
    received before the delay); [draw] is the value of [random.random()]
    for the failure test.  An exception raised on the way is logged by the
    handler and no response is sent. *)
Definition process_allocation_request (msg : Message.envelope) (draw : Q)
    (w : t * SimulationMetrics.t)
    : t * SimulationMetrics.t * list Message.outgoing :=
  let '(p, metrics) := w in
  match Message.payload msg with
  | Message.allocation_request request_id contract =>
      let p := count_received p in
      let space_needed := StorageContract.space_gb contract in
      if can_fulfill_request space_needed draw p then
        let cid := StorageContract.contract_id contract in
        let p :=
          set_ledger (available_space_gb p - space_needed)
            (<[cid := contract]> (active_contracts p))
            (completed_contracts p) p in
        let p := count_accepted (StorageContract.total_cost contract) p in
        match update_reputation true (p, metrics) with
        | (p, metrics, Raised _) => (p, metrics, [])
        | (p, metrics, Return _) =>
            (p, metrics,
             [(Message.from msg,
               Message.allocation_response request_id (Some cid) "accepted"
                 None (agent_id p))])
        end
      else
        let p := count_rejected p in
        match update_reputation false (p, metrics) with
        | (p, metrics, Raised _) => (p, metrics, [])
        | (p, metrics, Return _) =>
            let metrics :=
              SimulationMetrics.record_network_event "provider_failure" 0
                metrics in
            let reason :=
              if (available_space_gb p <? space_needed)%Z
              then "insufficient_space" else "provider_failure" in
            (p, metrics,
             [(Message.from msg,
               Message.allocation_response request_id None "rejected"
                 (Some reason) (agent_id p))])
        end
  | _ => (p, metrics, [])
  end.

(** Total [space_gb] of a set of contracts. *)
Definition reserved (contracts : gmap string StorageContract.t) : Z :=
  map_fold (fun _ c acc => (StorageContract.space_gb c + acc)%Z) 0%Z contracts.

Definition expired (now : Q) (c : StorageContract.t) : bool :=
  Qle_bool (StorageContract.end_time c) now.

(** One pass of [contract_manager] at time [now]: every active contract
    with [now >= end_time] releases its space, is marked completed and
    leaves the active set. *)
Definition contract_manager (now : Q) (p : t) : t :=
  let done :=
    filter (fun kv => expired now kv.2 = true) (active_contracts p) in
  let kept :=
    filter (fun kv => expired now kv.2 = false) (active_contracts p) in
  let p :=
    set_ledger (available_space_gb p + reserved done) kept
      (completed_contracts p
         ++ map (fun kv => StorageContract.set_status "completed" kv.2)
              (map_to_list done)) p in
  let s := stats p in
  set_stats (mk_stats (requests_received s) (requests_accepted s)
               (requests_rejected s) (total_earnings s) (uptime s)
               (avg_utilization s)
               (contracts_completed s + Z.of_nat (size done))
               (current_reputation s)) p.

(** One pass of [status_updater]. *)
Definition status_updater (now : Q) (p : t) : t * list Message.outgoing :=
  let s := stats p in
  let p1 :=
    set_stats (mk_stats (requests_received s) (requests_accepted s)
                 (requests_rejected s) (total_earnings s)
                 (now - start_time p)%Q (avg_utilization s)
                 (contracts_completed s) (current_reputation s)) p in
  match get_utilization p1 with
  | Raised _ => (p1, [])
  | Return utilization =>
      let s := stats p1 in
      let p2 :=
        set_stats (mk_stats (requests_received s) (requests_accepted s)
                     (requests_rejected s) (total_earnings s) (uptime s)
                     utilization (contracts_completed s)
                     (current_reputation s)) p1 in
      (p2,
       [(broker_id p2,
         Message.status_update (agent_id p2) (available_space_gb p2)
           utilization (reputation p2) (current_price_per_gb_hour p2)
           (Z.of_nat (size (active_contracts p2))))])
  end.

(** One pass of [dynamic_pricing]. *)
Definition dynamic_pricing (p : t) : t :=
  match get_utilization p with
  | Raised _ => p
  | Return utilization =>
      let base := base_price_per_gb_hour p in
      if Qltb 0.8 utilization
      then set_price (py_min (base * 1.5) (base * 2.0)) p
      else if Qltb utilization 0.3
           then set_price (py_max (base * 0.8) (base * 0.5)) p
           else set_price base p
  end.
End StorageProviderAgent.

(** ** Insertion-ordered dictionaries and stable sorting *)

Module OrderedDict.
Section Dict.
Context {V : Type}.

Definition t : Type := list (string * V).

Fixpoint get (k : string) (d : t) : option V :=
  match d with
  | [] => None
  | (k', v) :: d' => if String.eqb k' k then Some v else get k d'
  end.

(** [d[k] = v]: an existing key keeps its place, a new key goes last. *)
Fixpoint set (k : string) (v : V) (d : t) : t :=
  match d with
  | [] => [(k, v)]
  | (k', v') :: d' =>
      if String.eqb k' k then (k', v) :: d' else (k', v') :: set k v d'
  end.

(** [del d[k]], guarded by [k in d]. *)
Fixpoint del (k : string) (d : t) : t :=
  match d with
  | [] => []
  | (k', v') :: d' =>
      if String.eqb k' k then d' else (k', v') :: del k d'
  end.

Definition values (d : t) : list V := map snd d.
End Dict.
Arguments t V : clear implicits.
End OrderedDict.

Section StableSort.
Context {A : Type}.

(** [x] comes before every element of [l] in the input: it is placed
    before the first element whose key is not greater than its own. *)
Fixpoint insert_desc (x : Q * A) (l : list (Q * A)) : list (Q * A) :=
  match l with
  | [] => [x]
  | y :: l' => if Qltb x.1 y.1 then y :: insert_desc x l' else x :: y :: l'
  end.

(** [list.sort(key=..., reverse=True)] on (key, item) pairs: descending
    by key, items of equal key in their input order. *)
Definition sort_desc (l : list (Q * A)) : list (Q * A) :=
  foldr insert_desc [] l.
End StableSort.

(** ** Broker agent *)

Module IntermediaryNetworkAgent.
Record stats_t : Type := mk_stats {
  requests_processed : Z;
  successful_allocations : Z;
  failed_allocations : Z;
  corrupted_contracts : Z;
  active_providers : Z;
  total_providers_registered : Z;
  avg_response_time : Q
}.

(** [ProviderInfo] objects are mutable and shared between the registry
    and the pending allocations: they live in [objects] and are held by
    reference. *)
Record t : Type := mk {
  agent_id : string;
  corruption_probability : Q;
  objects : gmap nat ProviderInfo.t;
  next_object : nat;
  providers : OrderedDict.t nat;
  provider_last_seen : gmap string Q;
  pending_allocations : gmap string (string * StorageRequest.t * nat);
  stats : stats_t;
  running : bool
}.

Definition init (agent_id : string) (corruption_probability : Q)
    (bus : MessageBus.t) : t * MessageBus.t :=
  (mk agent_id corruption_probability ∅ 0 [] ∅ ∅
      (mk_stats 0 0 0 0 0 0 0) false,
   MessageBus.register_agent agent_id bus).

Definition set_objects (o : gmap nat ProviderInfo.t) (n : nat) (b : t) : t :=
  mk (agent_id b) (corruption_probability b) o n (providers b)
     (provider_last_seen b) (pending_allocations b) (stats b) (running b).

Definition set_registry (ps : OrderedDict.t nat) (seen : gmap string Q)
    (b : t) : t :=
  mk (agent_id b) (corruption_probability b) (objects b) (next_object b) ps
     seen (pending_allocations b) (stats b) (running b).

Definition set_pending
    (pending : gmap string (string * StorageRequest.t * nat)) (b : t) : t :=
  mk (agent_id b) (corruption_probability b) (objects b) (next_object b)
     (providers b) (provider_last_seen b) pending (stats b) (running b).

Definition set_stats (s : stats_t) (b : t) : t :=
  mk (agent_id b) (corruption_probability b) (objects b) (next_object b)
     (providers b) (provider_last_seen b) (pending_allocations b) s
     (running b).

(** [self.providers.values()], each object with its reference. *)
Definition provider_objects (b : t) : list (nat * ProviderInfo.t) :=
  omap (fun r => (fun p => (r, p)) <$> objects b !! r)
    (OrderedDict.values (providers b)).

Definition set_active_providers (b : t) : t :=
  let s := stats b in
  set_stats (mk_stats (requests_processed s) (successful_allocations s)
               (failed_allocations s) (corrupted_contracts s)
               (Z.of_nat (length (providers b)))
               (total_providers_registered s) (avg_response_time s)) b.

Definition handle_provider_registration (msg : Message.envelope) (now : Q)
    (b : t) : t :=
  match Message.payload msg with
  | Message.provider_registration provider_info =>
      let r := next_object b in
      let id := ProviderInfo.agent_id provider_info in
      let b := set_objects (<[r := provider_info]> (objects b)) (S r) b in
      let b :=
        set_registry (OrderedDict.set id r (providers b))
          (<[id := now]> (provider_last_seen b)) b in
      let known :=
        map (fun rp => ProviderInfo.agent_id rp.2) (provider_objects b) in
      let s := stats b in
      let b :=
        if bool_decide (id ∈ known) then b
        else
          set_stats (mk_stats (requests_processed s)
                       (successful_allocations s) (failed_allocations s)
                       (corrupted_contracts s) (active_providers s)
                       (total_providers_registered s + 1)
                       (avg_response_time s)) b in
      set_active_providers b
  | _ => b
  end.

(** The requirements test of [select_provider]. *)
Definition suitable (b : t) (request : StorageRequest.t) (current_time : Q)
    (provider : ProviderInfo.t) : bool :=
  (StorageRequest.space_gb request <=? ProviderInfo.available_space_gb provider)%Z
  && Qle_bool (ProviderInfo.price_per_gb_hour provider)
       (StorageRequest.max_price_per_gb_hour request)
  && Qle_bool 1.0 (ProviderInfo.reputation provider)
  && Qltb (current_time
           - default 0%Q
               (provider_last_seen b !! ProviderInfo.agent_id provider))%Q
       30.

Definition calculate_score (request : StorageRequest.t)
    (provider : ProviderInfo.t) : outcome Q :=
  let reputation_score := (ProviderInfo.reputation provider / 10.0 * 0.4)%Q in
  let max_price := StorageRequest.max_price_per_gb_hour request in
  match truediv (ProviderInfo.price_per_gb_hour provider) max_price with
  | Raised e => Raised e
  | Return price_ratio =>
      let price_score := ((1.0 - price_ratio) * 0.3)%Q in
      match int_truediv (ProviderInfo.available_space_gb provider)
              (ProviderInfo.total_space_gb provider) with
      | Raised e => Raised e
      | Return availability =>
          let availability_score := (availability * 0.2)%Q in
          let total_attempts :=
            (ProviderInfo.success_count provider
             + ProviderInfo.failure_count provider)%Z in
          match int_truediv (ProviderInfo.success_count provider)
                  (Z.max total_attempts 1) with
          | Raised e => Raised e
          | Return rate =>
              let success_rate := (rate * 0.1)%Q in
              Return (reputation_score + price_score + availability_score
                      + success_rate)%Q
          end
      end
  end.

(** The sort keys of the candidates, computed in order; the first
    exception ends the computation. *)
Fixpoint keyed (request : StorageRequest.t)
    (l : list (nat * ProviderInfo.t))
    : outcome (list (Q * (nat * ProviderInfo.t))) :=
  match l with
  | [] => Return []
  | rp :: l' =>
      match calculate_score request rp.2 with
      | Raised e => Raised e
      | Return score =>
          match keyed request l' with
          | Raised e => Raised e
          | Return ks => Return ((score, rp) :: ks)
          end
      end
  end.

Definition candidates (b : t) (request : StorageRequest.t)
    (current_time : Q) : list (nat * ProviderInfo.t) :=
  filter (fun rp => suitable b request current_time rp.2 = true)
    (provider_objects b).

(** [select_provider]: the selected object and its reference, or [None];
    an exception while scoring is logged and gives [None]. *)
Definition select_provider (b : t) (request : StorageRequest.t)
    (current_time : Q) : option (nat * ProviderInfo.t) :=
  let suitable_providers := candidates b request current_time in
  match suitable_providers with
  | [] => None
  | _ =>
      match keyed request suitable_providers with
      | Raised _ => None
      | Return ks => snd <$> head (sort_desc ks)
      end
  end.

Definition send_failure_response (buyer_id request_id reason : string)
    : list Message.outgoing :=
  [(buyer_id, Message.storage_response request_id "failure" None (Some reason))].

(** The four clock readings of [handle_storage_request], in the order
    the code takes them. *)
Record request_clock : Type := mk_clock {
  at_selection : Q;
  at_contract_id : Q;
  at_start : Q;
  at_end : Q
}.

(** The pending contract built for [request] and the selected provider;
    [suffix] is the draw of [randint(1000, 9999)]. *)
Definition pending_contract (request : StorageRequest.t)
    (selected_provider : ProviderInfo.t) (suffix : Z) (clock : request_clock)
    : StorageContract.t :=
  let total_cost :=
    (inject_Z (StorageRequest.space_gb request)
     * StorageRequest.duration_hours request
     * ProviderInfo.price_per_gb_hour selected_provider)%Q in
  StorageContract.mk
    ("CONT-" +:+ pretty (py_int (at_contract_id clock)) +:+ "-"
       +:+ pretty suffix)%string
    (StorageRequest.buyer_id request)
    (ProviderInfo.agent_id selected_provider)
    (StorageRequest.space_gb request)
    (StorageRequest.duration_hours request)
    (ProviderInfo.price_per_gb_hour selected_provider)
    total_cost
    (at_start clock)
    (at_end clock + StorageRequest.duration_hours request * 3600)%Q
    "pending".

Definition handle_storage_request (msg : Message.envelope) (suffix : Z)
    (clock : request_clock) (b : t) : t * list Message.outgoing :=
  match Message.payload msg with
  | Message.storage_request request =>
      let buyer_id := Message.from msg in
      let s := stats b in
      let b :=
        set_stats (mk_stats (requests_processed s + 1)
                     (successful_allocations s) (failed_allocations s)
                     (corrupted_contracts s) (active_providers s)
                     (total_providers_registered s) (avg_response_time s)) b in
      match select_provider b request (at_selection clock) with
      | Some (r, selected_provider) =>
          let contract :=
            pending_contract request selected_provider suffix clock in
          let b :=
            set_pending
              (<[StorageRequest.request_id request
                 := (buyer_id, request, r)]> (pending_allocations b)) b in
          (b,
           [(ProviderInfo.agent_id selected_provider,
             Message.allocation_request (StorageRequest.request_id request)
               contract)])
      | None =>
          let s := stats b in
          (set_stats (mk_stats (requests_processed s)
                        (successful_allocations s) (failed_allocations s + 1)
                        (corrupted_contracts s) (active_providers s)
                        (total_providers_registered s)
                        (avg_response_time s)) b,
           send_failure_response buyer_id (StorageRequest.request_id request)
             "no_suitable_provider")
      end
  | _ => (b, [])
  end.

(** The broker's own provisional reputation update, on the object the
    registry currently holds under [provider_id]. *)
Definition nudge (accepted : bool) (provider_id : string) (b : t) : t :=
  match OrderedDict.get provider_id (providers b) with
  | None => b
  | Some r =>
      match objects b !! r with
      | None => b
      | Some provider =>
          let provider :=
            if accepted then
              ProviderInfo.mk (ProviderInfo.agent_id provider)
                (ProviderInfo.total_space_gb provider)
                (ProviderInfo.available_space_gb provider)
                (py_min (ProviderInfo.reputation provider * 1.01) 10.0)
                (ProviderInfo.price_per_gb_hour provider)
                (ProviderInfo.last_seen provider)
                (ProviderInfo.success_count provider + 1)
                (ProviderInfo.failure_count provider)
                (ProviderInfo.response_time_avg provider)
            else
              ProviderInfo.mk (ProviderInfo.agent_id provider)
                (ProviderInfo.total_space_gb provider)
                (ProviderInfo.available_space_gb provider)
                (py_max (ProviderInfo.reputation provider * 0.99) 0.1)
                (ProviderInfo.price_per_gb_hour provider)
                (ProviderInfo.last_seen provider)
                (ProviderInfo.success_count provider)
                (ProviderInfo.failure_count provider + 1)
                (ProviderInfo.response_time_avg provider) in
          set_objects (<[r := provider]> (objects b)) (next_object b) b
      end
  end.

(** The contract relayed to the buyer after a non-corrupted acceptance. *)
Definition active_contract (contract_id : string)
    (original_request : StorageRequest.t)
    (selected_provider : ProviderInfo.t) (at_start at_end : Q)
    : StorageContract.t :=
  StorageContract.mk contract_id
    (StorageRequest.buyer_id original_request)
    (ProviderInfo.agent_id selected_provider)
    (StorageRequest.space_gb original_request)
    (StorageRequest.duration_hours original_request)
    (ProviderInfo.price_per_gb_hour selected_provider)
    (inject_Z (StorageRequest.space_gb original_request)
     * StorageRequest.duration_hours original_request
     * ProviderInfo.price_per_gb_hour selected_provider)%Q
    at_start
    (at_end + StorageRequest.duration_hours original_request * 3600)%Q
    "active".

(** What remains of [handle_allocation_response] once the final
    response is built: it is sent to the buyer, the average response
    time is updated and the pending entry is removed. *)
Definition relay (request_id buyer_id : string) (response_time : Q)
    (final_response : Message.body) (b : t) : t * list Message.outgoing :=
  let s := stats b in
  let total_responses :=
    (successful_allocations s + failed_allocations s)%Z in
  let b :=
    if (0 <? total_responses)%Z then
      set_stats (mk_stats (requests_processed s) (successful_allocations s)
                   (failed_allocations s) (corrupted_contracts s)
                   (active_providers s) (total_providers_registered s)
                   ((avg_response_time s * (inject_Z total_responses - 1)
                     + response_time) / inject_Z total_responses)%Q) b
    else b in
  (set_pending (delete request_id (pending_allocations b)) b,
   [(buyer_id, final_response)]).

(** [handle_allocation_response]; [draw] is the value of
    [random.random()] for the corruption test, [now] the clock read for
    the response time, [at_start] and [at_end] the two readings taken
    for the relayed contract. *)
Definition handle_allocation_response (msg : Message.envelope)
    (draw now at_start at_end : Q) (w : t * SimulationMetrics.t)
    : t * SimulationMetrics.t * list Message.outgoing :=
  let '(b, metrics) := w in
  match Message.payload msg with
  | Message.allocation_response request_id contract_id status reason _ =>
      match pending_allocations b !! request_id with
      | None => (b, metrics, [])
      | Some (buyer_id, original_request, r) =>
          match objects b !! r with
          | None => (b, metrics, [])
          | Some selected =>
              let response_time :=
                (now - StorageRequest.timestamp original_request)%Q in
              let s := stats b in
              if String.eqb status "accepted" then
                let b := nudge true (ProviderInfo.agent_id selected) b in
                let corrupted := Qltb draw (corruption_probability b) in
                if corrupted then
                  let s := stats b in
                  let b :=
                    set_stats
                      (mk_stats (requests_processed s)
                         (successful_allocations s + 1)
                         (failed_allocations s) (corrupted_contracts s + 1)
                         (active_providers s) (total_providers_registered s)
                         (avg_response_time s)) b in
                  let metrics :=
                    SimulationMetrics.record_network_event "corruption" 0
                      metrics in
                  let '(b, out) :=
                    relay request_id buyer_id response_time
                      (Message.storage_response request_id "failure" None
                         (Some "network_corruption")) b in
                  (b, metrics, out)
                else
                  match contract_id, objects b !! r with
                  | Some contract_id, Some selected_provider =>
                      let contract_data :=
                        active_contract contract_id original_request
                          selected_provider at_start at_end in
                      let s := stats b in
                      let b :=
                        set_stats
                          (mk_stats (requests_processed s)
                             (successful_allocations s + 1)
                             (failed_allocations s) (corrupted_contracts s)
                             (active_providers s)
                             (total_providers_registered s)
                             (avg_response_time s)) b in
                      let '(b, out) :=
                        relay request_id buyer_id response_time
                          (Message.storage_response request_id "success"
                             (Some contract_data) None) b in
                      (b, metrics, out)
                  | _, _ => (b, metrics, [])
                  end
              else
                let b := nudge false (ProviderInfo.agent_id selected) b in
                let s := stats b in
                let b :=
                  set_stats
                    (mk_stats (requests_processed s)
                       (successful_allocations s) (failed_allocations s + 1)
                       (corrupted_contracts s) (active_providers s)
                       (total_providers_registered s)
                       (avg_response_time s)) b in
                let '(b, out) :=
                  relay request_id buyer_id response_time
                    (Message.storage_response request_id "failure" None
                       (Some (default "provider_rejected" reason))) b in
                (b, metrics, out)
          end
      end
  | _ => (b, metrics, [])
  end.

Definition handle_status_update (msg : Message.envelope)
    (now_object now_registry : Q) (b : t) : t :=
  match Message.payload msg with
  | Message.status_update provider_id available _ reputation price _ =>
      match OrderedDict.get provider_id (providers b) with
      | None => b
      | Some r =>
          match objects b !! r with
          | None => b
          | Some provider =>
              let provider :=
                ProviderInfo.mk (ProviderInfo.agent_id provider)
                  (ProviderInfo.total_space_gb provider) available
                  reputation price now_object
                  (ProviderInfo.success_count provider)
                  (ProviderInfo.failure_count provider)
                  (ProviderInfo.response_time_avg provider) in
              let b :=
                set_objects (<[r := provider]> (objects b)) (next_object b) b in
              set_registry (providers b)
                (<[provider_id := now_registry]> (provider_last_seen b)) b
          end
      end
  | _ => b
  end.

(** One pass of [provider_manager]: providers not seen for more than 60
    seconds leave the registry. *)
Definition provider_manager (current_time : Q) (b : t) : t :=
  let inactive :=
    filter (fun kv => Qltb 60 (current_time - kv.2)%Q = true)
      (provider_last_seen b) in
  let b :=
    set_registry
      (foldr OrderedDict.del (providers b) (map fst (map_to_list inactive)))
      (filter (fun kv => Qltb 60 (current_time - kv.2)%Q = false)
         (provider_last_seen b)) b in
  set_active_providers b.
End IntermediaryNetworkAgent.

(** * Specification vocabulary and scenarios *)

(** A bus with only the broker registered: a send to "ghost" fails at
    once, a send to "network" sleeps and then delivers. *)
Definition demo_bus : MessageBus.t * SimulationMetrics.t :=
  (MessageBus.register_agent "network" MessageBus.init,
   SimulationMetrics.reset 0).

Definition demo_status : Message.body := Message.status_update "p" 1 0 5 1 0.

(** ** Provider: operations, runs and the capacity ledger *)

Module Provider.
Import StorageProviderAgent.

(** [0 <= available <= total] and the space in use is the space of the
    active contracts. *)
Definition ledger_inv (p : StorageProviderAgent.t) : Prop :=
  (0 <= available_space_gb p <= total_space_gb p)%Z
  /\ (total_space_gb p - available_space_gb p
      = reserved (active_contracts p))%Z.

(** No active contract reserves a negative amount of space. *)
Definition nonneg_contracts (p : StorageProviderAgent.t) : Prop :=
  map_Forall (fun _ c => (0 <= StorageContract.space_gb c)%Z)
    (active_contracts p).

(** The atomic steps of a provider: a handled message, a direct
    reputation update, and one pass of each periodic task. *)
Inductive operation : Type :=
| allocation (msg : Message.envelope) (draw : Q)
| reputation_update (success : bool)
| sweep (now : Q)
| status (now : Q)
| pricing.

Definition perform (op : operation)
    (w : StorageProviderAgent.t * SimulationMetrics.t)
    : StorageProviderAgent.t * SimulationMetrics.t :=
  match op with
  | allocation msg draw => (process_allocation_request msg draw w).1
  | reputation_update success => (update_reputation success w).1
  | sweep now => (contract_manager now w.1, w.2)
  | status now => ((status_updater now w.1).1, w.2)
  | pricing => (dynamic_pricing w.1, w.2)
  end.

Definition run (ops : list operation)
    (w : StorageProviderAgent.t * SimulationMetrics.t)
    : StorageProviderAgent.t * SimulationMetrics.t :=
  foldl (fun w op => perform op w) w ops.

(** What the data model asks of an allocation request reaching provider
    [p]: the space is not negative and the contract id is not the id of a
    contract active at [p]. *)
Definition well_formed (op : operation) (p : StorageProviderAgent.t) : Prop :=
  match op with
  | allocation msg _ =>
      match Message.payload msg with
      | Message.allocation_request _ contract =>
          (0 <= StorageContract.space_gb contract)%Z
          /\ active_contracts p !! StorageContract.contract_id contract = None
      | _ => True
      end
  | _ => True
  end.

Fixpoint well_formed_run (ops : list operation)
    (w : StorageProviderAgent.t * SimulationMetrics.t) : Prop :=
  match ops with
  | [] => True
  | op :: ops' => well_formed op w.1 /\ well_formed_run ops' (perform op w)
  end.

(** [op] is not a sweep at or after time [t]. *)
Definition before (t : Q) (op : operation) : Prop :=
  match op with
  | sweep now => (now < t)%Q
  | _ => True
  end.
End Provider.

(** Scenario A of the specification: one provider of 100 GB at 0.5 per GB
    and hour that never fails, and a request of 50 GB for 2 hours. *)
Definition provider_a : StorageProviderAgent.t * SimulationMetrics.t :=
  ((StorageProviderAgent.init "provider0" "network" 100 0.5 0 0
      MessageBus.init).1,
   SimulationMetrics.reset 0).

Definition request_a : StorageRequest.t :=
  StorageRequest.mk "buyer0" 50 2 1 10 "REQ-buyer0-10-100".

Definition info_a : ProviderInfo.t :=
  ProviderInfo.mk "provider0" 100 100 5 0.5 0 0 0 0.1.

Definition clock_a : IntermediaryNetworkAgent.request_clock :=
  IntermediaryNetworkAgent.mk_clock 11 11 11 11.

Definition contract_a : StorageContract.t :=
  IntermediaryNetworkAgent.pending_contract request_a info_a 1234 clock_a.

Definition allocation_a : Message.envelope :=
  Message.mk "network" "provider0"
    (Message.allocation_request "REQ-buyer0-10-100" contract_a) 11 0.1 0.

(** A second request, of 20 GB by another buyer, handled by the broker
    within the same second and with the same draw for the contract id. *)
Definition request_b : StorageRequest.t :=
  StorageRequest.mk "buyer1" 20 3 1 10 "REQ-buyer1-10-200".

Definition contract_b : StorageContract.t :=
  IntermediaryNetworkAgent.pending_contract request_b info_a 1234
    (IntermediaryNetworkAgent.mk_clock 11.5 11.5 11.5 11.5).

Definition allocation_b : Message.envelope :=
  Message.mk "network" "provider0"
    (Message.allocation_request "REQ-buyer1-10-200" contract_b) 11.5 0.1 1.

(** ** Broker: selection *)

Module Selection.
(** [x] is the first item of [l] with the greatest key: the items before
    it have a smaller key, the items after it a key that is not greater. *)
Definition first_max {A : Type} (l : list (Q * A)) (x : Q * A) : Prop :=
  exists before after,
    l = before ++ x :: after
    /\ Forall (fun y => (y.1 < x.1)%Q) before
    /\ Forall (fun y => (y.1 <= x.1)%Q) after.



(** A broker whose registry holds the given provider objects, in order,
    all seen at time [seen]. *)
Definition registry (infos : list ProviderInfo.t) (seen : Q)
    : IntermediaryNetworkAgent.t :=
  foldl
    (fun b info =>
       IntermediaryNetworkAgent.handle_provider_registration
         (Message.mk (ProviderInfo.agent_id info) "network"
            (Message.provider_registration info) seen 0.1 0) seen b)
    (IntermediaryNetworkAgent.init "network" 0.05 MessageBus.init).1
    infos.

(** The registry read as a map: the provider object held under an id. *)
Definition lookup (b : IntermediaryNetworkAgent.t) (provider_id : string)
    : option ProviderInfo.t :=
  match OrderedDict.get provider_id (IntermediaryNetworkAgent.providers b) with
  | Some r => IntermediaryNetworkAgent.objects b !! r
  | None => None
  end.
End Selection.

Definition storage_request_a : Message.envelope :=
  Message.mk "buyer0" "network" (Message.storage_request request_a) 10 0.1 0.






(** The broker of scenario A when the provider's answer arrives: the
    request is pending for "buyer0" with the provider object 0. *)
Definition broker_a : IntermediaryNetworkAgent.t * SimulationMetrics.t :=
  ((IntermediaryNetworkAgent.handle_storage_request storage_request_a 1234
      clock_a (Selection.registry [info_a] 0)).1,
   SimulationMetrics.reset 0).

Definition accepted_a : Message.envelope :=
  Message.mk "provider0" "network"
    (Message.allocation_response "REQ-buyer0-10-100"
       (Some (StorageContract.contract_id contract_a)) "accepted" None
       "provider0") 12 0.1 1.

(** ** Buyers and the global request counters *)

Module Buyers.
(** A step of some buyer, with the state the buyer is in when it takes
    it: an iteration of [request_behavior] whose send returned [success],
    or [process_response] on a received message. *)
Inductive event : Type :=
| sent (a : BuyerAgent.t) (request : StorageRequest.t) (success : bool)
| answered (a : BuyerAgent.t) (msg : Message.envelope) (now : Q).

(** The global metrics after the step. *)
Definition record (m : SimulationMetrics.t) (e : event) : SimulationMetrics.t :=
  match e with
  | sent a request success =>
      (BuyerAgent.request_behavior request success (a, m)).1.2
  | answered a msg now => (BuyerAgent.process_response msg now (a, m)).2
  end.

(** Responses answer requests: along the trace every [storage_response]
    handled by a buyer is matched by an earlier successful send that has
    not been answered before; [credit] counts the successful sends not
    yet answered. *)
Fixpoint causal (credit : nat) (events : list event) : Prop :=
  match events with
  | [] => True
  | sent _ _ true :: events' => causal (S credit) events'
  | sent _ _ false :: events' => causal credit events'
  | answered _ msg _ :: events' =>
      match Message.payload msg with
      | Message.storage_response _ _ _ _ =>
          match credit with
          | O => False
          | S credit' => causal credit' events'
          end
      | _ => causal credit events'
      end
  end.

(** The three request counters: total, successful, failed. *)
Definition counters (m : SimulationMetrics.t) : Z * Z * Z :=
  (SimulationMetrics.total_requests m,
   SimulationMetrics.successful_requests m,
   SimulationMetrics.failed_requests m).

(** Every success, and every successful send still to be answered, is
    paid for by a failure already counted. *)
Definition balanced (credit : nat) (m : SimulationMetrics.t) : Prop :=
  (0 <= SimulationMetrics.successful_requests m)%Z
  /\ (SimulationMetrics.successful_requests m + Z.of_nat credit
      <= SimulationMetrics.failed_requests m)%Z
  /\ (SimulationMetrics.total_requests m
      = SimulationMetrics.successful_requests m
        + SimulationMetrics.failed_requests m)%Z.
End Buyers.

(** A buyer, its request of scenario A, and the answer to it. *)
Definition buyer_a : BuyerAgent.t :=
  (BuyerAgent.init "buyer0" "network" (3%Q, 8%Q) 25 MessageBus.init).1.

Definition success_a : Message.envelope :=
  Message.mk "network" "buyer0"
    (Message.storage_response "REQ-buyer0-10-100" "success"
       (Some (IntermediaryNetworkAgent.active_contract
                (StorageContract.contract_id contract_a) request_a info_a
                12 12)) None) 12 0.1 2.

Definition pending_a : BuyerAgent.t :=
  (BuyerAgent.request_behavior request_a true
     (buyer_a, SimulationMetrics.reset 0)).1.1.

(** * Further vocabulary: runs of the bus, the aggregator and the agents *)

(** ** Bus: sequences of deliveries and receptions *)

Module BusRun.
(** The arguments of one delivery: sender, destination, body, the latency
    slept and the clock read when the envelope is built. *)
Record delivery : Type := mk_delivery {
  sender : string;
  dest : string;
  content : Message.body;
  slept : Q;
  at_time : Q
}.

Definition deliver (b : MessageBus.t) (d : delivery) : MessageBus.t :=
  (MessageBus.enqueue (sender d) (dest d) (content d) (slept d) (at_time d)
     b).1.




(** In every mailbox the ids grow from the oldest envelope to the newest
    and lie below the counter, and every envelope sits in the mailbox of
    its addressee. *)
Definition ordered (b : MessageBus.t) : Prop :=
  forall agent_id queue,
    MessageBus.mailboxes b !! agent_id = Some queue ->
    StronglySorted Z.lt (map Message.id queue)
    /\ Forall (fun e => (Message.id e < MessageBus.message_count b)%Z
                        /\ Message.to e = agent_id) queue.
End BusRun.

(** ** Aggregator: sequences of recordings *)

Module Recording.
Inductive operation : Type :=
| request (successful : bool) (response_time : Q)
| contract (c : StorageContract.t) (completed : bool)
| provider (utilization reputation earnings : Q)
| network (event_type : string) (latency : Q).

Definition perform (m : SimulationMetrics.t) (op : operation)
    : SimulationMetrics.t :=
  match op with
  | request successful response_time =>
      SimulationMetrics.record_request successful response_time m
  | contract c completed => SimulationMetrics.record_contract c completed m
  | provider utilization reputation earnings =>
      SimulationMetrics.record_provider_metrics utilization reputation
        earnings m
  | network event_type latency =>
      SimulationMetrics.record_network_event event_type latency m
  end.

Definition run (start : Q) (ops : list operation) : SimulationMetrics.t :=
  foldl perform (SimulationMetrics.reset start) ops.

(** The counters and samples agree with each other. *)
Definition consistent (m : SimulationMetrics.t) : Prop :=
  (0 <= SimulationMetrics.successful_requests m)%Z
  /\ (0 <= SimulationMetrics.failed_requests m)%Z
  /\ (SimulationMetrics.total_requests m
      = SimulationMetrics.successful_requests m
        + SimulationMetrics.failed_requests m)%Z
  /\ (Z.of_nat (length (SimulationMetrics.response_times m))
      <= SimulationMetrics.total_requests m)%Z
  /\ Forall (fun t => (0 < t)%Q) (SimulationMetrics.response_times m)
  /\ Forall (fun t => (0 < t)%Q) (SimulationMetrics.network_latencies m)
  /\ Forall (fun t => (0 < t)%Q) (SimulationMetrics.provider_earnings m)
  /\ SimulationMetrics.contracts_created m
     = Z.of_nat (length (SimulationMetrics.contract_durations m))
  /\ length (SimulationMetrics.contract_durations m)
     = length (SimulationMetrics.contract_values m)
  /\ length (SimulationMetrics.provider_utilizations m)
     = length (SimulationMetrics.provider_reputations m)
  /\ (0 <= SimulationMetrics.contracts_completed m)%Z
  /\ (0 <= SimulationMetrics.network_corruptions m)%Z
  /\ (0 <= SimulationMetrics.provider_failures m)%Z.
End Recording.

(** ** Buyer: runs of one agent *)

Module BuyerRun.
Inductive step : Type :=
| request (r : StorageRequest.t) (success : bool)
| response (msg : Message.envelope) (now : Q)
| completion (contract : StorageContract.t).

Definition perform (w : BuyerAgent.t * SimulationMetrics.t) (s : step)
    : BuyerAgent.t * SimulationMetrics.t :=
  match s with
  | request r success => (BuyerAgent.request_behavior r success w).1
  | response msg now => BuyerAgent.process_response msg now w
  | completion contract => BuyerAgent.track_contract_completion contract w
  end.

Definition run (steps : list step) (w : BuyerAgent.t * SimulationMetrics.t)
    : BuyerAgent.t * SimulationMetrics.t :=
  foldl perform w steps.

(** The response time [process_response] computes when it acts on the
    message: the request is pending and a success carries its contract. *)
Definition handled (a : BuyerAgent.t) (s : step) : option Q :=
  match s with
  | response msg now =>
      match Message.payload msg with
      | Message.storage_response request_id status contract _ =>
          match BuyerAgent.pending_requests a !! request_id with
          | Some original =>
              if String.eqb status "success" && negb (bool_decide (is_Some contract))
              then None
              else Some (now - StorageRequest.timestamp original)%Q
          | None => None
          end
      | _ => None
      end
  | _ => None
  end.

(** The response times along a run, in order. *)
Fixpoint handled_times (steps : list step)
    (w : BuyerAgent.t * SimulationMetrics.t) : list Q :=
  match steps with
  | [] => []
  | s :: steps' =>
      match handled w.1 s with
      | Some t => t :: handled_times steps' (perform w s)
      | None => handled_times steps' (perform w s)
      end
  end.

(** Every contract a step carries has status ['active'], as every
    contract the broker relays has. *)
Definition relayed (s : step) : Prop :=
  match s with
  | response msg _ =>
      match Message.payload msg with
      | Message.storage_response _ _ (Some c) _ =>
          StorageContract.status c = "active"
      | _ => True
      end
  | completion c => StorageContract.status c = "active"
  | request _ _ => True
  end.

(** The answers counted are as many as [times], and the running average
    times their number is their sum. *)
Definition averaged (a : BuyerAgent.t) (times : list Q) : Prop :=
  (BuyerAgent.requests_successful (BuyerAgent.stats a)
   + BuyerAgent.requests_failed (BuyerAgent.stats a)
   = Z.of_nat (length times))%Z
  /\ (BuyerAgent.avg_response_time (BuyerAgent.stats a) * Qlen times
      == Qsum times)%Q
  /\ (times = [] -> (BuyerAgent.avg_response_time (BuyerAgent.stats a) == 0)%Q).

(** The contracts a buyer holds or has seen complete are counted. *)
Definition contracts_counted (a : BuyerAgent.t) : Prop :=
  BuyerAgent.contracts_completed (BuyerAgent.stats a)
  = Z.of_nat (length (BuyerAgent.completed_contracts a))
  /\ (Z.of_nat (size (BuyerAgent.active_contracts a))
      + Z.of_nat (length (BuyerAgent.completed_contracts a))
      <= BuyerAgent.requests_successful (BuyerAgent.stats a))%Z.

(** The steps that make [process_response] record a new contract. *)
Definition accepted (a : BuyerAgent.t) (s : step) : bool :=
  match s with
  | response msg _ =>
      match Message.payload msg with
      | Message.storage_response request_id status (Some _) _ =>
          bool_decide (is_Some (BuyerAgent.pending_requests a !! request_id))
          && String.eqb status "success"
      | _ => false
      end
  | _ => false
  end.

(** The steps that make [track_contract_completion] move a contract. *)
Definition completes (a : BuyerAgent.t) (s : step) : bool :=
  match s with
  | completion c =>
      bool_decide
        (is_Some (BuyerAgent.active_contracts a
                    !! StorageContract.contract_id c))
  | _ => false
  end.

(** How many steps of a run satisfy [f] in the state they act on. *)
Fixpoint count (f : BuyerAgent.t -> step -> bool) (steps : list step)
    (w : BuyerAgent.t * SimulationMetrics.t) : Z :=
  match steps with
  | [] => 0
  | s :: steps' =>
      ((if f w.1 s then 1 else 0) + count f steps' (perform w s))%Z
  end.
End BuyerRun.

(** ** Broker: message dispatch and runs *)

Module BrokerLoop.
(** The draws and clock readings one handled message may consume. *)
Record inputs : Type := mk_inputs {
  suffix : Z;
  clock : IntermediaryNetworkAgent.request_clock;
  draw : Q;
  now : Q;
  later : Q;
  at_start : Q;
  at_end : Q
}.

(** [process_message]: dispatch on the type of the body; a body of any
    other type is logged and dropped. *)
Definition process_message (msg : Message.envelope) (i : inputs)
    (w : IntermediaryNetworkAgent.t * SimulationMetrics.t)
    : IntermediaryNetworkAgent.t * SimulationMetrics.t
      * list Message.outgoing :=
  match Message.payload msg with
  | Message.provider_registration _ =>
      (IntermediaryNetworkAgent.handle_provider_registration msg (now i) w.1,
       w.2, [])
  | Message.storage_request _ =>
      let '(b, out) :=
        IntermediaryNetworkAgent.handle_storage_request msg (suffix i)
          (clock i) w.1 in
      (b, w.2, out)
  | Message.allocation_response _ _ _ _ _ =>
      IntermediaryNetworkAgent.handle_allocation_response msg (draw i) (now i)
        (at_start i) (at_end i) w
  | Message.status_update _ _ _ _ _ _ =>
      (IntermediaryNetworkAgent.handle_status_update msg (now i) (later i) w.1,
       w.2, [])
  | _ => (w.1, w.2, [])
  end.

(** The atomic steps of the broker: a handled message and one pass of
    [provider_manager]. *)
Inductive operation : Type :=
| message (msg : Message.envelope) (i : inputs)
| manage (current_time : Q).

Definition perform (w : IntermediaryNetworkAgent.t * SimulationMetrics.t)
    (op : operation) : IntermediaryNetworkAgent.t * SimulationMetrics.t :=
  match op with
  | message msg i => (process_message msg i w).1
  | manage current_time =>
      (IntermediaryNetworkAgent.provider_manager current_time w.1, w.2)
  end.

Definition run (ops : list operation)
    (w : IntermediaryNetworkAgent.t * SimulationMetrics.t)
    : IntermediaryNetworkAgent.t * SimulationMetrics.t :=
  foldl perform w ops.

(** Every request processed is pending, answered, or refused, at most
    once; a corrupted acceptance counts as a successful allocation. *)
Definition accounted (b : IntermediaryNetworkAgent.t) : Prop :=
  let s := IntermediaryNetworkAgent.stats b in
  (0 <= IntermediaryNetworkAgent.successful_allocations s)%Z
  /\ (0 <= IntermediaryNetworkAgent.failed_allocations s)%Z
  /\ (0 <= IntermediaryNetworkAgent.corrupted_contracts s
      <= IntermediaryNetworkAgent.successful_allocations s)%Z
  /\ (IntermediaryNetworkAgent.successful_allocations s
      + IntermediaryNetworkAgent.failed_allocations s
      + Z.of_nat (size (IntermediaryNetworkAgent.pending_allocations b))
      <= IntermediaryNetworkAgent.requests_processed s)%Z.
End BrokerLoop.

(** ** Provider: counters and contracts along a run *)

Module ProviderRun.
Import StorageProviderAgent.

(** The steps the tasks of the agent take: [update_reputation] is only
    called from [process_allocation_request]. *)
Definition scheduled (op : Provider.operation) : Prop :=
  match op with
  | Provider.reputation_update _ => False
  | _ => True
  end.


(** Every accepted contract is active or completed, and the reputation
    counters are the request counters. *)
Definition conserved (p : StorageProviderAgent.t) : Prop :=
  (requests_accepted (stats p)
   = Z.of_nat (size (active_contracts p))
     + Z.of_nat (length (completed_contracts p)))%Z
  /\ success_count p = requests_accepted (stats p)
  /\ failure_count p = requests_rejected (stats p).

(** The utilization [get_utilization] computes for a provider with some
    capacity. *)
Definition utilization (p : StorageProviderAgent.t) : Q :=
  (inject_Z (total_space_gb p - available_space_gb p)
   / inject_Z (total_space_gb p))%Q.
End ProviderRun.

(** A provider without capacity, and a request for no space. *)
Definition provider_empty : StorageProviderAgent.t * SimulationMetrics.t :=
  ((StorageProviderAgent.init "provider9" "network" 0 0.5 0 0
      MessageBus.init).1,
   SimulationMetrics.reset 0).

Definition allocation_empty : Message.envelope :=
  Message.mk "network" "provider9"
    (Message.allocation_request "REQ-buyer0-10-300"
       (IntermediaryNetworkAgent.pending_contract
          (StorageRequest.mk "buyer0" 0 2 1 10 "REQ-buyer0-10-300")
          (ProviderInfo.mk "provider9" 0 0 5 0.5 0 0 0 0.1) 4321 clock_a))
    11 0.1 0.

(** A status update of the provider of scenario A, after a price rise. *)
Definition status_a : Message.envelope :=
  Message.mk "provider0" "network"
    (Message.status_update "provider0" 50 0.5 5.1 2 1) 11.5 0.1 1.

(** The provider of scenario A with 70 of its 100 GB taken, and the
    messages of a refusal for lack of space. *)
Definition provider_full : StorageProviderAgent.t :=
  (Provider.run
     [Provider.allocation allocation_a 0.5;
      Provider.allocation allocation_b 0.5] provider_a).1.

Definition rejected_a : Message.envelope :=
  Message.mk "provider0" "network"
    (Message.allocation_response "REQ-buyer0-10-100" None "rejected"
       (Some "insufficient_space") "provider0") 12 0.1 2.

Definition failure_a : Message.envelope :=
  Message.mk "network" "buyer0"
    (Message.storage_response "REQ-buyer0-10-100" "failure" None
       (Some "insufficient_space")) 12 0.1 3.

(** The status message of the provider of scenario A once it has taken
    the contract: half of its space is in use and its reputation rose. *)
Definition status_b : Message.envelope :=
  Message.mk "provider0" "network"
    (Message.status_update "provider0" 50 (50 # 100) (5100 # 1000) 0.5 1)
    12 0.1 4.
(** * Properties *)

(** ** Python primitives *)

Lemma Qltb_lt (x y : Q) : Qltb x y = true <-> (x < y)%Q.
Proof.
  unfold Qltb. rewrite negb_true_iff. split.
  - intros H. apply Qnot_le_lt. intros Hle.
    apply Qle_bool_iff in Hle. congruence.
  - intros H. destruct (Qle_bool y x) eqn:E; [|reflexivity].
    apply Qle_bool_iff in E. exfalso. apply (Qlt_not_le _ _ H E).
Qed.

Lemma Qltb_ge (x y : Q) : Qltb x y = false <-> (y <= x)%Q.
Proof.
  unfold Qltb. rewrite negb_false_iff. apply Qle_bool_iff.
Qed.

Lemma py_min_le_r (a b : Q) : (py_min a b <= b)%Q.
Proof.
  unfold py_min. destruct (Qltb b a) eqn:E.
  - apply Qle_refl.
  - by apply Qltb_ge in E.
Qed.

Lemma py_min_ge (a b c : Q) : (c <= a)%Q -> (c <= b)%Q -> (c <= py_min a b)%Q.
Proof. intros Ha Hb. unfold py_min. by destruct (Qltb b a). Qed.

Lemma py_max_ge_r (a b : Q) : (b <= py_max a b)%Q.
Proof.
  unfold py_max. destruct (Qltb a b) eqn:E.
  - apply Qle_refl.
  - by apply Qltb_ge in E.
Qed.

Lemma py_max_le (a b c : Q) : (a <= c)%Q -> (b <= c)%Q -> (py_max a b <= c)%Q.
Proof. intros Ha Hb. unfold py_max. by destruct (Qltb a b). Qed.

Lemma Qzero_false (x : Q) : ¬ (x == 0)%Q -> Qzero x = false.
Proof.
  intros H. unfold Qzero. destruct (Qeq_bool x 0) eqn:E; [|reflexivity].
  exfalso. by apply H, Qeq_bool_iff.
Qed.

Lemma Qzero_true (x : Q) : (x == 0)%Q -> Qzero x = true.
Proof. intros H. by apply Qeq_bool_iff. Qed.

Lemma int_truediv_nonzero (a b : Z) :
  b ≠ 0%Z -> int_truediv a b = Return (inject_Z a / inject_Z b)%Q.
Proof.
  intros Hb. unfold int_truediv, truediv. rewrite Qzero_false; [reflexivity|].
  unfold Qeq. simpl. lia.
Qed.

(** ** Metrics aggregator *)

Module MetricsFacts.
Import SimulationMetrics.

Lemma rate_returns (num den : Z) :
  rate num den = Return (inject_Z num / inject_Z (Z.max den 1) * 100)%Q.
Proof. unfold rate. rewrite int_truediv_nonzero; [reflexivity | lia]. Qed.

Lemma mean_or_zero_returns (l : list Q) :
  exists r, mean_or_zero l = Return r /\ (l = [] -> r = 0%Q).
Proof.
  destruct l as [|x l]; simpl.
  - by exists 0%Q.
  - eexists. split; [reflexivity | discriminate].
Qed.

Lemma stdev_or_zero_returns (float_sqrt : Q -> Q) (l : list Q) :
  exists r, stdev_or_zero float_sqrt l = Return r
            /\ ((length l < 2)%nat -> r = 0%Q).
Proof.
  destruct l as [|x [|y l]]; unfold stdev_or_zero; simpl.
  - by exists 0%Q.
  - by exists 0%Q.
  - eexists. split; [reflexivity | lia].
Qed.

Lemma per_provider_returns (total_earnings : Q) :
  exists r,
    (if Qltb 0 total_earnings then truediv total_earnings 3 else Return 0%Q)
    = Return r
    /\ (total_earnings = 0%Q -> r = 0%Q).
Proof.
  destruct (Qltb 0 total_earnings) eqn:E.
  - eexists. split; [reflexivity|]. intros ->. discriminate.
  - by exists 0%Q.
Qed.
(** [get_summary] never raises, and what it reports. *)
Lemma get_summary_returns (float_sqrt : Q -> Q) (now : Q)
    (m : SimulationMetrics.t) :
  exists s : SimulationMetrics.summary,
    SimulationMetrics.get_summary float_sqrt now m = Return s
    /\ (SimulationMetrics.response_times m = [] ->
        SimulationMetrics.avg_response_time (SimulationMetrics.requests s) = 0%Q)
    /\ ((length (SimulationMetrics.response_times m) < 2)%nat ->
        SimulationMetrics.std_response_time (SimulationMetrics.requests s) = 0%Q)
    /\ (SimulationMetrics.contract_durations m = [] ->
        SimulationMetrics.avg_duration_hours (SimulationMetrics.contracts s) = 0%Q)
    /\ (SimulationMetrics.contract_values m = [] ->
        SimulationMetrics.avg_value (SimulationMetrics.contracts s) = 0%Q)
    /\ (SimulationMetrics.provider_utilizations m = [] ->
        SimulationMetrics.providers_avg_utilization
          (SimulationMetrics.providers s) = 0%Q)
    /\ (SimulationMetrics.provider_reputations m = [] ->
        SimulationMetrics.avg_reputation (SimulationMetrics.providers s) = 0%Q)
    /\ (SimulationMetrics.network_latencies m = [] ->
        SimulationMetrics.avg_latency (SimulationMetrics.network s) = 0%Q)
    /\ (SimulationMetrics.provider_earnings m = [] ->
        SimulationMetrics.total_earnings (SimulationMetrics.providers s) = 0%Q
        /\ SimulationMetrics.avg_earnings_per_provider
             (SimulationMetrics.providers s) = 0%Q)
    /\ SimulationMetrics.success_rate (SimulationMetrics.requests s)
       = (inject_Z (SimulationMetrics.successful_requests m)
          / inject_Z (Z.max (SimulationMetrics.total_requests m) 1) * 100)%Q
    /\ SimulationMetrics.completion_rate (SimulationMetrics.contracts s)
       = (inject_Z (SimulationMetrics.contracts_completed m)
          / inject_Z (Z.max (SimulationMetrics.contracts_created m) 1) * 100)%Q.
Proof.
  unfold SimulationMetrics.get_summary.
  rewrite !rate_returns. simpl.
  destruct (mean_or_zero_returns
              (SimulationMetrics.response_times m)) as (a1 & -> & H1).
  destruct (stdev_or_zero_returns float_sqrt
              (SimulationMetrics.response_times m)) as (a2 & -> & H2).
  destruct (mean_or_zero_returns
              (SimulationMetrics.contract_durations m)) as (a3 & -> & H3).
  destruct (mean_or_zero_returns
              (SimulationMetrics.contract_values m)) as (a4 & -> & H4).
  destruct (mean_or_zero_returns
              (SimulationMetrics.provider_utilizations m)) as (a5 & -> & H5).
  destruct (mean_or_zero_returns
              (SimulationMetrics.provider_reputations m)) as (a6 & -> & H6).
  destruct (mean_or_zero_returns
              (SimulationMetrics.network_latencies m)) as (a7 & -> & H7).
  simpl.
  match goal with
  | |- context [if Qltb 0 ?e then _ else _] =>
      destruct (per_provider_returns e) as (a8 & -> & H8)
  end.
  simpl. eexists. split; [reflexivity|]. simpl.
  repeat split; try assumption.
  - match goal with E : _ = [] |- _ => by rewrite E end.
  - match goal with E : _ = [] |- _ => apply H8; by rewrite E end.
Qed.
End MetricsFacts.

(** C10.  [get_summary] returns a summary for every state of the
    aggregator (no operation in it raises: each mean and the standard
    deviation are guarded by the size of their sample, each rate divides
    by [max(count, 1)]).  In the summary the mean of an empty sample is 0,
    the standard deviation of fewer than two response times is 0, and
    without recorded earnings both earnings figures are 0. *)
Theorem get_summary_total (float_sqrt : Q -> Q) (now : Q)
    (m : SimulationMetrics.t) :
  exists s : SimulationMetrics.summary,
    SimulationMetrics.get_summary float_sqrt now m = Return s
    /\ (SimulationMetrics.response_times m = [] ->
        SimulationMetrics.avg_response_time (SimulationMetrics.requests s) = 0%Q)
    /\ ((length (SimulationMetrics.response_times m) < 2)%nat ->
        SimulationMetrics.std_response_time (SimulationMetrics.requests s) = 0%Q)
    /\ (SimulationMetrics.contract_durations m = [] ->
        SimulationMetrics.avg_duration_hours (SimulationMetrics.contracts s) = 0%Q)
    /\ (SimulationMetrics.contract_values m = [] ->
        SimulationMetrics.avg_value (SimulationMetrics.contracts s) = 0%Q)
    /\ (SimulationMetrics.provider_utilizations m = [] ->
        SimulationMetrics.providers_avg_utilization
          (SimulationMetrics.providers s) = 0%Q)
    /\ (SimulationMetrics.provider_reputations m = [] ->
        SimulationMetrics.avg_reputation (SimulationMetrics.providers s) = 0%Q)
    /\ (SimulationMetrics.network_latencies m = [] ->
        SimulationMetrics.avg_latency (SimulationMetrics.network s) = 0%Q)
    /\ (SimulationMetrics.provider_earnings m = [] ->
        SimulationMetrics.total_earnings (SimulationMetrics.providers s) = 0%Q
        /\ SimulationMetrics.avg_earnings_per_provider
             (SimulationMetrics.providers s) = 0%Q)
    /\ SimulationMetrics.success_rate (SimulationMetrics.requests s)
       = (inject_Z (SimulationMetrics.successful_requests m)
          / inject_Z (Z.max (SimulationMetrics.total_requests m) 1) * 100)%Q
    /\ SimulationMetrics.completion_rate (SimulationMetrics.contracts s)
       = (inject_Z (SimulationMetrics.contracts_completed m)
          / inject_Z (Z.max (SimulationMetrics.contracts_created m) 1) * 100)%Q.
Proof. apply MetricsFacts.get_summary_returns. Qed.

(** The summary of a freshly reset aggregator. *)
Lemma get_summary_total_witness :
  exists s : SimulationMetrics.summary,
    SimulationMetrics.get_summary (fun x => x) 7 (SimulationMetrics.reset 5)
    = Return s
    /\ SimulationMetrics.avg_response_time (SimulationMetrics.requests s) = 0%Q
    /\ SimulationMetrics.std_response_time (SimulationMetrics.requests s) = 0%Q
    /\ SimulationMetrics.avg_latency (SimulationMetrics.network s) = 0%Q.
Proof.
  destruct (get_summary_total (fun x => x) 7 (SimulationMetrics.reset 5))
    as (s & Hs & H1 & H2 & _ & _ & _ & _ & H7 & _).
  exists s. split; [exact Hs|]. split; [by apply H1|].
  split; [apply H2; simpl; lia | by apply H7].
Defined.

(** ** Message bus *)

Module BusFacts.
Import MessageBus.

Lemma step_registered agent_id b b' :
  step b b' -> registered agent_id b -> registered agent_id b'.
Proof.
  unfold registered.
  intros Hstep Hreg. destruct Hstep as [a b | f a msg l n b | a b o b' Hrecv].
  - simpl. destruct (decide (a = agent_id)) as [->|Hne].
    + rewrite lookup_insert_eq. by eexists.
    + by rewrite lookup_insert_ne.
  - unfold enqueue. destruct (mailboxes b !! a) as [queue|] eqn:Ha; simpl.
    + destruct (decide (a = agent_id)) as [->|Hne].
      * rewrite lookup_insert_eq. by eexists.
      * by rewrite lookup_insert_ne.
    + exact Hreg.
  - unfold receive_message in Hrecv.
    destruct (mailboxes b !! a) as [[|msg queue]|] eqn:Ha; simplify_eq.
    + exact Hreg.
    + simpl. destruct (decide (a = agent_id)) as [->|Hne].
      * rewrite lookup_insert_eq. by eexists.
      * by rewrite lookup_insert_ne.
Qed.

(** No agent is ever unregistered. *)
Lemma registered_stable agent_id b b' :
  rtc step b b' -> registered agent_id b -> registered agent_id b'.
Proof.
  induction 1 as [|b1 b2 b3 H12 _ IH]; [done|].
  intros Hreg. apply IH. by eapply step_registered.
Qed.

Lemma enqueue_registered from_agent to_agent message latency now b queue :
  mailboxes b !! to_agent = Some queue ->
  enqueue from_agent to_agent message latency now b
  = (mk (<[to_agent :=
             queue ++ [Message.mk from_agent to_agent message now latency
                         (message_count b)]]> (mailboxes b))
        (message_count b + 1), true).
Proof. intros H. unfold enqueue. by rewrite H. Qed.
End BusFacts.

(** C9.  A send to an unregistered destination returns [False] at once:
    the call does not sleep and the bus (every mailbox, the message
    counter) and the metrics are left as they were.  A send to a registered
    destination returns [True] with the envelope appended to the
    destination's queue, every other queue untouched: at once without
    latency simulation, and otherwise when the caller is resumed after
    sleeping for the latency, whatever the other tasks did to the bus in
    between. *)
Theorem send_message_delivery (from_agent to_agent : string)
    (message : Message.body) (simulate_latency : bool) (latency now : Q)
    (w : MessageBus.t * SimulationMetrics.t) :
  (MessageBus.mailboxes w.1 !! to_agent = None ->
   MessageBus.send_message from_agent to_agent message simulate_latency
     latency now w = MessageBus.Returns w false)
  /\ (forall queue, MessageBus.mailboxes w.1 !! to_agent = Some queue ->
      (simulate_latency = false ->
       MessageBus.send_message from_agent to_agent message simulate_latency
         latency now w
       = MessageBus.Returns
           (MessageBus.mk
              (<[to_agent :=
                   queue ++ [Message.mk from_agent to_agent message now 0
                               (MessageBus.message_count w.1)]]>
                 (MessageBus.mailboxes w.1))
              (MessageBus.message_count w.1 + 1), w.2) true)
      /\ (simulate_latency = true ->
          exists resume,
            MessageBus.send_message from_agent to_agent message
              simulate_latency latency now w
            = MessageBus.Sleeps w latency resume
            /\ forall now' b' metrics',
                rtc MessageBus.step w.1 b' ->
                exists queue',
                  MessageBus.mailboxes b' !! to_agent = Some queue'
                  /\ resume now' (b', metrics')
                     = (MessageBus.mk
                          (<[to_agent :=
                               queue' ++ [Message.mk from_agent to_agent
                                            message now' latency
                                            (MessageBus.message_count b')]]>
                             (MessageBus.mailboxes b'))
                          (MessageBus.message_count b' + 1),
                        SimulationMetrics.record_network_event "latency"
                          latency metrics', true))).
Proof.
  split.
  - intros Hnone. unfold MessageBus.send_message. by rewrite Hnone.
  - intros queue Hq. split; intros ->; unfold MessageBus.send_message;
      rewrite Hq.
    + by rewrite (BusFacts.enqueue_registered _ _ _ _ _ _ queue Hq).
    + eexists. split; [reflexivity|].
      intros now' b' metrics' Hsteps.
      destruct (BusFacts.registered_stable to_agent _ _ Hsteps) as [queue' Hq'].
      { by eexists. }
      exists queue'. split; [exact Hq'|]. simpl.
      by rewrite (BusFacts.enqueue_registered _ _ _ _ _ _ queue' Hq').
Qed.

Lemma send_message_delivery_witness :
  MessageBus.send_message "p" "ghost" demo_status true 0.1 1 demo_bus
  = MessageBus.Returns demo_bus false
  /\ exists resume,
       MessageBus.send_message "p" "network" demo_status true 0.1 1 demo_bus
       = MessageBus.Sleeps demo_bus 0.1 resume
       /\ (resume 2%Q demo_bus).2 = true.
Proof.
  destruct (send_message_delivery "p" "ghost" demo_status true 0.1 1 demo_bus)
    as [H1 _].
  destruct (send_message_delivery "p" "network" demo_status true 0.1 1 demo_bus)
    as [_ H2].
  split; [apply H1; reflexivity|].
  destruct (H2 [] eq_refl) as [_ H3].
  destruct (H3 eq_refl) as (resume & Hsend & Hresume).
  exists resume. split; [exact Hsend|].
  destruct (Hresume 2%Q demo_bus.1 demo_bus.2 (rtc_refl _ _))
    as (queue' & Hq' & Hr).
  change (demo_bus.1, demo_bus.2) with demo_bus in Hr. by rewrite Hr.
Defined.

(** ** Storage provider *)

Module ProviderFacts.
Import StorageProviderAgent Provider.

Lemma reserved_empty : reserved ∅ = 0%Z.
Proof. apply map_fold_empty. Qed.

Lemma reserved_insert (k : string) (c : StorageContract.t)
    (m : gmap string StorageContract.t) :
  m !! k = None ->
  reserved (<[k := c]> m) = (StorageContract.space_gb c + reserved m)%Z.
Proof.
  intros Hk. unfold reserved.
  rewrite map_fold_insert_L; [reflexivity | intros; simpl; lia | exact Hk].
Qed.

(** A set of contracts splits into those a sweep releases and those it
    keeps. *)
Lemma reserved_split (now : Q) (m : gmap string StorageContract.t) :
  reserved m
  = (reserved (filter (fun kv => expired now kv.2 = true) m)
     + reserved (filter (fun kv => expired now kv.2 = false) m))%Z.
Proof.
  induction m as [|k c m Hk _ IH] using map_first_key_ind.
  - by rewrite !map_filter_empty, reserved_empty.
  - rewrite reserved_insert by done.
    destruct (expired now c) eqn:E.
    + rewrite (map_filter_insert_True (fun kv => expired now kv.2 = true))
        by done.
      rewrite (map_filter_insert_not' (fun kv => expired now kv.2 = false)).
      * rewrite reserved_insert; [lia|].
        by rewrite map_lookup_filter_None_2; [|left].
      * simpl. congruence.
      * intros y Hy. congruence.
    + rewrite (map_filter_insert_True (fun kv => expired now kv.2 = false))
        by done.
      rewrite (map_filter_insert_not' (fun kv => expired now kv.2 = true)).
      * rewrite reserved_insert; [lia|].
        by rewrite map_lookup_filter_None_2; [|left].
      * simpl. congruence.
      * intros y Hy. congruence.
Qed.


Lemma reserved_nonneg (m : gmap string StorageContract.t) :
  map_Forall (fun _ c => (0 <= StorageContract.space_gb c)%Z) m ->
  (0 <= reserved m)%Z.
Proof.
  induction m as [|k c m Hk _ IH] using map_first_key_ind; intros Hall.
  - by rewrite reserved_empty.
  - rewrite reserved_insert by done.
    apply map_Forall_insert in Hall as [Hc Hm]; [|done].
    specialize (IH Hm). lia.
Qed.

(** [update_reputation] touches the reputation, its counters and the
    statistics only. *)
Lemma update_reputation_frame (success : bool)
    (w : StorageProviderAgent.t * SimulationMetrics.t) :
  let p' := (update_reputation success w).1.1 in
  total_space_gb p' = total_space_gb w.1
  /\ available_space_gb p' = available_space_gb w.1
  /\ active_contracts p' = active_contracts w.1
  /\ agent_id p' = agent_id w.1
  /\ failure_probability p' = failure_probability w.1.
Proof.
  destruct w as [p metrics]. unfold update_reputation.
  destruct (get_utilization _); destruct success; simpl; done.
Qed.

Lemma update_reputation_rule (success : bool)
    (w : StorageProviderAgent.t * SimulationMetrics.t) :
  reputation (update_reputation success w).1.1
  = if success then py_min (reputation w.1 * 1.02) 10.0
    else py_max (reputation w.1 * 0.98) 0.1.
Proof.
  destruct w as [p metrics]. unfold update_reputation.
  destruct (get_utilization _); destruct success; simpl; done.
Qed.

(** With some capacity the utilization is defined, and the update ends
    normally. *)
Lemma update_reputation_returns (success : bool)
    (w : StorageProviderAgent.t * SimulationMetrics.t) :
  total_space_gb w.1 ≠ 0%Z -> (update_reputation success w).2 = Return tt.
Proof.
  destruct w as [p metrics]. simpl. intros Htotal. unfold update_reputation.
  unfold get_utilization. rewrite int_truediv_nonzero.
  - reflexivity.
  - by destruct success.
Qed.

(** The ledger after an allocation request: an accepted contract is
    inserted and its space taken off the available space in the same
    step; otherwise the ledger is left alone. *)
Lemma process_allocation_request_ledger (msg : Message.envelope) (draw : Q)
    (w : StorageProviderAgent.t * SimulationMetrics.t) :
  let p' := (process_allocation_request msg draw w).1.1 in
  total_space_gb p' = total_space_gb w.1
  /\ match Message.payload msg with
     | Message.allocation_request _ contract =>
         if can_fulfill_request (StorageContract.space_gb contract) draw w.1
         then available_space_gb p'
              = (available_space_gb w.1 - StorageContract.space_gb contract)%Z
              /\ active_contracts p'
                 = <[StorageContract.contract_id contract := contract]>
                     (active_contracts w.1)
         else available_space_gb p' = available_space_gb w.1
              /\ active_contracts p' = active_contracts w.1
     | _ => available_space_gb p' = available_space_gb w.1
            /\ active_contracts p' = active_contracts w.1
     end.
Proof.
  destruct w as [p metrics]. unfold process_allocation_request. cbv zeta.
  destruct (Message.payload msg) as [| rid c | | | |]; try done.
  change (can_fulfill_request (StorageContract.space_gb c) draw
            (count_received p))
    with (can_fulfill_request (StorageContract.space_gb c) draw p).
  unfold fst at 3 4 5 6.
  destruct (can_fulfill_request (StorageContract.space_gb c) draw p).
  - match goal with
    | |- context [update_reputation true ?w] =>
        pose proof (update_reputation_frame true w) as (H1 & H2 & H3 & _);
        destruct (update_reputation true w) as [[p' m'] [[]|e]]
    end; simpl in *; rewrite H1, H2, H3; done.
  - match goal with
    | |- context [update_reputation false ?w] =>
        pose proof (update_reputation_frame false w) as (H1 & H2 & H3 & _);
        destruct (update_reputation false w) as [[p' m'] [[]|e]]
    end; simpl in *; rewrite H1, H2, H3; done.
Qed.

(** The ledger after a sweep. *)
Lemma contract_manager_ledger (now : Q) (p : StorageProviderAgent.t) :
  let p' := contract_manager now p in
  total_space_gb p' = total_space_gb p
  /\ available_space_gb p'
     = (available_space_gb p
        + reserved (filter (fun kv => expired now kv.2 = true)
                      (active_contracts p)))%Z
  /\ active_contracts p'
     = filter (fun kv => expired now kv.2 = false) (active_contracts p).
Proof. done. Qed.

Lemma status_updater_frame (now : Q) (p : StorageProviderAgent.t) :
  let p' := (status_updater now p).1 in
  total_space_gb p' = total_space_gb p
  /\ available_space_gb p' = available_space_gb p
  /\ active_contracts p' = active_contracts p
  /\ reputation p' = reputation p.
Proof. unfold status_updater. by destruct (get_utilization _). Qed.

Lemma dynamic_pricing_frame (p : StorageProviderAgent.t) :
  let p' := dynamic_pricing p in
  total_space_gb p' = total_space_gb p
  /\ available_space_gb p' = available_space_gb p
  /\ active_contracts p' = active_contracts p
  /\ reputation p' = reputation p.
Proof.
  unfold dynamic_pricing. destruct (get_utilization _) as [u|]; [|done].
  destruct (Qltb 0.8 u); [done|]. by destruct (Qltb u 0.3).
Qed.
Lemma can_fulfill_request_true (space_needed : Z) (draw : Q)
    (p : StorageProviderAgent.t) :
  can_fulfill_request space_needed draw p = true
  <-> (space_needed <= available_space_gb p)%Z
      /\ (failure_probability p <= draw)%Q.
Proof.
  unfold can_fulfill_request.
  destruct (Z.ltb_spec (available_space_gb p) space_needed) as [Hlt|Hge].
  - split; [discriminate | lia].
  - destruct (Qltb draw (failure_probability p)) eqn:E.
    + apply Qltb_lt in E. split; [discriminate|].
      intros [_ Hle]. exfalso. apply (Qlt_not_le _ _ E Hle).
    + apply Qltb_ge in E. done.
Qed.

(** The response to an allocation request, for a provider with some
    capacity. *)
Lemma process_allocation_request_response (msg : Message.envelope) (draw : Q)
    (rid : string) (c : StorageContract.t)
    (w : StorageProviderAgent.t * SimulationMetrics.t) :
  Message.payload msg = Message.allocation_request rid c ->
  total_space_gb w.1 ≠ 0%Z ->
  (process_allocation_request msg draw w).2
  = [(Message.from msg,
      if can_fulfill_request (StorageContract.space_gb c) draw w.1
      then Message.allocation_response rid
             (Some (StorageContract.contract_id c)) "accepted" None
             (agent_id w.1)
      else Message.allocation_response rid None "rejected"
             (Some (if (available_space_gb w.1 <? StorageContract.space_gb c)%Z
                    then "insufficient_space" else "provider_failure"))
             (agent_id w.1))].
Proof.
  destruct w as [p metrics]. change ((p, metrics).1) with p.
  intros Hmsg Htotal.
  unfold process_allocation_request. rewrite Hmsg. cbv zeta.
  change (can_fulfill_request (StorageContract.space_gb c) draw
            (count_received p))
    with (can_fulfill_request (StorageContract.space_gb c) draw p).
  destruct (can_fulfill_request (StorageContract.space_gb c) draw p).
  - match goal with
    | |- context [update_reputation true ?w] =>
        pose proof (update_reputation_frame true w) as (_ & _ & _ & H4 & _);
        pose proof (update_reputation_returns true w Htotal) as H5;
        destruct (update_reputation true w) as [[p' m'] o]
    end.
    simpl in H4, H5. subst o. simpl. by rewrite H4.
  - match goal with
    | |- context [update_reputation false ?w] =>
        pose proof (update_reputation_frame false w) as (_ & H2 & _ & H4 & _);
        pose proof (update_reputation_returns false w Htotal) as H5;
        destruct (update_reputation false w) as [[p' m'] o]
    end.
    simpl in H2, H4, H5. subst o. simpl. by rewrite H2, H4.
Qed.

Lemma filter_nonneg (P : string * StorageContract.t -> Prop)
    `{!forall kv, Decision (P kv)} (m : gmap string StorageContract.t) :
  map_Forall (fun _ c => (0 <= StorageContract.space_gb c)%Z) m ->
  map_Forall (fun _ c => (0 <= StorageContract.space_gb c)%Z) (filter P m).
Proof.
  intros Hall k c Hk. apply map_lookup_filter_Some in Hk as [Hk _].
  by apply (Hall k).
Qed.

(** Every operation keeps the ledger consistent, an allocation request
    under the conditions of [well_formed]. *)
Lemma perform_ledger (op : operation)
    (w : StorageProviderAgent.t * SimulationMetrics.t) :
  ledger_inv w.1 -> nonneg_contracts w.1 -> well_formed op w.1 ->
  ledger_inv (perform op w).1 /\ nonneg_contracts (perform op w).1.
Proof.
  unfold ledger_inv, nonneg_contracts.
  intros [Hbounds Hsum] Hnonneg Hfresh.
  destruct op as [msg draw | success | now | now |]; cbn [perform fst snd].
  - pose proof (process_allocation_request_ledger msg draw w) as [Ht Hl].
    simpl in Ht, Hl, Hfresh. rewrite Ht.
    destruct (Message.payload msg) as [| rid c | | | |];
      try (destruct Hl as [-> ->]; done).
    destruct Hfresh as [Hspace Hnew].
    destruct (can_fulfill_request _ _ _) eqn:E;
      destruct Hl as [-> ->]; [|done].
    apply can_fulfill_request_true in E as [Hfit _].
    rewrite reserved_insert by done. split; [lia|].
    by apply map_Forall_insert_2.
  - pose proof (update_reputation_frame success w) as (-> & -> & -> & _).
    done.
  - pose proof (contract_manager_ledger now w.1) as (-> & -> & ->).
    pose proof (reserved_split now (active_contracts w.1)) as Hsplit.
    pose proof (reserved_nonneg _
                  (filter_nonneg (fun kv => expired now kv.2 = true) _ Hnonneg)).
    pose proof (reserved_nonneg _
                  (filter_nonneg (fun kv => expired now kv.2 = false) _ Hnonneg)).
    split; [lia|]. by apply filter_nonneg.
  - pose proof (status_updater_frame now w.1) as (-> & -> & -> & _). done.
  - pose proof (dynamic_pricing_frame w.1) as (-> & -> & -> & _). done.
Qed.

Lemma run_ledger (ops : list operation)
    (w : StorageProviderAgent.t * SimulationMetrics.t) :
  ledger_inv w.1 -> nonneg_contracts w.1 -> well_formed_run ops w ->
  ledger_inv (run ops w).1 /\ nonneg_contracts (run ops w).1.
Proof.
  revert w. induction ops as [|op ops IH]; intros w Hinv Hnonneg Hfresh.
  - done.
  - destruct Hfresh as [Hop Hops].
    destruct (perform_ledger op w Hinv Hnonneg Hop) as [Hinv' Hnonneg'].
    by apply (IH (perform op w)).
Qed.

Lemma init_ledger agent_id broker_id total base fp now bus :
  (0 <= total)%Z ->
  ledger_inv (init agent_id broker_id total base fp now bus).1
  /\ nonneg_contracts (init agent_id broker_id total base fp now bus).1.
Proof.
  intros Htotal. unfold ledger_inv, nonneg_contracts. simpl.
  rewrite reserved_empty. split; [lia|]. apply map_Forall_empty.
Qed.

(** The reputation stays in its interval under every operation. *)
Lemma perform_reputation (op : operation)
    (w : StorageProviderAgent.t * SimulationMetrics.t) :
  reputation (perform op w).1 = reputation w.1
  \/ reputation (perform op w).1 = py_min (reputation w.1 * 1.02) 10.0
  \/ reputation (perform op w).1 = py_max (reputation w.1 * 0.98) 0.1.
Proof.
  destruct op as [msg draw | success | now | now |]; cbn [perform fst snd].
  - destruct w as [p metrics]. unfold process_allocation_request. cbv zeta.
    destruct (Message.payload msg) as [| rid c | | | |]; try by left.
    destruct (can_fulfill_request _ _ _).
    + right; left.
      match goal with
      | |- context [update_reputation true ?w] =>
          pose proof (update_reputation_rule true w) as H;
          destruct (update_reputation true w) as [[p' m'] [[]|e]]
      end; exact H.
    + right; right.
      match goal with
      | |- context [update_reputation false ?w] =>
          pose proof (update_reputation_rule false w) as H;
          destruct (update_reputation false w) as [[p' m'] [[]|e]]
      end; exact H.
  - rewrite update_reputation_rule. destruct success; auto.
  - by left.
  - left. by destruct (status_updater_frame now w.1) as (_ & _ & _ & ->).
  - left. by destruct (dynamic_pricing_frame w.1) as (_ & _ & _ & ->).
Qed.

Lemma clamp_up (r : Q) :
  (0.1 <= r <= 10.0)%Q -> (0.1 <= py_min (r * 1.02) 10.0 <= 10.0)%Q.
Proof.
  intros [Hlo Hhi]. split.
  - apply py_min_ge; lra.
  - apply py_min_le_r.
Qed.

Lemma clamp_down (r : Q) :
  (0.1 <= r <= 10.0)%Q -> (0.1 <= py_max (r * 0.98) 0.1 <= 10.0)%Q.
Proof.
  intros [Hlo Hhi]. split.
  - apply py_max_ge_r.
  - apply py_max_le; lra.
Qed.

Lemma run_reputation (ops : list operation)
    (w : StorageProviderAgent.t * SimulationMetrics.t) :
  (0.1 <= reputation w.1 <= 10.0)%Q ->
  (0.1 <= reputation (run ops w).1 <= 10.0)%Q.
Proof.
  revert w. induction ops as [|op ops IH]; intros w Hw; [done|].
  apply (IH (perform op w)).
  destruct (perform_reputation op w) as [-> | [-> | ->]].
  - done.
  - by apply clamp_up.
  - by apply clamp_down.
Qed.
End ProviderFacts.

(** C1 (as amended).  The capacity ledger of a provider created with a
    capacity that is not negative satisfies [0 <= available <= total] and
    [total - available = sum of space_gb over the active contracts] after
    every sequence of provider operations (allocation requests, reputation
    updates, contract sweeps, status pushes, price updates) in which each
    allocation request asks for a space that is not negative and carries a
    contract id that is not the id of a contract active at that moment.
    The empty sequence gives the initial state.  Each single operation
    preserves the invariant from any state that satisfies it.  An
    allocation request takes the contract's space off the available space
    exactly when it inserts the contract, and a sweep gives back the space
    of exactly the expired contracts, which it removes. *)
Theorem ledger_invariant :
  (forall agent_id broker_id total base fp now bus metrics ops,
      (0 <= total)%Z ->
      Provider.well_formed_run ops
        ((StorageProviderAgent.init agent_id broker_id total base fp now bus).1,
         metrics) ->
      Provider.ledger_inv
        (Provider.run ops
           ((StorageProviderAgent.init agent_id broker_id total base fp now
               bus).1, metrics)).1)
  /\ (forall op w,
         Provider.ledger_inv w.1 -> Provider.nonneg_contracts w.1 ->
         Provider.well_formed op w.1 ->
         Provider.ledger_inv (Provider.perform op w).1
         /\ Provider.nonneg_contracts (Provider.perform op w).1)
  /\ (forall msg draw w request_id contract,
         Message.payload msg = Message.allocation_request request_id contract ->
         if StorageProviderAgent.can_fulfill_request
              (StorageContract.space_gb contract) draw w.1
         then StorageProviderAgent.available_space_gb
                (StorageProviderAgent.process_allocation_request msg draw w).1.1
              = (StorageProviderAgent.available_space_gb w.1
                 - StorageContract.space_gb contract)%Z
              /\ StorageProviderAgent.active_contracts
                   (StorageProviderAgent.process_allocation_request msg draw
                      w).1.1
                 = <[StorageContract.contract_id contract := contract]>
                     (StorageProviderAgent.active_contracts w.1)
         else StorageProviderAgent.available_space_gb
                (StorageProviderAgent.process_allocation_request msg draw w).1.1
              = StorageProviderAgent.available_space_gb w.1
              /\ StorageProviderAgent.active_contracts
                   (StorageProviderAgent.process_allocation_request msg draw
                      w).1.1
                 = StorageProviderAgent.active_contracts w.1)
  /\ (forall now p,
         StorageProviderAgent.available_space_gb
           (StorageProviderAgent.contract_manager now p)
         = (StorageProviderAgent.available_space_gb p
            + StorageProviderAgent.reserved
                (filter
                   (fun kv => StorageProviderAgent.expired now kv.2 = true)
                   (StorageProviderAgent.active_contracts p)))%Z
         /\ StorageProviderAgent.active_contracts
              (StorageProviderAgent.contract_manager now p)
            = filter (fun kv => StorageProviderAgent.expired now kv.2 = false)
                (StorageProviderAgent.active_contracts p)).
Proof.
  split; [|split; [|split]].
  - intros agent_id broker_id total base fp now bus metrics ops Htotal Hfresh.
    destruct (ProviderFacts.init_ledger agent_id broker_id total base fp now
                bus Htotal) as [Hinv Hnonneg].
    by apply ProviderFacts.run_ledger.
  - apply ProviderFacts.perform_ledger.
  - intros msg draw w request_id contract Hmsg.
    pose proof (ProviderFacts.process_allocation_request_ledger msg draw w)
      as [_ H].
    by rewrite Hmsg in H.
  - intros now p. by split.
Qed.

(** Scenario A: the request is accepted, the available space drops to 50
    and is back at 100 after the sweep that follows the end of the
    contract. *)
Lemma ledger_invariant_witness :
  Provider.ledger_inv
    (Provider.run [Provider.allocation allocation_a 0.5; Provider.sweep 7300]
       provider_a).1
  /\ StorageProviderAgent.available_space_gb
       (Provider.run [Provider.allocation allocation_a 0.5] provider_a).1
     = 50%Z
  /\ StorageProviderAgent.available_space_gb
       (Provider.run [Provider.allocation allocation_a 0.5; Provider.sweep 7300]
          provider_a).1
     = 100%Z.
Proof.
  split.
  - apply (proj1 ledger_invariant "provider0" "network" 100%Z 0.5%Q 0%Q 0%Q
             MessageBus.init (SimulationMetrics.reset 0)
             [Provider.allocation allocation_a 0.5; Provider.sweep 7300]).
    + lia.
    + simpl. split; [|done]. split; [lia | reflexivity].
  - split; vm_compute; reflexivity.
Defined.

(** C1 (as stated) fails.  The broker names a contract after the second
    of the clock and a draw among 9000 values: two contracts built within
    one second with the same draw share their id.  The provider accepts
    both, takes 50 GB and 20 GB off its 100 GB, and keeps only the second
    contract under the shared id: 70 GB are in use and the active contracts
    account for 20 GB. *)
Lemma ledger_broken_by_reused_contract_id :
  StorageContract.contract_id contract_a = StorageContract.contract_id contract_b
  /\ StorageProviderAgent.available_space_gb
       (Provider.run
          [Provider.allocation allocation_a 0.5;
           Provider.allocation allocation_b 0.5] provider_a).1 = 30%Z
  /\ StorageProviderAgent.reserved
       (StorageProviderAgent.active_contracts
          (Provider.run
             [Provider.allocation allocation_a 0.5;
              Provider.allocation allocation_b 0.5] provider_a).1) = 20%Z
  /\ ¬ Provider.ledger_inv
         (Provider.run
            [Provider.allocation allocation_a 0.5;
             Provider.allocation allocation_b 0.5] provider_a).1.
Proof.
  split; [vm_compute; reflexivity|].
  split; [vm_compute; reflexivity|].
  split; [vm_compute; reflexivity|].
  intros [_ Hsum]. vm_compute in Hsum. discriminate.
Qed.



(** C3.  A provider starts with reputation 5.0; a success sets it to
    [min(reputation * 1.02, 10.0)] and a failure to
    [max(reputation * 0.98, 0.1)]; every other operation leaves it as it
    is; and after every sequence of operations, so after every sequence of
    outcomes, it lies in [0.1, 10.0]. *)
Theorem reputation_bounded :
  (forall agent_id broker_id total base fp now bus,
      StorageProviderAgent.reputation
        (StorageProviderAgent.init agent_id broker_id total base fp now bus).1
      = 5.0%Q)
  /\ (forall success w,
         StorageProviderAgent.reputation
           (StorageProviderAgent.update_reputation success w).1.1
         = if success
           then py_min (StorageProviderAgent.reputation w.1 * 1.02) 10.0
           else py_max (StorageProviderAgent.reputation w.1 * 0.98) 0.1)
  /\ (forall op w,
         StorageProviderAgent.reputation (Provider.perform op w).1
         = StorageProviderAgent.reputation w.1
         \/ StorageProviderAgent.reputation (Provider.perform op w).1
            = py_min (StorageProviderAgent.reputation w.1 * 1.02) 10.0
         \/ StorageProviderAgent.reputation (Provider.perform op w).1
            = py_max (StorageProviderAgent.reputation w.1 * 0.98) 0.1)
  /\ (forall agent_id broker_id total base fp now bus metrics ops,
         (0.1 <= StorageProviderAgent.reputation
                   (Provider.run ops
                      ((StorageProviderAgent.init agent_id broker_id total
                          base fp now bus).1, metrics)).1 <= 10.0)%Q)
  /\ (forall agent_id broker_id total base fp now bus metrics outcomes,
         (0.1 <= StorageProviderAgent.reputation
                   (foldl
                      (fun w success =>
                         (StorageProviderAgent.update_reputation success w).1)
                      ((StorageProviderAgent.init agent_id broker_id total
                          base fp now bus).1, metrics) outcomes).1 <= 10.0)%Q).
Proof.
  split; [done|].
  split; [apply ProviderFacts.update_reputation_rule|].
  split; [apply ProviderFacts.perform_reputation|].
  split.
  - intros. apply ProviderFacts.run_reputation. simpl. lra.
  - intros agent_id broker_id total base fp now bus metrics outcomes.
    pose proof (ProviderFacts.run_reputation
                  (map Provider.reputation_update outcomes)
                  ((StorageProviderAgent.init agent_id broker_id total base fp
                      now bus).1, metrics)) as H.
    unfold Provider.run in H. rewrite foldl_fmap in H.
    apply H. simpl. lra.
Qed.

(** ** Stable sorting *)

Module SortFacts.
Import Selection.

Section Sort.
Context {A : Type}.
Implicit Types (x y : Q * A) (l : list (Q * A)).

Lemma head_insert_desc x l :
  head (insert_desc x l)
  = match head l with
    | None => Some x
    | Some y => if Qltb x.1 y.1 then Some y else Some x
    end.
Proof. destruct l as [|y l]; simpl; [done|]. by destruct (Qltb x.1 y.1). Qed.

Lemma first_max_bound l x :
  first_max l x -> Forall (fun y => (y.1 <= x.1)%Q) l.
Proof.
  intros (before & after & -> & Hb & Ha).
  apply Forall_app. split.
  - eapply Forall_impl; [exact Hb|]. intros y Hy. by apply Qlt_le_weak.
  - constructor; [apply Qle_refl | exact Ha].
Qed.

(** The head of the sorted list is the first item with the greatest key. *)
Lemma head_sort_desc l :
  l ≠ [] -> exists x, head (sort_desc l) = Some x /\ first_max l x.
Proof.
  induction l as [|a l IH]; [done|]. intros _.
  unfold sort_desc. simpl. fold (sort_desc l). rewrite head_insert_desc.
  destruct l as [|b l].
  - exists a. split; [done|]. exists [], []. by repeat constructor.
  - destruct IH as (y & -> & Hy); [done|].
    destruct (Qltb a.1 y.1) eqn:E.
    + exists y. split; [done|].
      destruct Hy as (before & after & Hl & Hb & Ha).
      exists (a :: before), after. rewrite Hl. split; [done|].
      split; [|done]. constructor; [by apply Qltb_lt | done].
    + exists a. split; [done|]. exists [], (b :: l).
      split; [done|]. split; [constructor|].
      apply Qltb_ge in E.
      eapply Forall_impl; [exact (first_max_bound _ _ Hy)|].
      intros z Hz. simpl in Hz. by eapply Qle_trans.
Qed.

Lemma first_max_elem l x : first_max l x -> x ∈ l.
Proof.
  intros (before & after & -> & _). apply elem_of_app. right. by left.
Qed.
End Sort.
End SortFacts.

(** ** Broker *)

Module BrokerFacts.
Import IntermediaryNetworkAgent Selection.


(** A request that offers nothing cannot be scored. *)
Lemma calculate_score_raises (request : StorageRequest.t)
    (provider : ProviderInfo.t) :
  (StorageRequest.max_price_per_gb_hour request == 0)%Q ->
  calculate_score request provider = Raised ZeroDivisionError.
Proof.
  intros Hprice. unfold calculate_score, truediv at 1.
  by rewrite (Qzero_true _ Hprice).
Qed.

Lemma keyed_spec (request : StorageRequest.t)
    (l : list (nat * ProviderInfo.t)) ks :
  keyed request l = Return ks ->
  map snd ks = l
  /\ Forall (fun k => calculate_score request k.2.2 = Return k.1) ks.
Proof.
  revert ks. induction l as [|rp l IH]; intros ks Hks; simpl in Hks.
  - by simplify_eq.
  - destruct (calculate_score request rp.2) as [score|] eqn:E; [|done].
    destruct (keyed request l) as [ks'|]; [|done]. simplify_eq.
    destruct (IH ks' eq_refl) as [Hmap Hall].
    split; [simpl; by rewrite Hmap | by constructor].
Qed.


Lemma candidates_spec (b : t) (request : StorageRequest.t) (now : Q)
    (rp : nat * ProviderInfo.t) :
  rp ∈ candidates b request now
  <-> rp ∈ provider_objects b
      /\ (StorageRequest.space_gb request
          <= ProviderInfo.available_space_gb rp.2)%Z
      /\ (ProviderInfo.price_per_gb_hour rp.2
          <= StorageRequest.max_price_per_gb_hour request)%Q
      /\ (1.0 <= ProviderInfo.reputation rp.2)%Q
      /\ (now - default 0%Q (provider_last_seen b
                               !! ProviderInfo.agent_id rp.2) < 30)%Q.
Proof.
  unfold candidates. rewrite list_elem_of_filter. unfold suitable.
  rewrite !andb_true_iff, Z.leb_le, !Qle_bool_iff, Qltb_lt. tauto.
Qed.

(** What [select_provider] returns. *)
Lemma select_provider_spec (b : t) (request : StorageRequest.t) (now : Q)
    (rp : nat * ProviderInfo.t) :
  select_provider b request now = Some rp ->
  exists ks score,
    keyed request (candidates b request now) = Return ks
    /\ first_max ks (score, rp).
Proof.
  unfold select_provider.
  destruct (candidates b request now) as [|c l] eqn:Hc; [done|].
  destruct (keyed request (c :: l)) as [ks|] eqn:Hks; [|done].
  intros Hsel.
  destruct (SortFacts.head_sort_desc ks) as ([score rp'] & Hhead & Hmax).
  { apply keyed_spec in Hks as [Hmap _]. by destruct ks. }
  rewrite Hhead in Hsel. simpl in Hsel. simplify_eq. by exists ks, score.
Qed.



End BrokerFacts.







Module ContractFacts.
Import IntermediaryNetworkAgent.

(** The only sends of [handle_storage_request] and of
    [handle_allocation_response] that carry a contract. *)
Lemma handle_storage_request_contract msg suffix clock b to rid contract :
  (to, Message.allocation_request rid contract)
    ∈ (handle_storage_request msg suffix clock b).2 ->
  exists request selected,
    contract = pending_contract request selected suffix clock.
Proof.
  unfold handle_storage_request.
  destruct (Message.payload msg) as [request | | | | |];
    try (intros H; by apply elem_of_nil in H).
  cbv zeta. destruct (select_provider _ _ _) as [[r selected]|]; simpl.
  - intros H. apply list_elem_of_singleton in H. simplify_eq.
    by exists request, selected.
  - unfold send_failure_response. intros H.
    apply list_elem_of_singleton in H. simplify_eq.
Qed.

Lemma relay_out request_id buyer_id response_time final_response b :
  (relay request_id buyer_id response_time final_response b).2
  = [(buyer_id, final_response)].
Proof. unfold relay. by destruct (_ <? _)%Z. Qed.

Lemma handle_allocation_response_contract msg draw now at_start at_end w
    to rid status contract reason :
  (to, Message.storage_response rid status (Some contract) reason)
    ∈ (handle_allocation_response msg draw now at_start at_end w).2 ->
  exists contract_id request selected,
    contract = active_contract contract_id request selected at_start at_end.
Proof.
  destruct w as [b metrics]. unfold handle_allocation_response.
  destruct (Message.payload msg) as [| | request_id cid st rsn pid | | |];
    try (intros H; by apply elem_of_nil in H).
  destruct (pending_allocations b !! request_id) as [[[buyer request] r]|];
    [|intros H; by apply elem_of_nil in H].
  destruct (objects b !! r) as [selected|];
    [|intros H; by apply elem_of_nil in H].
  cbv zeta.
  destruct (String.eqb st "accepted").
  - destruct (Qltb draw _).
    + match goal with
      | |- context [relay ?a ?b ?c ?d ?e] =>
          pose proof (relay_out a b c d e) as Hout;
          destruct (relay a b c d e) as [b' out]
      end.
      simpl in *. subst out. intros H.
      apply list_elem_of_singleton in H. simplify_eq.
    + destruct cid as [cid|]; [|intros H; by apply elem_of_nil in H].
      destruct (objects _ !! r) as [selected'|];
        [|intros H; by apply elem_of_nil in H].
      match goal with
      | |- context [relay ?a ?b ?c ?d ?e] =>
          pose proof (relay_out a b c d e) as Hout;
          destruct (relay a b c d e) as [b' out]
      end.
      simpl in *. subst out. intros H.
      apply list_elem_of_singleton in H. simplify_eq.
      by exists cid, request, selected'.
  - match goal with
    | |- context [relay ?a ?b ?c ?d ?e] =>
        pose proof (relay_out a b c d e) as Hout;
        destruct (relay a b c d e) as [b' out]
    end.
    simpl in *. subst out. intros H.
    apply list_elem_of_singleton in H. simplify_eq.
Qed.

(** A handled message is answered with at most one message: one request
    gets at most one response. *)
Lemma handle_storage_request_sends_one msg suffix clock b :
  (length (handle_storage_request msg suffix clock b).2 <= 1)%nat.
Proof.
  unfold handle_storage_request.
  destruct (Message.payload msg); simpl; try lia.
  destruct (select_provider _ _ _) as [[r selected]|]; simpl; lia.
Qed.

Lemma handle_allocation_response_sends_one msg draw now at_start at_end w :
  (length (handle_allocation_response msg draw now at_start at_end w).2
   <= 1)%nat.
Proof.
  destruct w as [b metrics]. unfold handle_allocation_response.
  destruct (Message.payload msg) as [| | request_id cid st rsn pid | | |];
    try (simpl; lia).
  destruct (pending_allocations b !! request_id) as [[[buyer request] r]|];
    [|simpl; lia].
  destruct (objects b !! r) as [selected|]; [|simpl; lia].
  cbv zeta.
  destruct (String.eqb st "accepted").
  - destruct (Qltb draw _).
    + match goal with
      | |- context [relay ?a ?b ?c ?d ?e] =>
          pose proof (relay_out a b c d e) as Hout;
          destruct (relay a b c d e) as [b' out]
      end.
      simpl in *. subst out. simpl. lia.
    + destruct cid as [cid|]; [|simpl; lia].
      destruct (objects _ !! r) as [selected'|]; [|simpl; lia].
      match goal with
      | |- context [relay ?a ?b ?c ?d ?e] =>
          pose proof (relay_out a b c d e) as Hout;
          destruct (relay a b c d e) as [b' out]
      end.
      simpl in *. subst out. simpl. lia.
  - match goal with
    | |- context [relay ?a ?b ?c ?d ?e] =>
        pose proof (relay_out a b c d e) as Hout;
        destruct (relay a b c d e) as [b' out]
    end.
    simpl in *. subst out. simpl. lia.
Qed.

Lemma term_positive (at_start at_end duration : Q) :
  (0 < duration)%Q -> (at_start <= at_end)%Q ->
  (at_start < at_end + duration * 3600)%Q.
Proof. intros Hd Hclock. lra. Qed.
End ContractFacts.

(** C6.  Every contract the broker builds, the pending contract sent to
    the selected provider and the active contract relayed to the buyer,
    has [total_cost = space_gb * duration_hours * price_per_gb_hour]; and
    when its duration is positive and the clock does not run backwards
    between the two readings taken for it, [end_time > start_time]. *)
Theorem contract_cost_and_term :
  (forall msg suffix clock b to rid contract,
      (to, Message.allocation_request rid contract)
        ∈ (IntermediaryNetworkAgent.handle_storage_request msg suffix clock b).2 ->
      StorageContract.total_cost contract
      = (inject_Z (StorageContract.space_gb contract)
         * StorageContract.duration_hours contract
         * StorageContract.price_per_gb_hour contract)%Q
      /\ StorageContract.status contract = "pending"
      /\ ((0 < StorageContract.duration_hours contract)%Q ->
          (IntermediaryNetworkAgent.at_start clock
           <= IntermediaryNetworkAgent.at_end clock)%Q ->
          (StorageContract.start_time contract
           < StorageContract.end_time contract)%Q))
  /\ (forall msg draw now at_start at_end w to rid status contract reason,
         (to, Message.storage_response rid status (Some contract) reason)
           ∈ (IntermediaryNetworkAgent.handle_allocation_response msg draw now
                at_start at_end w).2 ->
         StorageContract.total_cost contract
         = (inject_Z (StorageContract.space_gb contract)
            * StorageContract.duration_hours contract
            * StorageContract.price_per_gb_hour contract)%Q
         /\ StorageContract.status contract = "active"
         /\ ((0 < StorageContract.duration_hours contract)%Q ->
             (at_start <= at_end)%Q ->
             (StorageContract.start_time contract
              < StorageContract.end_time contract)%Q)).
Proof.
  split.
  - intros msg suffix clock b to rid contract Hin.
    apply ContractFacts.handle_storage_request_contract in Hin
      as (request & selected & ->).
    split; [reflexivity|]. split; [reflexivity|].
    apply ContractFacts.term_positive.
  - intros msg draw now at_start at_end w to rid status contract reason Hin.
    apply ContractFacts.handle_allocation_response_contract in Hin
      as (cid & request & selected & ->).
    split; [reflexivity|]. split; [reflexivity|].
    apply ContractFacts.term_positive.
Qed.

(** Scenario A at the broker: 50 GB for 2 hours at 0.5 cost 50, and the
    contract ends after it starts. *)
Lemma contract_cost_and_term_witness :
  (StorageContract.total_cost contract_a == 50)%Q
  /\ (StorageContract.start_time contract_a
      < StorageContract.end_time contract_a)%Q.
Proof.
  destruct (proj1 contract_cost_and_term storage_request_a 1234%Z clock_a
              (Selection.registry [info_a] 0) "provider0" "REQ-buyer0-10-100"
              contract_a) as (Hcost & _ & Hterm).
  - vm_compute. left.
  - split.
    + rewrite Hcost. vm_compute. reflexivity.
    + apply Hterm; vm_compute; [reflexivity | discriminate].
Defined.

Module CorruptionFacts.
Import StorageProviderAgent Provider.





End CorruptionFacts.



(** ** Buyers *)

Module BuyerFacts.
Import SimulationMetrics Buyers.

Lemma request_behavior_counters a request m :
  counters (BuyerAgent.request_behavior request true (a, m)).1.2
  = (total_requests m + 1, successful_requests m, failed_requests m + 1)%Z.
Proof. reflexivity. Qed.

Lemma request_behavior_unsent a request m :
  (BuyerAgent.request_behavior request false (a, m)).1.2 = m.
Proof. reflexivity. Qed.

(** What [process_response] does to the counters. *)
Lemma process_response_counters a msg now m :
  let m' := (BuyerAgent.process_response msg now (a, m)).2 in
  match Message.payload msg with
  | Message.storage_response request_id status contract _ =>
      match BuyerAgent.pending_requests a !! request_id with
      | None => m' = m
      | Some _ =>
          if String.eqb status "success" then
            match contract with
            | None => m' = m
            | Some _ =>
                counters m'
                = (total_requests m + 1, successful_requests m + 1,
                   failed_requests m)%Z
            end
          else
            counters m'
            = (total_requests m + 1, successful_requests m,
               failed_requests m + 1)%Z
      end
  | _ => m' = m
  end.
Proof.
  unfold BuyerAgent.process_response.
  destruct (Message.payload msg) as [| | | rid status contract reason | |];
    try done.
  destruct (BuyerAgent.pending_requests a !! rid); [|done].
  destruct (String.eqb status "success"); [|done].
  by destruct contract.
Qed.

Lemma balanced_run (events : list event) (credit : nat)
    (m : SimulationMetrics.t) :
  balanced credit m -> causal credit events ->
  exists credit', balanced credit' (foldl record m events).
Proof.
  revert credit m.
  induction events as [|e events IH]; intros credit m Hm Hc.
  - by exists credit.
  - destruct e as [a request [|] | a msg now]; simpl in Hc |- *.
    + apply (IH (S credit)); [|done].
      destruct Hm as (H1 & H2 & H3). unfold balanced. simpl. lia.
    + by apply (IH credit).
    + pose proof (process_response_counters a msg now m) as Hp.
      simpl in Hp.
      destruct (Message.payload msg) as [| | | rid status contract reason | |];
        try (rewrite Hp; by apply (IH credit)).
      destruct credit as [|credit]; [done|].
      apply (IH credit); [|done].
      destruct Hm as (H1 & H2 & H3). unfold balanced.
      destruct (BuyerAgent.pending_requests a !! rid).
      * destruct (String.eqb status "success").
        -- destruct contract.
           ++ unfold counters in Hp. simplify_eq. lia.
           ++ rewrite Hp. lia.
        -- unfold counters in Hp. simplify_eq. lia.
      * rewrite Hp. lia.
Qed.

Lemma half_rate (successful total : Z) :
  (0 <= successful)%Z -> (2 * successful <= total)%Z ->
  (inject_Z successful / inject_Z (Z.max total 1) * 100 <= 50)%Q.
Proof.
  intros Hs Ht.
  assert (0 < inject_Z (Z.max total 1))%Q as Hpos.
  { rewrite <- (Zlt_Qlt 0). lia. }
  assert (inject_Z successful / inject_Z (Z.max total 1) <= 1 # 2)%Q as Hhalf.
  { apply Qle_shift_div_r; [exact Hpos|].
    assert (2 * inject_Z successful <= inject_Z (Z.max total 1))%Q.
    { change 2%Q with (inject_Z 2). rewrite <- inject_Z_mult.
      rewrite <- Zle_Qle. lia. }
    lra. }
  lra.
Qed.
End BuyerFacts.

(** C8.  A request whose send succeeded is counted at once as a failed
    request; its answer is counted again, as a success or as a failure;
    so an answered request adds 2 to the total and at least 1 to the
    failures.  Along every trace of buyer steps in which responses answer
    requests, twice the successes never exceed the total, and the success
    rate of the summary is at most 50. *)
Theorem requests_counted_twice :
  (forall a request m,
      Buyers.counters (BuyerAgent.request_behavior request true (a, m)).1.2
      = (SimulationMetrics.total_requests m + 1,
         SimulationMetrics.successful_requests m,
         SimulationMetrics.failed_requests m + 1)%Z
      /\ (BuyerAgent.request_behavior request false (a, m)).1.2 = m)
  /\ (forall a msg now m request_id status contract reason original,
         Message.payload msg
         = Message.storage_response request_id status contract reason ->
         BuyerAgent.pending_requests a !! request_id = Some original ->
         (status = "success" -> is_Some contract) ->
         Buyers.counters (BuyerAgent.process_response msg now (a, m)).2
         = if String.eqb status "success"
           then (SimulationMetrics.total_requests m + 1,
                 SimulationMetrics.successful_requests m + 1,
                 SimulationMetrics.failed_requests m)%Z
           else (SimulationMetrics.total_requests m + 1,
                 SimulationMetrics.successful_requests m,
                 SimulationMetrics.failed_requests m + 1)%Z)
  /\ (forall a request msg now m status contract reason,
         Message.payload msg
         = Message.storage_response (StorageRequest.request_id request) status
             contract reason ->
         (status = "success" -> is_Some contract) ->
         SimulationMetrics.total_requests
           (BuyerAgent.process_response msg now
              (BuyerAgent.request_behavior request true (a, m)).1).2
         = (SimulationMetrics.total_requests m + 2)%Z
         /\ (SimulationMetrics.failed_requests m + 1
             <= SimulationMetrics.failed_requests
                  (BuyerAgent.process_response msg now
                     (BuyerAgent.request_behavior request true (a, m)).1).2)%Z)
  /\ (forall events start float_sqrt now,
         Buyers.causal 0 events ->
         (2 * SimulationMetrics.successful_requests
                (foldl Buyers.record (SimulationMetrics.reset start) events)
          <= SimulationMetrics.total_requests
               (foldl Buyers.record (SimulationMetrics.reset start) events))%Z
         /\ exists s,
              SimulationMetrics.get_summary float_sqrt now
                (foldl Buyers.record (SimulationMetrics.reset start) events)
              = Return s
              /\ (SimulationMetrics.success_rate (SimulationMetrics.requests s)
                  <= 50)%Q).
Proof.
  split; [|split; [|split]].
  - intros a request m. split; reflexivity.
  - intros a msg now m request_id status contract reason original Hmsg Hp Hwf.
    pose proof (BuyerFacts.process_response_counters a msg now m) as H.
    cbv zeta in H. rewrite Hmsg, Hp in H.
    destruct (String.eqb_spec status "success") as [Hs|Hs]; [|done].
    by destruct (Hwf Hs) as [c ->].
  - intros a request msg now m status contract reason Hmsg Hwf.
    pose proof (BuyerFacts.process_response_counters
                  (BuyerAgent.request_behavior request true (a, m)).1.1 msg now
                  (BuyerAgent.request_behavior request true (a, m)).1.2) as H.
    cbv zeta in H. rewrite Hmsg in H.
    change (BuyerAgent.pending_requests _ !! _)
      with (<[StorageRequest.request_id request := request]>
              (BuyerAgent.pending_requests a)
              !! StorageRequest.request_id request) in H.
    rewrite lookup_insert_eq in H.
    change (BuyerAgent.process_response msg now _)
      with (BuyerAgent.process_response msg now
              (BuyerAgent.request_behavior request true (a, m)).1) in H.
    unfold Buyers.counters in H.
    change (SimulationMetrics.total_requests
              (BuyerAgent.request_behavior request true (a, m)).1.2)
      with (SimulationMetrics.total_requests m + 1)%Z in H.
    change (SimulationMetrics.failed_requests
              (BuyerAgent.request_behavior request true (a, m)).1.2)
      with (SimulationMetrics.failed_requests m + 1)%Z in H.
    destruct (String.eqb_spec status "success") as [Hs|Hs].
    + destruct (Hwf Hs) as [c ->]. simplify_eq. lia.
    + simplify_eq. lia.
  - intros events start float_sqrt now Hcausal.
    destruct (BuyerFacts.balanced_run events 0 (SimulationMetrics.reset start))
      as (credit & H1 & H2 & H3); [|done|].
    { unfold Buyers.balanced. simpl. lia. }
    split; [lia|].
    destruct (MetricsFacts.get_summary_returns float_sqrt now
                (foldl Buyers.record (SimulationMetrics.reset start) events))
      as (s & Hs & Hrest).
    exists s. split; [exact Hs|].
    destruct Hrest as (_ & _ & _ & _ & _ & _ & _ & _ & -> & _).
    apply BuyerFacts.half_rate; lia.
Qed.

(** One request sent and answered with a success: two requests counted,
    one success, a success rate of 50. *)
Lemma requests_counted_twice_witness :
  SimulationMetrics.total_requests
    (foldl Buyers.record (SimulationMetrics.reset 0)
       [Buyers.sent buyer_a request_a true;
        Buyers.answered pending_a success_a 12]) = 2%Z
  /\ SimulationMetrics.successful_requests
       (foldl Buyers.record (SimulationMetrics.reset 0)
          [Buyers.sent buyer_a request_a true;
           Buyers.answered pending_a success_a 12]) = 1%Z
  /\ exists s,
       SimulationMetrics.get_summary (fun x => x) 20
         (foldl Buyers.record (SimulationMetrics.reset 0)
            [Buyers.sent buyer_a request_a true;
             Buyers.answered pending_a success_a 12]) = Return s
       /\ (SimulationMetrics.success_rate (SimulationMetrics.requests s)
           <= 50)%Q.
Proof.
  split; [vm_compute; reflexivity|]. split; [vm_compute; reflexivity|].
  destruct requests_counted_twice as (_ & _ & _ & H).
  destruct (H [Buyers.sent buyer_a request_a true;
               Buyers.answered pending_a success_a 12]
              0%Q (fun x => x) 20%Q) as [_ Hs].
  - simpl. exact I.
  - exact Hs.
Defined.

(** * Further properties *)

(** ** Message bus: numbering and order *)

Module BusRunFacts.
Import MessageBus BusRun.

Lemma ordered_init : ordered MessageBus.init.
Proof. intros agent_id queue H. simpl in H. by rewrite lookup_empty in H. Qed.

Lemma ordered_weaken (count : Z) (queue : list Message.envelope) agent_id :
  Forall (fun e => (Message.id e < count)%Z /\ Message.to e = agent_id) queue ->
  Forall (fun e => (Message.id e < count + 1)%Z /\ Message.to e = agent_id)
    queue.
Proof.
  intros H. eapply Forall_impl; [exact H|].
  intros e [H1 H2]. split; [lia | done].
Qed.

Lemma enqueue_count from_agent to_agent message latency now b :
  message_count (enqueue from_agent to_agent message latency now b).1
  = (message_count b + 1)%Z.
Proof. unfold enqueue. by destruct (mailboxes b !! to_agent). Qed.

Lemma ordered_step (b b' : MessageBus.t) :
  MessageBus.step b b' -> ordered b -> ordered b'.
Proof.
  intros Hstep Hord.
  destruct Hstep as [a b | f a msg l n b | a b o b' Hrecv]; intros x q Hq.
  - simpl in Hq. destruct (decide (a = x)) as [->|Hne].
    + rewrite lookup_insert_eq in Hq. simplify_eq. split; constructor.
    + rewrite lookup_insert_ne in Hq by done. by apply Hord.
  - rewrite enqueue_count. unfold enqueue in Hq.
    destruct (mailboxes b !! a) as [queue|] eqn:Ha; simpl in Hq |- *.
    + destruct (decide (a = x)) as [->|Hne].
      * rewrite lookup_insert_eq in Hq. simplify_eq.
        destruct (Hord x queue Ha) as [Hs Hf]. split.
        -- rewrite map_app. apply StronglySorted_app_2; [|done|].
           ++ intros i j Hi Hj. apply list_elem_of_fmap in Hi as (e & -> & He).
              apply list_elem_of_singleton in Hj. subst j. simpl.
              rewrite Forall_forall in Hf. by destruct (Hf e He).
           ++ repeat constructor.
        -- apply Forall_app. split; [by apply ordered_weaken|].
           constructor; [|constructor]. simpl. split; [lia | done].
      * rewrite lookup_insert_ne in Hq by done.
        destruct (Hord x q Hq) as [Hs Hf]. split; [done|].
        by apply ordered_weaken.
    + destruct (Hord x q Hq) as [Hs Hf]. split; [done|].
      by apply ordered_weaken.
  - unfold receive_message in Hrecv.
    destruct (mailboxes b !! a) as [[|msg queue]|] eqn:Ha; simplify_eq.
    + by apply Hord.
    + simpl in Hq |- *. destruct (decide (a = x)) as [->|Hne].
      * rewrite lookup_insert_eq in Hq. simplify_eq.
        destruct (Hord x (msg :: q) Ha) as [Hs Hf]. split.
        -- simpl in Hs. by apply StronglySorted_inv in Hs as [Hs _].
        -- by apply Forall_cons in Hf as [_ Hf].
      * rewrite lookup_insert_ne in Hq by done. by apply Hord.
Qed.

Lemma ordered_reachable (b : MessageBus.t) :
  rtc MessageBus.step MessageBus.init b -> ordered b.
Proof.
  revert b. apply rtc_ind_r.
  - apply ordered_init.
  - intros b1 b2 _ Hstep IH. by eapply ordered_step.
Qed.



End BusRunFacts.

(** X1.  On every bus reached from the empty bus by registrations,
    deliveries and receptions, the envelope ids in each mailbox grow
    strictly from the oldest to the newest and lie below the message
    counter, and each envelope sits in the mailbox of its addressee. *)
Theorem bus_ids_ordered (b : MessageBus.t) :
  rtc MessageBus.step MessageBus.init b ->
  forall agent_id queue,
    MessageBus.mailboxes b !! agent_id = Some queue ->
    StronglySorted Z.lt (map Message.id queue)
    /\ Forall (fun e => (Message.id e < MessageBus.message_count b)%Z
                        /\ Message.to e = agent_id) queue.
Proof. intros H. by apply BusRunFacts.ordered_reachable. Qed.

(** The bus with the broker registered, after one delivery to it. *)
Lemma bus_ids_ordered_witness :
  StronglySorted Z.lt
    (map Message.id [Message.mk "p" "network" demo_status 1 0.1 0]).
Proof.
  eapply (bus_ids_ordered
            (BusRun.deliver demo_bus.1
               (BusRun.mk_delivery "p" "network" demo_status 0.1 1))
            _ "network").
  Unshelve.
  - vm_compute. reflexivity.
  - eapply rtc_l; [apply (MessageBus.step_register "network")|].
    eapply rtc_l; [|apply rtc_refl].
    apply (MessageBus.step_enqueue "p" "network" demo_status 0.1 1).
Defined.



(** ** Aggregator: consistency of counters and samples *)

Module RecordingFacts.
Import Recording SimulationMetrics.

Lemma consistent_reset (start : Q) : consistent (reset start).
Proof. unfold consistent. simpl. repeat split; (lia || constructor). Qed.

Lemma perform_consistent (m : SimulationMetrics.t) (op : operation) :
  consistent m -> consistent (perform m op).
Proof.
  unfold consistent.
  intros (H1 & H2 & H3 & H4 & H5 & H6 & H7 & H8 & H9 & H10 & H11 & H12 & H13).
  destruct op as [s rt | c comp | u r e | ev lat]; simpl.
  - destruct s, (Qltb 0 rt) eqn:E; repeat split;
      rewrite ?length_app; simpl; try lia; try done;
      (apply Forall_app; split; [done|];
       repeat constructor; by apply Qltb_lt).
  - destruct (String.eqb (StorageContract.status c) "active"), comp;
      repeat split; rewrite ?length_app; simpl; try lia; done.
  - destruct (Qltb 0 e) eqn:E; repeat split;
      rewrite ?length_app; simpl; try lia; try done;
      (apply Forall_app; split; [done|];
       repeat constructor; by apply Qltb_lt).
  - destruct (String.eqb ev "corruption"),
      (String.eqb ev "provider_failure"), (Qltb 0 lat) eqn:E;
      repeat split; rewrite ?length_app; simpl; try lia; try done;
      (apply Forall_app; split; [done|];
       repeat constructor; by apply Qltb_lt).
Qed.

Lemma run_consistent (ops : list operation) (m : SimulationMetrics.t) :
  consistent m -> consistent (foldl perform m ops).
Proof.
  revert m. induction ops as [|op ops IH]; intros m Hm; [done|].
  simpl. apply IH. by apply perform_consistent.
Qed.

Lemma Qsum_nonneg (l : list Q) :
  Forall (fun t => (0 < t)%Q) l -> (0 <= Qsum l)%Q.
Proof.
  induction 1 as [|t l Ht _ IH]; simpl; [apply Qle_refl|]. lra.
Qed.

Lemma mean_or_zero_nonneg (l : list Q) (r : Q) :
  Forall (fun t => (0 < t)%Q) l -> mean_or_zero l = Return r -> (0 <= r)%Q.
Proof.
  intros Hl. destruct l as [|t l]; simpl; intros Hr; simplify_eq.
  - apply Qle_refl.
  - apply Qle_shift_div_l.
    + unfold Qlen. rewrite <- (Zlt_Qlt 0). simpl. lia.
    + rewrite Qmult_0_l. apply (Qsum_nonneg (t :: l) Hl).
Qed.

Lemma rate_bounds (num den : Z) :
  (0 <= num)%Z ->
  (0 <= inject_Z num / inject_Z (Z.max den 1) * 100)%Q
  /\ ((num <= den)%Z ->
      (inject_Z num / inject_Z (Z.max den 1) * 100 <= 100)%Q).
Proof.
  intros Hn.
  assert (0 < inject_Z (Z.max den 1))%Q as Hpos
    by (rewrite <- (Zlt_Qlt 0); lia).
  assert (0 <= inject_Z num)%Q as Hn' by (rewrite <- (Zle_Qle 0); lia).
  split.
  - assert (0 <= inject_Z num / inject_Z (Z.max den 1))%Q.
    { apply Qle_shift_div_l; [done|]. lra. }
    lra.
  - intros Hle.
    assert (inject_Z num / inject_Z (Z.max den 1) <= 1)%Q.
    { apply Qle_shift_div_r; [done|].
      assert (inject_Z num <= inject_Z (Z.max den 1))%Q
        by (rewrite <- Zle_Qle; lia).
      lra. }
    lra.
Qed.

(** What the summary reports for the averages and rates. *)
Lemma get_summary_fields (float_sqrt : Q -> Q) (now : Q)
    (m : SimulationMetrics.t) :
  exists s,
    get_summary float_sqrt now m = Return s
    /\ mean_or_zero (response_times m) = Return (avg_response_time (requests s))
    /\ mean_or_zero (network_latencies m) = Return (avg_latency (network s))
    /\ success_rate (requests s)
       = (inject_Z (successful_requests m)
          / inject_Z (Z.max (total_requests m) 1) * 100)%Q
    /\ completion_rate (contracts s)
       = (inject_Z (contracts_completed m)
          / inject_Z (Z.max (contracts_created m) 1) * 100)%Q
    /\ corruption_rate (network s)
       = (inject_Z (network_corruptions m)
          / inject_Z (Z.max (total_requests m) 1) * 100)%Q.
Proof.
  unfold get_summary. rewrite !MetricsFacts.rate_returns. simpl.
  destruct (MetricsFacts.mean_or_zero_returns (response_times m))
    as (a1 & E1 & _). rewrite E1.
  destruct (MetricsFacts.stdev_or_zero_returns float_sqrt (response_times m))
    as (a2 & -> & _).
  destruct (MetricsFacts.mean_or_zero_returns (contract_durations m))
    as (a3 & -> & _).
  destruct (MetricsFacts.mean_or_zero_returns (contract_values m))
    as (a4 & -> & _).
  destruct (MetricsFacts.mean_or_zero_returns (provider_utilizations m))
    as (a5 & -> & _).
  destruct (MetricsFacts.mean_or_zero_returns (provider_reputations m))
    as (a6 & -> & _).
  destruct (MetricsFacts.mean_or_zero_returns (network_latencies m))
    as (a7 & E7 & _). rewrite E7.
  simpl.
  match goal with
  | |- context [if Qltb 0 ?e then _ else _] =>
      destruct (MetricsFacts.per_provider_returns e) as (a8 & -> & _)
  end.
  simpl. eexists. split; [reflexivity|]. simpl. done.
Qed.
End RecordingFacts.

(** X3.  Whatever is recorded after a reset, in whatever order, the
    aggregator stays consistent: the total of requests is the successes
    plus the failures; at most one response time per request is kept and
    every response time, latency and earnings sample kept is positive;
    there is one contract duration and one contract value per contract
    created, and one reputation sample per utilization sample; no counter
    is negative. *)
Theorem recording_consistent (start : Q) (ops : list Recording.operation) :
  Recording.consistent (Recording.run start ops).
Proof.
  apply RecordingFacts.run_consistent, RecordingFacts.consistent_reset.
Qed.

(** X4.  After any sequence of recordings from a reset the summary's
    success rate lies between 0 and 100, and its completion rate,
    corruption rate, average response time and average latency are not
    negative. *)
Theorem summary_rates_bounded (float_sqrt : Q -> Q) (start now : Q)
    (ops : list Recording.operation) :
  exists s,
    SimulationMetrics.get_summary float_sqrt now (Recording.run start ops)
    = Return s
    /\ (0 <= SimulationMetrics.success_rate (SimulationMetrics.requests s)
        <= 100)%Q
    /\ (0 <= SimulationMetrics.completion_rate (SimulationMetrics.contracts s))%Q
    /\ (0 <= SimulationMetrics.corruption_rate (SimulationMetrics.network s))%Q
    /\ (0 <= SimulationMetrics.avg_response_time
               (SimulationMetrics.requests s))%Q
    /\ (0 <= SimulationMetrics.avg_latency (SimulationMetrics.network s))%Q.
Proof.
  pose proof (RecordingFacts.run_consistent ops _
                (RecordingFacts.consistent_reset start))
    as (H1 & H2 & H3 & H4 & H5 & H6 & H7 & H8 & H9 & H10 & H11 & H12 & H13).
  fold (Recording.run start ops) in *.
  destruct (RecordingFacts.get_summary_fields float_sqrt now
              (Recording.run start ops))
    as (s & Hs & Ha & Hl & E1 & E2 & E3).
  exists s. split; [exact Hs|]. rewrite E1, E2, E3.
  split.
  { destruct (RecordingFacts.rate_bounds
                (SimulationMetrics.successful_requests (Recording.run start ops))
                (SimulationMetrics.total_requests (Recording.run start ops)) H1)
      as [Hlo Hhi].
    split; [exact Hlo | apply Hhi; lia]. }
  split; [by apply RecordingFacts.rate_bounds|].
  split; [by apply RecordingFacts.rate_bounds|].
  split.
  - exact (RecordingFacts.mean_or_zero_nonneg _ _ H5 Ha).
  - exact (RecordingFacts.mean_or_zero_nonneg _ _ H6 Hl).
Qed.

(** ** Buyer: requests, responses and the contract lifecycle *)

Module BuyerRunFacts.
Import BuyerAgent BuyerRun.


Lemma inject_Z_nonzero (z : Z) : z ≠ 0%Z -> ¬ (inject_Z z == 0)%Q.
Proof. intros Hz. unfold Qeq. simpl. lia. Qed.

(** The state after [process_response] acted on a message. *)
Lemma process_response_handled (msg : Message.envelope) (now : Q)
    (a : BuyerAgent.t) (m : SimulationMetrics.t) request_id status contract
    reason original :
  Message.payload msg
  = Message.storage_response request_id status contract reason ->
  pending_requests a !! request_id = Some original ->
  (status = "success" -> is_Some contract) ->
  let a' := (process_response msg now (a, m)).1 in
  pending_requests a' = delete request_id (pending_requests a)
  /\ (requests_successful (stats a') + requests_failed (stats a')
      = requests_successful (stats a) + requests_failed (stats a) + 1)%Z
  /\ avg_response_time (stats a')
     = avg_response_time
         (update_avg_response_time
            (now - StorageRequest.timestamp original)
            (mk_stats (requests_sent (stats a))
               (if String.eqb status "success"
                then requests_successful (stats a) + 1
                else requests_successful (stats a))
               (if String.eqb status "success"
                then requests_failed (stats a)
                else requests_failed (stats a) + 1)
               0 0 (avg_response_time (stats a)) 0)).
Proof.
  intros Hmsg Hp Hwf. unfold process_response. rewrite Hmsg, Hp.
  destruct (String.eqb_spec status "success") as [Hs|Hs].
  - destruct (Hwf Hs) as [c ->]. cbv zeta. cbn [fst].
    unfold update_avg_response_time. cbn [requests_successful requests_failed].
    destruct (0 <? _)%Z eqn:E; cbn; (split; [done|]); (split; [lia|done]).
  - cbv zeta. cbn [fst].
    unfold update_avg_response_time. cbn [requests_successful requests_failed].
    destruct (0 <? _)%Z eqn:E; cbn; (split; [done|]); (split; [lia|done]).
Qed.

(** What [process_response] leaves alone. *)
Lemma process_response_ignored (msg : Message.envelope) (now : Q)
    (w : BuyerAgent.t * SimulationMetrics.t) :
  handled w.1 (response msg now) = None -> process_response msg now w = w.
Proof.
  destruct w as [a m]. unfold handled, process_response. cbn [fst].
  destruct (Message.payload msg) as [| | | rid status contract reason | |];
    try done.
  destruct (pending_requests a !! rid); [|done].
  destruct (String.eqb status "success"); [|done].
  destruct contract; [|done]. intros H. by vm_compute in H.
Qed.
End BuyerRunFacts.



(** X6.  A response is acted on once.  A message that is not a
    [storage_response] for a pending request changes nothing.  A response
    for a pending request removes that request from the pending set and
    no other, and counts one answer; handing the same response to the
    buyer again, at any later time, changes nothing. *)
Theorem response_handled_once (msg : Message.envelope) (now : Q)
    (a : BuyerAgent.t) (m : SimulationMetrics.t) :
  (BuyerRun.handled a (BuyerRun.response msg now) = None ->
   BuyerAgent.process_response msg now (a, m) = (a, m))
  /\ (forall request_id status contract reason original later,
         Message.payload msg
         = Message.storage_response request_id status contract reason ->
         BuyerAgent.pending_requests a !! request_id = Some original ->
         (status = "success" -> is_Some contract) ->
         BuyerAgent.pending_requests
           (BuyerAgent.process_response msg now (a, m)).1
         = delete request_id (BuyerAgent.pending_requests a)
         /\ (BuyerAgent.requests_successful
               (BuyerAgent.stats (BuyerAgent.process_response msg now (a, m)).1)
             + BuyerAgent.requests_failed
                 (BuyerAgent.stats
                    (BuyerAgent.process_response msg now (a, m)).1)
             = BuyerAgent.requests_successful (BuyerAgent.stats a)
               + BuyerAgent.requests_failed (BuyerAgent.stats a) + 1)%Z
         /\ BuyerAgent.process_response msg later
              (BuyerAgent.process_response msg now (a, m))
            = BuyerAgent.process_response msg now (a, m)).
Proof.
  split; [apply (BuyerRunFacts.process_response_ignored msg now (a, m))|].
  intros request_id status contract reason original later Hmsg Hp Hwf.
  destruct (BuyerRunFacts.process_response_handled msg now a m request_id
              status contract reason original Hmsg Hp Hwf) as (H1 & H2 & _).
  split; [exact H1|]. split; [exact H2|].
  apply BuyerRunFacts.process_response_ignored.
  unfold BuyerRun.handled. rewrite Hmsg, H1, lookup_delete_eq. done.
Qed.

(** The buyer of scenario A answered twice with the same success. *)
Lemma response_handled_once_witness :
  BuyerAgent.process_response success_a 13
    (BuyerAgent.process_response success_a 12
       (pending_a, SimulationMetrics.reset 0))
  = BuyerAgent.process_response success_a 12
      (pending_a, SimulationMetrics.reset 0).
Proof.
  destruct (response_handled_once success_a 12 pending_a
              (SimulationMetrics.reset 0)) as [_ H].
  destruct (H "REQ-buyer0-10-100" "success"
              (Some (IntermediaryNetworkAgent.active_contract
                       (StorageContract.contract_id contract_a) request_a
                       info_a 12 12)) None request_a 13%Q)
    as (_ & _ & Hagain).
  - reflexivity.
  - vm_compute. reflexivity.
  - intros _. by eexists.
  - exact Hagain.
Defined.

Module BuyerAverage.
Import BuyerAgent BuyerRun.

Lemma Qsum_app (l1 l2 : list Q) : (Qsum (l1 ++ l2) == Qsum l1 + Qsum l2)%Q.
Proof.
  induction l1 as [|x l1 IH].
  - change (Qsum ([] ++ l2)) with (Qsum l2). change (Qsum []) with 0%Q. ring.
  - change (Qsum ((x :: l1) ++ l2)) with (x + Qsum (l1 ++ l2))%Q.
    change (Qsum (x :: l1)) with (x + Qsum l1)%Q. rewrite IH. ring.
Qed.

(** What [handled] says of a response it gives a time for. *)
Lemma handled_inv (a : BuyerAgent.t) (msg : Message.envelope) (now t : Q) :
  handled a (response msg now) = Some t ->
  exists request_id status contract reason original,
    Message.payload msg
    = Message.storage_response request_id status contract reason
    /\ pending_requests a !! request_id = Some original
    /\ (status = "success" -> is_Some contract)
    /\ t = (now - StorageRequest.timestamp original)%Q.
Proof.
  unfold handled.
  destruct (Message.payload msg) as [| | | rid status contract reason | |];
    try done.
  destruct (pending_requests a !! rid) as [original|] eqn:Hp; [|done].
  intros H. exists rid, status, contract, reason, original.
  split; [done|]. split; [done|].
  destruct (String.eqb status "success") eqn:Hs.
  - destruct contract as [c|].
    + split; [by eauto|]. vm_compute in H. by simplify_eq.
    + by vm_compute in H.
  - apply String.eqb_neq in Hs. split; [done|]. simpl in H. by simplify_eq.
Qed.

(** The new average after one more answer. *)
Lemma average_step (avg t : Q) (times : list Q) (total : Z) :
  total = (Z.of_nat (length times) + 1)%Z ->
  (avg * Qlen times == Qsum times)%Q ->
  ((avg * (inject_Z total - 1) + t) / inject_Z total * Qlen (times ++ [t])
   == Qsum (times ++ [t]))%Q.
Proof.
  intros -> Havg. rewrite Qsum_app. unfold Qlen in *.
  rewrite length_app, Nat2Z.inj_add. simpl length.
  change (Z.of_nat 1) with 1%Z.
  set (n := Z.of_nat (length times)) in *.
  assert (0 <= n)%Z as Hn by (unfold n; lia).
  rewrite inject_Z_plus in *. change (inject_Z 1) with 1%Q.
  assert (0 <= inject_Z n)%Q as Hq by (rewrite <- (Zle_Qle 0); exact Hn).
  unfold Qsum at 2. simpl foldr.
  assert ((avg * (inject_Z n + 1 - 1) + t) / (inject_Z n + 1)
          * (inject_Z n + 1)
          == avg * inject_Z n + t)%Q as -> by (field; lra).
  rewrite Havg. ring.
Qed.

Lemma perform_averaged (w : BuyerAgent.t * SimulationMetrics.t) (s : step)
    (times : list Q) :
  averaged w.1 times ->
  averaged (perform w s).1
    (times ++ match handled w.1 s with Some t => [t] | None => [] end).
Proof.
  destruct w as [a m]. intros (Hn & Havg & Hz). destruct s as [r ok|msg now|c].
  - cbn [handled]. rewrite app_nil_r. unfold perform, request_behavior.
    destruct ok; done.
  - destruct (handled (a, m).1 (response msg now)) as [t|] eqn:Hh.
    + cbn [fst] in Hh.
      destruct (handled_inv a msg now t Hh)
        as (rid & status & contract & reason & original
            & Hmsg & Hp & Hwf & ->).
      pose proof (BuyerRunFacts.process_response_handled msg now a m rid
                    status contract reason original Hmsg Hp Hwf)
        as (_ & Hcount & Hnew).
      cbn [perform]. split; [|split].
      * rewrite Hcount, length_app. cbn [fst] in Hn. simpl length.
        rewrite Nat2Z.inj_add. lia.
      * rewrite Hnew. unfold update_avg_response_time.
        cbn [requests_successful requests_failed avg_response_time].
        cbn [fst] in Hn, Havg.
        set (total := ((if String.eqb status "success"
                        then requests_successful (stats a) + 1
                        else requests_successful (stats a))
                       + (if String.eqb status "success"
                          then requests_failed (stats a)
                          else requests_failed (stats a) + 1))%Z).
        assert (total = Z.of_nat (length times) + 1)%Z as Htotal
          by (unfold total; destruct (String.eqb status "success"); lia).
        replace (0 <? total)%Z with true by (symmetry; apply Z.ltb_lt; lia).
        cbn [avg_response_time].
        by apply average_step.
      * intros Hnil. by apply app_eq_nil in Hnil as [_ ?].
    + rewrite app_nil_r. cbn [perform].
      by rewrite (BuyerRunFacts.process_response_ignored msg now (a, m) Hh).
  - cbn [handled]. rewrite app_nil_r. unfold perform, track_contract_completion.
    destruct (active_contracts a !! _); done.
Qed.

Lemma run_averaged (steps : list step)
    (w : BuyerAgent.t * SimulationMetrics.t) (times : list Q) :
  averaged w.1 times ->
  averaged (run steps w).1 (times ++ handled_times steps w).
Proof.
  revert w times. induction steps as [|s steps IH]; intros w times H.
  - simpl. by rewrite app_nil_r.
  - change (run (s :: steps) w) with (run steps (perform w s)).
    apply (perform_averaged w s) in H. apply IH in H. simpl.
    destruct (handled w.1 s); [|by rewrite app_nil_r in H].
    by rewrite <- app_assoc in H.
Qed.

(** The contracts recorded in the global metrics along a run whose
    contracts all have status ['active']. *)
Lemma perform_contracts (w : BuyerAgent.t * SimulationMetrics.t) (s : step) :
  relayed s ->
  SimulationMetrics.contracts_completed (perform w s).2
  = SimulationMetrics.contracts_completed w.2
  /\ (SimulationMetrics.contracts_created (perform w s).2
      = SimulationMetrics.contracts_created w.2
        + (if accepted w.1 s then 1 else 0)
        + (if completes w.1 s then 1 else 0))%Z.
Proof.
  destruct w as [a m]. destruct s as [r ok|msg now|c]; cbn [relayed fst snd].
  - intros _. unfold perform, request_behavior. destruct ok; simpl; split; lia.
  - unfold perform, process_response, accepted, completes. cbn [fst].
    destruct (Message.payload msg) as [| | | rid status contract reason | |];
      try (intros _; simpl; split; lia).
    destruct (pending_requests a !! rid) as [original|];
      [|intros _; destruct contract; simpl; split; lia].
    rewrite bool_decide_true by eauto.
    destruct contract as [c|]; intros Hc.
    + destruct (String.eqb status "success"); cbn [snd andb].
      * unfold SimulationMetrics.record_contract. rewrite Hc. simpl. split; lia.
      * simpl. split; lia.
    + destruct (String.eqb status "success"); simpl; split; lia.
  - intros Hc. unfold perform, track_contract_completion, completes.
    cbn [fst].
    destruct (active_contracts a !! StorageContract.contract_id c) as [c'|].
    + rewrite bool_decide_true by eauto. cbn [snd].
      unfold SimulationMetrics.record_contract. rewrite Hc. simpl. split; lia.
    + rewrite bool_decide_false by (by intros [? ?]). simpl. split; lia.
Qed.

Lemma run_contracts (steps : list step)
    (w : BuyerAgent.t * SimulationMetrics.t) :
  Forall relayed steps ->
  SimulationMetrics.contracts_completed (run steps w).2
  = SimulationMetrics.contracts_completed w.2
  /\ (SimulationMetrics.contracts_created (run steps w).2
      = SimulationMetrics.contracts_created w.2
        + count accepted steps w + count completes steps w)%Z.
Proof.
  intros H. revert w. induction H as [|s steps Hs _ IH]; intros w.
  - simpl. split; lia.
  - change (run (s :: steps) w) with (run steps (perform w s)).
    destruct (IH (perform w s)) as [-> ->].
    destruct (perform_contracts w s Hs) as [-> ->]. simpl. split; lia.
Qed.

(** The buyer's own contract counters. *)
Lemma perform_contracts_counted (w : BuyerAgent.t * SimulationMetrics.t)
    (s : step) :
  contracts_counted w.1 -> contracts_counted (perform w s).1.
Proof.
  destruct w as [a m]. unfold contracts_counted. cbn [fst].
  intros [Hc Hs]. destruct s as [r ok|msg now|c].
  - unfold perform, request_behavior. destruct ok; done.
  - unfold perform, process_response.
    destruct (Message.payload msg) as [| | | rid status contract reason | |];
      try done.
    destruct (pending_requests a !! rid) as [original|]; [|done].
    destruct (String.eqb status "success").
    + destruct contract as [c|]; [|done]. cbn [fst].
      unfold update_avg_response_time.
      cbn [requests_successful requests_failed].
      pose proof (map_size_insert (StorageContract.contract_id c) c
                    (active_contracts a)) as Hsize.
      destruct (active_contracts a !! StorageContract.contract_id c);
        destruct (0 <? _)%Z; cbn; cbn in Hsize; (split; [done|lia]).
    + cbn [fst]. unfold update_avg_response_time.
      cbn [requests_successful requests_failed].
      destruct (0 <? _)%Z; cbn; (split; [done|lia]).
  - unfold perform, track_contract_completion.
    destruct (active_contracts a !! StorageContract.contract_id c) as [c'|]
      eqn:Hl; [|done].
    cbn. rewrite length_app, map_size_delete_Some by eauto. simpl length.
    pose proof (map_size_ne_0_lookup_2 (active_contracts a)
                  (StorageContract.contract_id c) (mk_is_Some _ _ Hl)).
    split; lia.
Qed.

Lemma run_contracts_counted (steps : list step)
    (w : BuyerAgent.t * SimulationMetrics.t) :
  contracts_counted w.1 -> contracts_counted (run steps w).1.
Proof.
  revert w. induction steps as [|s steps IH]; intros w H; [done|].
  change (run (s :: steps) w) with (run steps (perform w s)).
  by apply IH, perform_contracts_counted.
Qed.
End BuyerAverage.

(** X7.  A buyer's average response time is the mean of the response
    times of the responses it acted on: from a new buyer and after any
    steps, the answers counted are as many as those response times, and
    the average is their mean, or 0 when there were none. *)
Theorem avg_response_time_is_mean (agent_id broker_id : string)
    (request_interval : Q * Q) (budget_per_hour : Q) (bus : MessageBus.t)
    (m : SimulationMetrics.t) (steps : list BuyerRun.step) :
  let start :=
    ((BuyerAgent.init agent_id broker_id request_interval budget_per_hour
        bus).1, m) in
  let s := BuyerAgent.stats (BuyerRun.run steps start).1 in
  let times := BuyerRun.handled_times steps start in
  (BuyerAgent.requests_successful s + BuyerAgent.requests_failed s
   = Z.of_nat (length times))%Z
  /\ match mean times with
     | Return q => (BuyerAgent.avg_response_time s == q)%Q
     | Raised _ => (BuyerAgent.avg_response_time s == 0)%Q
     end.
Proof.
  intros start s times.
  destruct (BuyerAverage.run_averaged steps start []) as (Hn & Havg & Hz).
  { split; [done|]. split; [|done]. simpl. unfold Qlen, Qsum. simpl. ring. }
  rewrite app_nil_l in Hn, Havg, Hz. fold times in Hn, Havg, Hz.
  fold s in Hn, Havg, Hz. split; [exact Hn|].
  destruct times as [|t times'] eqn:Ht; [by apply Hz|].
  unfold mean. rewrite <- Havg. field.
  unfold Qlen. apply BuyerRunFacts.inject_Z_nonzero. simpl length. lia.
Qed.

(** X8.  The buyer never records a completed contract.  Along a run in
    which every contract has the status ['active'] the broker gives it,
    the global count of completed contracts does not move, and the count
    of created contracts grows once when the contract is accepted and
    once more when its completion is tracked. *)
Theorem completion_never_recorded (steps : list BuyerRun.step)
    (w : BuyerAgent.t * SimulationMetrics.t) :
  Forall BuyerRun.relayed steps ->
  SimulationMetrics.contracts_completed (BuyerRun.run steps w).2
  = SimulationMetrics.contracts_completed w.2
  /\ (SimulationMetrics.contracts_created (BuyerRun.run steps w).2
      = SimulationMetrics.contracts_created w.2
        + BuyerRun.count BuyerRun.accepted steps w
        + BuyerRun.count BuyerRun.completes steps w)%Z.
Proof. apply BuyerAverage.run_contracts. Qed.

(** The contract of scenario A, accepted and then completed, is counted
    as created twice and as completed never. *)
Lemma completion_never_recorded_witness :
  let steps :=
    [BuyerRun.response success_a 12;
     BuyerRun.completion
       (IntermediaryNetworkAgent.active_contract
          (StorageContract.contract_id contract_a) request_a info_a 12 12)] in
  let w := (pending_a, SimulationMetrics.reset 0) in
  SimulationMetrics.contracts_completed (BuyerRun.run steps w).2 = 0%Z
  /\ SimulationMetrics.contracts_created (BuyerRun.run steps w).2 = 2%Z.
Proof.
  intros steps w.
  destruct (completion_never_recorded steps w) as [H1 H2].
  - repeat constructor.
  - split; [exact H1|]. rewrite H2. vm_compute. reflexivity.
Defined.

(** X9.  A buyer's contract counters follow its contracts: from a new
    buyer and after any steps, [contracts_completed] is the number of
    completed contracts, and the contracts held or completed are never
    more than the requests answered with success. *)
Theorem buyer_contracts_counted (agent_id broker_id : string)
    (request_interval : Q * Q) (budget_per_hour : Q) (bus : MessageBus.t)
    (m : SimulationMetrics.t) (steps : list BuyerRun.step) :
  BuyerRun.contracts_counted
    (BuyerRun.run steps
       ((BuyerAgent.init agent_id broker_id request_interval budget_per_hour
           bus).1, m)).1.
Proof.
  apply BuyerAverage.run_contracts_counted. split; [done|].
  cbn. rewrite map_size_empty. lia.
Qed.

(** ** Provider *)

Module ProviderRunFacts.
Import StorageProviderAgent Provider ProviderRun.

(** What [update_reputation] does to the counters, whether or not the
    sample can be recorded. *)
Lemma update_reputation_counters (success : bool)
    (w : StorageProviderAgent.t * SimulationMetrics.t) :
  let p' := (update_reputation success w).1.1 in
  requests_received (stats p') = requests_received (stats w.1)
  /\ requests_accepted (stats p') = requests_accepted (stats w.1)
  /\ requests_rejected (stats p') = requests_rejected (stats w.1)
  /\ contracts_completed (stats p') = contracts_completed (stats w.1)
  /\ current_reputation (stats p') = reputation p'
  /\ completed_contracts p' = completed_contracts w.1
  /\ success_count p'
     = (if success then success_count w.1 + 1 else success_count w.1)%Z
  /\ failure_count p'
     = (if success then failure_count w.1 else failure_count w.1 + 1)%Z.
Proof.
  destruct w as [p metrics]. unfold update_reputation.
  destruct (get_utilization _); destruct success; simpl; done.
Qed.

(** The state an allocation request leaves, read through the reputation
    update that ends both branches. *)
Lemma process_allocation_request_state (msg : Message.envelope) (draw : Q)
    (p : StorageProviderAgent.t) (m : SimulationMetrics.t) rid c :
  Message.payload msg = Message.allocation_request rid c ->
  (process_allocation_request msg draw (p, m)).1.1
  = if can_fulfill_request (StorageContract.space_gb c) draw p
    then (update_reputation true
            (count_accepted (StorageContract.total_cost c)
               (set_ledger
                  (available_space_gb p - StorageContract.space_gb c)
                  (<[StorageContract.contract_id c := c]>
                     (active_contracts p))
                  (completed_contracts p) (count_received p)), m)).1.1
    else (update_reputation false
            (count_rejected (count_received p), m)).1.1.
Proof.
  intros Hmsg. unfold process_allocation_request. rewrite Hmsg. cbv zeta.
  change (can_fulfill_request (StorageContract.space_gb c) draw
            (count_received p))
    with (can_fulfill_request (StorageContract.space_gb c) draw p).
  destruct (can_fulfill_request (StorageContract.space_gb c) draw p).
  - match goal with
    | |- context [update_reputation true ?w] =>
        set (u := update_reputation true w)
    end.
    change (update_reputation true _) with u.
    by destruct u as [[p' m'] [[]|e]].
  - match goal with
    | |- context [update_reputation false ?w] =>
        set (u := update_reputation false w)
    end.
    change (update_reputation false _) with u.
    by destruct u as [[p' m'] [[]|e]].
Qed.

Lemma size_split (now : Q) (m : gmap string StorageContract.t) :
  size m
  = (size (filter (fun kv => expired now kv.2 = true) m)
     + size (filter (fun kv => expired now kv.2 = false) m))%nat.
Proof.
  induction m as [|k c m Hk _ IH] using map_first_key_ind.
  - by rewrite !map_filter_empty, map_size_empty.
  - rewrite map_size_insert_None by done.
    destruct (expired now c) eqn:E.
    + rewrite (map_filter_insert_True (fun kv => expired now kv.2 = true))
        by done.
      rewrite (map_filter_insert_not' (fun kv => expired now kv.2 = false)).
      * rewrite map_size_insert_None; [lia|].
        by rewrite map_lookup_filter_None_2; [|left].
      * simpl. congruence.
      * intros y Hy. congruence.
    + rewrite (map_filter_insert_True (fun kv => expired now kv.2 = false))
        by done.
      rewrite (map_filter_insert_not' (fun kv => expired now kv.2 = true)).
      * rewrite map_size_insert_None; [lia|].
        by rewrite map_lookup_filter_None_2; [|left].
      * simpl. congruence.
      * intros y Hy. congruence.
Qed.



Lemma perform_conserved (op : operation)
    (w : StorageProviderAgent.t * SimulationMetrics.t) :
  scheduled op -> well_formed op w.1 ->
  conserved w.1 -> conserved (perform op w).1.
Proof.
  destruct w as [p m]. unfold conserved. cbn [fst].
  intros Hop Hwf (Ha & Hs & Hf).
  destruct op as [msg draw | success | now | now |]; cbn [perform fst snd].
  - cbn [well_formed] in Hwf.
    destruct (Message.payload msg) as [| rid c | | | |] eqn:Hmsg;
      try (unfold process_allocation_request; rewrite Hmsg; done).
    destruct Hwf as [_ Hfresh].
    rewrite (process_allocation_request_state msg draw p m rid c Hmsg).
    destruct (can_fulfill_request _ _ _).
    + match goal with
      | |- context [update_reputation true ?w] =>
          pose proof (update_reputation_counters true w)
            as (_ & -> & -> & _ & _ & -> & -> & ->);
          pose proof (ProviderFacts.update_reputation_frame true w)
            as (_ & _ & -> & _)
      end.
      cbn. rewrite map_size_insert_None by done. lia.
    + match goal with
      | |- context [update_reputation false ?w] =>
          pose proof (update_reputation_counters false w)
            as (_ & -> & -> & _ & _ & -> & -> & ->);
          pose proof (ProviderFacts.update_reputation_frame false w)
            as (_ & _ & -> & _)
      end.
      cbn. lia.
  - done.
  - cbn. rewrite length_app, length_map, length_map_to_list.
    pose proof (size_split now (active_contracts p)). lia.
  - unfold status_updater. destruct (get_utilization _); done.
  - unfold dynamic_pricing. destruct (get_utilization _) as [u|]; [|done].
    destruct (Qltb 0.8 u); [done|]. by destruct (Qltb u 0.3).
Qed.

Lemma run_conserved (ops : list operation)
    (w : StorageProviderAgent.t * SimulationMetrics.t) :
  Forall scheduled ops -> well_formed_run ops w ->
  conserved w.1 -> conserved (run ops w).1.
Proof.
  intros Hops. revert w. induction Hops as [|op ops Hop _ IH]; intros w Hwf H.
  - done.
  - destruct Hwf as [Hwf Hrest].
    apply (IH (perform op w)); [done|]. by apply perform_conserved.
Qed.

Lemma expired_true (now : Q) (c : StorageContract.t) :
  expired now c = true <-> (StorageContract.end_time c <= now)%Q.
Proof. apply Qle_bool_iff. Qed.

Lemma expired_false (now : Q) (c : StorageContract.t) :
  expired now c = false <-> (now < StorageContract.end_time c)%Q.
Proof.
  rewrite <- not_true_iff_false, expired_true. split.
  - apply Qnot_le_lt.
  - intros H1 H2. apply (Qlt_not_le _ _ H1 H2).
Qed.

Lemma get_utilization_returns (p : StorageProviderAgent.t) :
  total_space_gb p ≠ 0%Z -> get_utilization p = Return (utilization p).
Proof. intros H. unfold get_utilization. by rewrite int_truediv_nonzero. Qed.

Lemma get_utilization_raises (p : StorageProviderAgent.t) :
  total_space_gb p = 0%Z -> get_utilization p = Raised ZeroDivisionError.
Proof. intros H. unfold get_utilization. by rewrite H. Qed.
End ProviderRunFacts.


(** X11.  No accepted contract is lost: when every allocation request
    brings a contract id that is not active at the provider, the
    requests accepted are the active contracts plus the completed ones,
    and the success and failure counts sent to the broker are the
    requests accepted and rejected. *)
Theorem provider_contracts_conserved (agent_id broker_id : string)
    (total_space_gb : Z) (base_price failure_probability now : Q)
    (bus : MessageBus.t) (m : SimulationMetrics.t)
    (ops : list Provider.operation) :
  let start :=
    ((StorageProviderAgent.init agent_id broker_id total_space_gb
        base_price failure_probability now bus).1, m) in
  Forall ProviderRun.scheduled ops ->
  Provider.well_formed_run ops start ->
  ProviderRun.conserved (Provider.run ops start).1.
Proof.
  intros start Hops Hwf. apply ProviderRunFacts.run_conserved; [done..|].
  by repeat split.
Qed.

(** The provider of scenario A after a request, a sweep past the end of
    its contract, a second request and an early sweep. *)
Lemma provider_contracts_conserved_witness :
  ProviderRun.conserved
    (Provider.run
       [Provider.allocation allocation_a 0.5; Provider.sweep 100000;
        Provider.allocation allocation_b 0.5; Provider.sweep 12]
       provider_a).1.
Proof.
  apply (provider_contracts_conserved "provider0" "network" 100 0.5 0 0
           MessageBus.init (SimulationMetrics.reset 0)).
  - repeat constructor.
  - vm_compute. repeat split; (reflexivity || discriminate).
Defined.

Module SweepFacts.
Import StorageProviderAgent Provider ProviderRun.

Lemma kept_kept (now : Q) (m : gmap string StorageContract.t) :
  filter (fun kv => expired now kv.2 = false)
    (filter (fun kv => expired now kv.2 = false) m)
  = filter (fun kv => expired now kv.2 = false) m.
Proof.
  apply map_eq. intros k. apply option_eq. intros c.
  rewrite !map_lookup_filter_Some. tauto.
Qed.

Lemma done_kept (now : Q) (m : gmap string StorageContract.t) :
  filter (fun kv => expired now kv.2 = true)
    (filter (fun kv => expired now kv.2 = false) m)
  = ∅.
Proof.
  apply map_eq. intros k. rewrite lookup_empty.
  apply map_lookup_filter_None_2. right. intros c Hc.
  apply map_lookup_filter_Some in Hc as [_ Hc]. simpl in *. congruence.
Qed.

Lemma contract_manager_again (now : Q) (p : StorageProviderAgent.t) :
  contract_manager now (contract_manager now p) = contract_manager now p.
Proof.
  destruct p as [id broker total available base fp price active completed
                   rep sc fc [rr ra rj te up au cc cr] st run].
  unfold contract_manager. cbv zeta.
  cbn [active_contracts set_ledger set_stats available_space_gb
         completed_contracts stats agent_id broker_id total_space_gb
         base_price_per_gb_hour failure_probability
         current_price_per_gb_hour reputation success_count failure_count
         start_time running requests_received requests_accepted
         requests_rejected total_earnings uptime avg_utilization
         contracts_completed current_reputation].
  rewrite done_kept, kept_kept, map_to_list_empty, map_size_empty.
  rewrite ProviderFacts.reserved_empty. cbn [map Z.of_nat].
  by rewrite app_nil_r, !Z.add_0_r.
Qed.

Lemma update_reputation_raises (success : bool)
    (w : StorageProviderAgent.t * SimulationMetrics.t) :
  total_space_gb w.1 = 0%Z ->
  (update_reputation success w).2 = Raised ZeroDivisionError.
Proof.
  destruct w as [p metrics]. simpl. intros Htotal. unfold update_reputation.
  unfold get_utilization.
  replace (total_space_gb _) with 0%Z by (by destruct success).
  reflexivity.
Qed.

Lemma price_high (base : Q) :
  (0 <= base)%Q -> py_min (base * 1.5) (base * 2.0) = (base * 1.5)%Q.
Proof.
  intros H. unfold py_min.
  replace (Qltb (base * 2.0) (base * 1.5)) with false; [done|].
  symmetry. apply Qltb_ge. lra.
Qed.

Lemma price_low (base : Q) :
  (0 <= base)%Q -> py_max (base * 0.8) (base * 0.5) = (base * 0.8)%Q.
Proof.
  intros H. unfold py_max.
  replace (Qltb (base * 0.8) (base * 0.5)) with false; [done|].
  symmetry. apply Qltb_ge. lra.
Qed.
End SweepFacts.

(** X12.  One pass of the contract manager at time [now] leaves active
    exactly the contracts that were active and end after [now], and a
    second pass at the same time changes nothing: no space is released
    twice. *)
Theorem sweep_removes_expired (now : Q) (p : StorageProviderAgent.t) :
  (forall cid c,
      StorageProviderAgent.active_contracts
        (StorageProviderAgent.contract_manager now p) !! cid = Some c
      <-> StorageProviderAgent.active_contracts p !! cid = Some c
          /\ (now < StorageContract.end_time c)%Q)
  /\ StorageProviderAgent.contract_manager now
       (StorageProviderAgent.contract_manager now p)
     = StorageProviderAgent.contract_manager now p.
Proof.
  split; [|apply SweepFacts.contract_manager_again].
  intros cid c.
  change (StorageProviderAgent.active_contracts
            (StorageProviderAgent.contract_manager now p))
    with (filter (fun kv => StorageProviderAgent.expired now kv.2 = false)
            (StorageProviderAgent.active_contracts p)).
  rewrite map_lookup_filter_Some. simpl.
  by rewrite ProviderRunFacts.expired_false.
Qed.

(** X13.  The price a provider with some capacity and a base price that
    is not negative sets in one pass of its pricing task is 1.5 times
    the base price when more than 80% of the space is in use, 0.8 times
    when less than 30% is, and the base price otherwise; the limits of
    2.0 and 0.5 times the base price never change the result. *)
Theorem dynamic_pricing_levels (p : StorageProviderAgent.t) :
  StorageProviderAgent.total_space_gb p ≠ 0%Z ->
  (0 <= StorageProviderAgent.base_price_per_gb_hour p)%Q ->
  let base := StorageProviderAgent.base_price_per_gb_hour p in
  let u := ProviderRun.utilization p in
  let price :=
    StorageProviderAgent.current_price_per_gb_hour
      (StorageProviderAgent.dynamic_pricing p) in
  ((0.8 < u)%Q -> price = (base * 1.5)%Q)
  /\ ((u < 0.3)%Q -> price = (base * 0.8)%Q)
  /\ ((0.3 <= u <= 0.8)%Q -> price = base)
  /\ (base * 0.8 <= price <= base * 1.5)%Q.
Proof.
  intros Htotal Hbase base u price. unfold price.
  unfold StorageProviderAgent.dynamic_pricing.
  rewrite (ProviderRunFacts.get_utilization_returns p Htotal).
  fold u. cbv zeta. fold base. fold base in Hbase.
  destruct (Qltb 0.8 u) eqn:E1.
  - apply Qltb_lt in E1. cbn [StorageProviderAgent.current_price_per_gb_hour
                                StorageProviderAgent.set_price].
    rewrite SweepFacts.price_high by done.
    split; [done|]. split; [intros; exfalso; lra|].
    split; [intros [? ?]; exfalso; lra|]. split; lra.
  - apply Qltb_ge in E1. destruct (Qltb u 0.3) eqn:E2.
    + apply Qltb_lt in E2.
      cbn [StorageProviderAgent.current_price_per_gb_hour
             StorageProviderAgent.set_price].
      rewrite SweepFacts.price_low by done.
      split; [intros; exfalso; lra|]. split; [done|].
      split; [intros [? ?]; exfalso; lra|]. split; lra.
    + apply Qltb_ge in E2.
      cbn [StorageProviderAgent.current_price_per_gb_hour
             StorageProviderAgent.set_price].
      split; [intros; exfalso; lra|]. split; [intros; exfalso; lra|].
      split; [done|]. split; lra.
Qed.

(** The idle provider of scenario A charges 0.8 times its base price. *)
Lemma dynamic_pricing_levels_witness :
  StorageProviderAgent.current_price_per_gb_hour
    (StorageProviderAgent.dynamic_pricing provider_a.1)
  = (StorageProviderAgent.base_price_per_gb_hour provider_a.1 * 0.8)%Q.
Proof.
  destruct (dynamic_pricing_levels provider_a.1) as (_ & Hlow & _).
  - vm_compute. discriminate.
  - vm_compute. discriminate.
  - apply Hlow. vm_compute. reflexivity.
Defined.

(** X14.  A provider registered with a total space of 0 never answers:
    an allocation request gets no response, whether the provider took
    the contract or not, the status task sends nothing and the pricing
    task leaves the price alone, because the utilization cannot be
    computed; a contract it took is nevertheless active. *)
Theorem zero_capacity_provider_silent (msg : Message.envelope)
    (draw now : Q) (p : StorageProviderAgent.t) (m : SimulationMetrics.t) :
  StorageProviderAgent.total_space_gb p = 0%Z ->
  (StorageProviderAgent.process_allocation_request msg draw (p, m)).2 = []
  /\ (StorageProviderAgent.status_updater now p).2 = []
  /\ StorageProviderAgent.dynamic_pricing p = p
  /\ (forall request_id contract,
         Message.payload msg
         = Message.allocation_request request_id contract ->
         (StorageContract.space_gb contract
          <= StorageProviderAgent.available_space_gb p)%Z ->
         (StorageProviderAgent.failure_probability p <= draw)%Q ->
         StorageProviderAgent.active_contracts
           (StorageProviderAgent.process_allocation_request msg draw
              (p, m)).1.1
         !! StorageContract.contract_id contract = Some contract).
Proof.
  intros Htotal. repeat split.
  - unfold StorageProviderAgent.process_allocation_request. cbv zeta.
    destruct (Message.payload msg) as [| rid c | | | |]; try done.
    destruct (StorageProviderAgent.can_fulfill_request _ _ _).
    + match goal with
      | |- context [StorageProviderAgent.update_reputation true ?w] =>
          pose proof (SweepFacts.update_reputation_raises true w Htotal) as H;
          destruct (StorageProviderAgent.update_reputation true w)
            as [[p' m'] o]
      end.
      simpl in H. by subst o.
    + match goal with
      | |- context [StorageProviderAgent.update_reputation false ?w] =>
          pose proof (SweepFacts.update_reputation_raises false w Htotal) as H;
          destruct (StorageProviderAgent.update_reputation false w)
            as [[p' m'] o]
      end.
      simpl in H. by subst o.
  - unfold StorageProviderAgent.status_updater. cbv zeta.
    by rewrite ProviderRunFacts.get_utilization_raises.
  - unfold StorageProviderAgent.dynamic_pricing.
    by rewrite ProviderRunFacts.get_utilization_raises.
  - intros rid c Hmsg Hspace Hdraw.
    pose proof (ProviderFacts.process_allocation_request_ledger msg draw
                  (p, m)) as [_ Hl].
    rewrite Hmsg in Hl. cbn [fst] in Hl.
    rewrite (proj2 (ProviderFacts.can_fulfill_request_true _ _ _)) in Hl
      by done.
    destruct Hl as [_ ->]. apply lookup_insert_eq.
Qed.

(** A provider without capacity takes a contract for no space and says
    nothing. *)
Lemma zero_capacity_provider_silent_witness :
  (StorageProviderAgent.process_allocation_request allocation_empty 0.5
     provider_empty).2 = []
  /\ is_Some
       (StorageProviderAgent.active_contracts
          (StorageProviderAgent.process_allocation_request allocation_empty
             0.5 provider_empty).1.1
        !! "CONT-11-4321").
Proof.
  destruct (zero_capacity_provider_silent allocation_empty 0.5 0
              provider_empty.1 provider_empty.2) as (Hout & _ & _ & Hact).
  - reflexivity.
  - split; [exact Hout|].
    eexists. apply (Hact "REQ-buyer0-10-300" _ eq_refl).
    + vm_compute. discriminate.
    + vm_compute. discriminate.
Defined.

(** ** Broker *)

Module BrokerLoopFacts.
Import IntermediaryNetworkAgent BrokerLoop.

(** The provisional reputation update touches one provider object. *)
Lemma nudge_frame (accepted : bool) (provider_id : string)
    (b : IntermediaryNetworkAgent.t) :
  let b' := nudge accepted provider_id b in
  stats b' = stats b
  /\ pending_allocations b' = pending_allocations b
  /\ providers b' = providers b
  /\ provider_last_seen b' = provider_last_seen b
  /\ corruption_probability b' = corruption_probability b.
Proof.
  unfold nudge. destruct (OrderedDict.get _ _) as [r|]; [|done].
  by destruct (objects b !! r).
Qed.

(** The end of [handle_allocation_response]: the entry leaves the
    pending set and only the average of the statistics moves. *)
Lemma relay_frame request_id buyer_id response_time final_response
    (b : IntermediaryNetworkAgent.t) :
  let b' := (relay request_id buyer_id response_time final_response b).1 in
  pending_allocations b' = delete request_id (pending_allocations b)
  /\ requests_processed (stats b') = requests_processed (stats b)
  /\ successful_allocations (stats b') = successful_allocations (stats b)
  /\ failed_allocations (stats b') = failed_allocations (stats b)
  /\ corrupted_contracts (stats b') = corrupted_contracts (stats b)
  /\ active_providers (stats b') = active_providers (stats b)
  /\ total_providers_registered (stats b')
     = total_providers_registered (stats b)
  /\ providers b' = providers b
  /\ provider_last_seen b' = provider_last_seen b
  /\ objects b' = objects b.
Proof. unfold relay. by destruct (_ <? _)%Z. Qed.

(** What a handled allocation response does to the broker: nothing to
    the registry; and either nothing is sent and the counters and the
    pending set stay, or the pending entry of the request is removed,
    one message goes to its buyer and one allocation is counted. *)
Lemma handle_allocation_response_effect (msg : Message.envelope)
    (draw now at_start at_end : Q) (b : IntermediaryNetworkAgent.t)
    (m : SimulationMetrics.t) :
  let r := handle_allocation_response msg draw now at_start at_end (b, m) in
  let b' := r.1.1 in
  providers b' = providers b
  /\ provider_last_seen b' = provider_last_seen b
  /\ requests_processed (stats b') = requests_processed (stats b)
  /\ active_providers (stats b') = active_providers (stats b)
  /\ total_providers_registered (stats b')
     = total_providers_registered (stats b)
  /\ ((r.2 = []
       /\ pending_allocations b' = pending_allocations b
       /\ successful_allocations (stats b')
          = successful_allocations (stats b)
       /\ failed_allocations (stats b') = failed_allocations (stats b)
       /\ corrupted_contracts (stats b') = corrupted_contracts (stats b))
      \/ (exists request_id contract_id status reason provider_id buyer_id
                 request ref response,
             Message.payload msg
             = Message.allocation_response request_id contract_id status
                 reason provider_id
             /\ pending_allocations b !! request_id
                = Some (buyer_id, request, ref)
             /\ pending_allocations b'
                = delete request_id (pending_allocations b)
             /\ r.2 = [(buyer_id, response)]
             /\ (successful_allocations (stats b')
                 = if String.eqb status "accepted"
                   then successful_allocations (stats b) + 1
                   else successful_allocations (stats b))%Z
             /\ (failed_allocations (stats b')
                 = if String.eqb status "accepted"
                   then failed_allocations (stats b)
                   else failed_allocations (stats b) + 1)%Z
             /\ (corrupted_contracts (stats b')
                 = corrupted_contracts (stats b)
                 \/ (String.eqb status "accepted" = true
                     /\ corrupted_contracts (stats b')
                        = corrupted_contracts (stats b) + 1)%Z))).
Proof.
  unfold handle_allocation_response.
  destruct (Message.payload msg) as [| | request_id cid st rsn pid | | |]
    eqn:Hmsg; try (cbn; repeat split; try done; left; done).
  destruct (pending_allocations b !! request_id) as [[[buyer request] r]|]
    eqn:Hp; [|cbn; repeat split; try done; left; done].
  destruct (objects b !! r) as [selected|];
    [|cbn; repeat split; try done; left; done].
  cbv zeta.
  destruct (String.eqb st "accepted") eqn:Hst.
  - pose proof (nudge_frame true (ProviderInfo.agent_id selected) b)
      as (Ns & Np & Nr & Nl & Nc).
    set (b1 := nudge true (ProviderInfo.agent_id selected) b) in *.
    destruct (Qltb draw (corruption_probability b1)).
    + match goal with
      | |- context [relay ?a ?b ?c ?d ?e] =>
          pose proof (ContractFacts.relay_out a b c d e) as Hout;
          pose proof (relay_frame a b c d e)
            as (F1 & F2 & F3 & F4 & F5 & F6 & F7 & F8 & F9 & _);
          destruct (relay a b c d e) as [b' out]
      end.
      cbn [fst snd] in *. cbn in F1, F2, F3, F4, F5, F6, F7, F8, F9.
      rewrite F2, F3, F4, F5, F6, F7, F8, F9, Ns, Nr, Nl.
      repeat split; try done. right.
      exists request_id, cid, st, rsn, pid, buyer, request, r.
      eexists. rewrite Hst, F1, Np.
      repeat split; try done. right. done.
    + destruct cid as [cid|];
        [|cbn [fst snd]; rewrite Ns, Np, Nr, Nl;
          repeat split; try done; left; done].
      destruct (objects b1 !! r) as [selected'|];
        [|cbn [fst snd]; rewrite Ns, Np, Nr, Nl;
          repeat split; try done; left; done].
      match goal with
      | |- context [relay ?a ?b ?c ?d ?e] =>
          pose proof (ContractFacts.relay_out a b c d e) as Hout;
          pose proof (relay_frame a b c d e)
            as (F1 & F2 & F3 & F4 & F5 & F6 & F7 & F8 & F9 & _);
          destruct (relay a b c d e) as [b' out]
      end.
      cbn [fst snd] in *. cbn in F1, F2, F3, F4, F5, F6, F7, F8, F9.
      rewrite F2, F3, F4, F5, F6, F7, F8, F9, Ns, Nr, Nl.
      repeat split; try done. right.
      exists request_id, (Some cid), st, rsn, pid, buyer, request, r.
      eexists. rewrite Hst, F1, Np.
      repeat split; try done. left. done.
  - pose proof (nudge_frame false (ProviderInfo.agent_id selected) b)
      as (Ns & Np & Nr & Nl & Nc).
    set (b1 := nudge false (ProviderInfo.agent_id selected) b) in *.
    match goal with
    | |- context [relay ?a ?b ?c ?d ?e] =>
        pose proof (ContractFacts.relay_out a b c d e) as Hout;
        pose proof (relay_frame a b c d e)
          as (F1 & F2 & F3 & F4 & F5 & F6 & F7 & F8 & F9 & _);
        destruct (relay a b c d e) as [b' out]
    end.
    cbn [fst snd] in *. cbn in F1, F2, F3, F4, F5, F6, F7, F8, F9.
    rewrite F2, F3, F4, F5, F6, F7, F8, F9, Ns, Nr, Nl.
    repeat split; try done. right.
    exists request_id, cid, st, rsn, pid, buyer, request, r.
    eexists. rewrite Hst, F1, Np.
    repeat split; try done. left. done.
Qed.
End BrokerLoopFacts.

Module BrokerRunFacts.
Import IntermediaryNetworkAgent BrokerLoop.

Lemma set_values {V : Type} (k : string) (v : V) (d : OrderedDict.t V) :
  v ∈ OrderedDict.values (OrderedDict.set k v d).
Proof.
  unfold OrderedDict.values. induction d as [|[k' v'] d IH]; simpl.
  - apply list_elem_of_singleton. done.
  - destruct (String.eqb k' k); simpl.
    + apply elem_of_cons. by left.
    + apply elem_of_cons. by right.
Qed.

(** The provider just registered is among the registered providers, so
    the test that guards the registration counter fails. *)
Lemma handle_provider_registration_known (msg : Message.envelope) (now : Q)
    (b : IntermediaryNetworkAgent.t) (info : ProviderInfo.t) :
  Message.payload msg = Message.provider_registration info ->
  handle_provider_registration msg now b
  = set_active_providers
      (set_registry
         (OrderedDict.set (ProviderInfo.agent_id info) (next_object b)
            (providers b))
         (<[ProviderInfo.agent_id info := now]> (provider_last_seen b))
         (set_objects (<[next_object b := info]> (objects b))
            (S (next_object b)) b)).
Proof.
  intros Hmsg. unfold handle_provider_registration. rewrite Hmsg.
  cbv zeta. rewrite bool_decide_true; [done|].
  apply list_elem_of_fmap. exists (next_object b, info). split; [done|].
  unfold provider_objects. apply list_elem_of_omap.
  exists (next_object b). split.
  - cbn [providers set_registry set_objects]. apply set_values.
  - cbn [objects set_registry set_objects]. by rewrite lookup_insert_eq.
Qed.

Lemma handle_storage_request_stats (msg : Message.envelope) (suffix : Z)
    (clock : request_clock) (b : IntermediaryNetworkAgent.t) :
  let b' := (handle_storage_request msg suffix clock b).1 in
  total_providers_registered (stats b')
  = total_providers_registered (stats b)
  /\ providers b' = providers b
  /\ provider_last_seen b' = provider_last_seen b
  /\ (accounted b -> accounted b').
Proof.
  unfold handle_storage_request, accounted.
  destruct (Message.payload msg) as [request | | | | |]; try done.
  cbv zeta. destruct (select_provider _ _ _) as [[r selected]|].
  - cbn. split; [done|]. split; [done|]. split; [done|].
    intros (A1 & A2 & A3 & A4).
    pose proof (map_size_insert (StorageRequest.request_id request)
                  (Message.from msg, request, r) (pending_allocations b))
      as Hsize.
    destruct (pending_allocations b !! _); unfold id in Hsize;
      rewrite Hsize; repeat split; lia.
  - cbn. split; [done|]. split; [done|]. split; [done|].
    intros (A1 & A2 & A3 & A4). repeat split; lia.
Qed.

Lemma perform_frame (w : IntermediaryNetworkAgent.t * SimulationMetrics.t)
    (op : operation) :
  total_providers_registered (stats (perform w op).1)
  = total_providers_registered (stats w.1)
  /\ (accounted w.1 -> accounted (perform w op).1).
Proof.
  destruct w as [b m]. destruct op as [msg i | current_time].
  - cbn [perform fst]. unfold process_message. cbn [fst snd].
    destruct (Message.payload msg) as [request | | rid cid st rsn pid | |
                                       info | pid av ut rep pr ac] eqn:Hmsg.
    + pose proof (handle_storage_request_stats msg (suffix i) (clock i) b)
        as (H1 & _ & _ & H2).
      destruct (handle_storage_request msg (suffix i) (clock i) b)
        as [b' out]. done.
    + done.
    + pose proof (BrokerLoopFacts.handle_allocation_response_effect msg
                    (draw i) (now i)
                    (at_start i) (at_end i) b m)
        as (_ & _ & H3 & _ & H5 & H6).
      destruct (handle_allocation_response msg (draw i) (now i) (at_start i)
                  (at_end i) (b, m)) as [[b' m'] out].
      cbn [fst snd] in *. split; [done|]. unfold accounted.
      intros (A1 & A2 & A3 & A4). rewrite H3.
      destruct H6 as [(_ & -> & -> & -> & ->)
                     |(rid' & cid' & st' & rsn' & pid' & buyer & request
                       & ref & response & _ & Hp & -> & _ & -> & -> & Hc)].
      * done.
      * rewrite map_size_delete_Some by eauto.
        pose proof (map_size_ne_0_lookup_2 (pending_allocations b) rid'
                      (mk_is_Some _ _ Hp)).
        destruct (String.eqb st' "accepted");
          destruct Hc as [-> | [? ->]]; try done; repeat split; lia.
    + done.
    + cbn [fst].
      by rewrite (handle_provider_registration_known msg (now i) b info Hmsg).
    + cbn [fst]. unfold handle_status_update, accounted. rewrite Hmsg.
      destruct (OrderedDict.get pid (providers b)) as [r|]; [|done].
      by destruct (objects b !! r).
  - done.
Qed.

Lemma run_frame (ops : list operation)
    (w : IntermediaryNetworkAgent.t * SimulationMetrics.t) :
  total_providers_registered (stats (run ops w).1)
  = total_providers_registered (stats w.1)
  /\ (accounted w.1 -> accounted (run ops w).1).
Proof.
  revert w. induction ops as [|op ops IH]; intros w; [done|].
  change (run (op :: ops) w) with (run ops (perform w op)).
  destruct (IH (perform w op)) as [-> H2].
  destruct (perform_frame w op) as [-> H4]. auto.
Qed.
End BrokerRunFacts.

(** X15.  The broker never counts a registration: the provider just
    stored is always found among the registered providers, so whatever
    messages are handled and whatever passes of the provider manager
    run, [total_providers_registered] keeps its value. *)
Theorem registrations_never_counted (ops : list BrokerLoop.operation)
    (w : IntermediaryNetworkAgent.t * SimulationMetrics.t) :
  IntermediaryNetworkAgent.total_providers_registered
    (IntermediaryNetworkAgent.stats (BrokerLoop.run ops w).1)
  = IntermediaryNetworkAgent.total_providers_registered
      (IntermediaryNetworkAgent.stats w.1).
Proof. apply BrokerRunFacts.run_frame. Qed.


(** X17.  A provider's answer is acted on once.  An allocation response
    for a request that is not pending changes nothing and sends nothing;
    and when handling a response sent a message to the buyer, handling
    the same response again, with any draw and at any time, changes
    nothing and sends nothing. *)
Theorem allocation_response_handled_once (msg : Message.envelope)
    (draw now at_start at_end draw' now' at_start' at_end' : Q)
    (b : IntermediaryNetworkAgent.t) (m : SimulationMetrics.t) :
  let r :=
    IntermediaryNetworkAgent.handle_allocation_response msg draw now
      at_start at_end (b, m) in
  (forall request_id contract_id status reason provider_id,
      Message.payload msg
      = Message.allocation_response request_id contract_id status reason
          provider_id ->
      IntermediaryNetworkAgent.pending_allocations b !! request_id = None ->
      r = (b, m, []))
  /\ (r.2 ≠ [] ->
      IntermediaryNetworkAgent.handle_allocation_response msg draw' now'
        at_start' at_end' r.1
      = (r.1, [])).
Proof.
  intros r. split.
  - intros rid cid st rsn pid Hmsg Hp. unfold r.
    unfold IntermediaryNetworkAgent.handle_allocation_response.
    by rewrite Hmsg, Hp.
  - intros Hout.
    pose proof (BrokerLoopFacts.handle_allocation_response_effect msg draw
                  now at_start at_end b m) as (_ & _ & _ & _ & _ & H).
    fold r in H.
    destruct H as [(Hnil & _) | (rid & cid & st & rsn & pid & buyer & request
                                 & ref & response & Hmsg & _ & Hp & _)];
      [done|].
    destruct r as [[b' m'] out]. cbn [fst snd] in *.
    unfold IntermediaryNetworkAgent.handle_allocation_response.
    by rewrite Hmsg, Hp, lookup_delete_eq.
Qed.

(** The broker of scenario A given the provider's acceptance twice. *)
Lemma allocation_response_handled_once_witness :
  IntermediaryNetworkAgent.handle_allocation_response accepted_a 0.7 13 13 13
    (IntermediaryNetworkAgent.handle_allocation_response accepted_a 0.5 12
       12 12 broker_a).1
  = ((IntermediaryNetworkAgent.handle_allocation_response accepted_a 0.5 12
        12 12 broker_a).1, []).
Proof.
  destruct (allocation_response_handled_once accepted_a 0.5 12 12 12 0.7 13
              13 13 broker_a.1 broker_a.2) as [_ H].
  apply H. vm_compute. discriminate.
Defined.

Module RegistryFacts.
Import IntermediaryNetworkAgent BrokerLoop.

Section Dict.
Context {V : Type}.
Implicit Types d : OrderedDict.t V.

Lemma get_None k d : k ∉ map fst d -> OrderedDict.get k d = None.
Proof.
  induction d as [|[k' v'] d IH]; simpl; [done|]. intros Hk.
  apply not_elem_of_cons in Hk as [Hne Hk].
  destruct (String.eqb_spec k' k); [congruence|]. by apply IH.
Qed.

Lemma keys_del k d : map fst (OrderedDict.del k d) ⊆ map fst d.
Proof.
  induction d as [|[k' v'] d IH]; simpl; [done|].
  destruct (String.eqb_spec k' k); simpl.
  - intros x Hx. apply elem_of_cons. by right.
  - intros x Hx. apply elem_of_cons in Hx as [->|Hx].
    + apply elem_of_cons. by left.
    + apply elem_of_cons. right. by apply IH.
Qed.

Lemma NoDup_del k d :
  NoDup (map fst d) -> NoDup (map fst (OrderedDict.del k d)).
Proof.
  induction d as [|[k' v'] d IH]; simpl; [done|]. intros Hd.
  apply NoDup_cons in Hd as [Hk' Hd].
  destruct (String.eqb_spec k' k); simpl; [done|].
  apply NoDup_cons. split; [|by apply IH].
  intros Hin. apply Hk'. by apply (keys_del k d).
Qed.

Lemma keys_set k v d :
  forall x, x ∈ map fst (OrderedDict.set k v d) -> x = k \/ x ∈ map fst d.
Proof.
  induction d as [|[k' v'] d IH]; simpl; intros x Hx.
  - apply list_elem_of_singleton in Hx. by left.
  - destruct (String.eqb_spec k' k); simpl in Hx.
    + by right.
    + apply elem_of_cons in Hx as [->|Hx].
      * right. apply elem_of_cons. by left.
      * destruct (IH x Hx) as [->|Hin]; [by left|].
        right. apply elem_of_cons. by right.
Qed.

Lemma NoDup_set k v d :
  NoDup (map fst d) -> NoDup (map fst (OrderedDict.set k v d)).
Proof.
  induction d as [|[k' v'] d IH]; simpl; intros Hd.
  - apply NoDup_singleton.
  - apply NoDup_cons in Hd as [Hk' Hd].
    destruct (String.eqb_spec k' k); simpl.
    + by apply NoDup_cons.
    + apply NoDup_cons. split; [|by apply IH].
      intros Hin. destruct (keys_set k v d k' Hin); [congruence|done].
Qed.

Lemma get_del_ne k k' d :
  k ≠ k' -> OrderedDict.get k' (OrderedDict.del k d) = OrderedDict.get k' d.
Proof.
  intros Hne. induction d as [|[k0 v0] d IH]; simpl; [done|].
  destruct (String.eqb_spec k0 k) as [->|Hk].
  - destruct (String.eqb_spec k k'); [congruence|done].
  - simpl. by rewrite IH.
Qed.

Lemma get_del_eq k d :
  NoDup (map fst d) -> OrderedDict.get k (OrderedDict.del k d) = None.
Proof.
  induction d as [|[k0 v0] d IH]; simpl; [done|]. intros Hd.
  apply NoDup_cons in Hd as [Hk0 Hd].
  destruct (String.eqb_spec k0 k) as [->|Hk].
  - by apply get_None.
  - simpl. destruct (String.eqb_spec k0 k); [congruence|]. by apply IH.
Qed.

Lemma get_foldr_del (ks : list string) k d :
  NoDup (map fst d) ->
  NoDup (map fst (foldr OrderedDict.del d ks))
  /\ OrderedDict.get k (foldr OrderedDict.del d ks)
     = if bool_decide (k ∈ ks) then None else OrderedDict.get k d.
Proof.
  intros Hd. induction ks as [|k0 ks [IHd IH]]; cbn [foldr].
  - split; [done|]. rewrite bool_decide_false; [done|]. apply not_elem_of_nil.
  - split; [by apply NoDup_del|].
    destruct (decide (k0 = k)) as [->|Hne].
    + rewrite bool_decide_true by (apply elem_of_cons; by left).
      by apply get_del_eq.
    + rewrite get_del_ne by done. rewrite IH.
      destruct (decide (k ∈ ks)) as [Hin|Hin].
      * rewrite !bool_decide_true; [done| |done].
        apply elem_of_cons. by right.
      * rewrite !bool_decide_false; [done| |done].
        intros H. apply elem_of_cons in H as [?|?]; [congruence|done].
Qed.
End Dict.

(** The registry names each provider once. *)
Lemma perform_NoDup (w : IntermediaryNetworkAgent.t * SimulationMetrics.t)
    (op : operation) :
  NoDup (map fst (providers w.1)) ->
  NoDup (map fst (providers (perform w op).1)).
Proof.
  destruct w as [b m]. cbn [fst]. intros Hd.
  destruct op as [msg i | current_time].
  - cbn [perform fst]. unfold process_message. cbn [fst snd].
    destruct (Message.payload msg) as [request | | rid cid st rsn pid | |
                                       info | pid av ut rep pr ac] eqn:Hmsg.
    + pose proof (BrokerRunFacts.handle_storage_request_stats msg (suffix i)
                    (clock i) b) as (_ & H & _).
      destruct (handle_storage_request msg (suffix i) (clock i) b)
        as [b' out]. cbn [fst] in *. by rewrite H.
    + done.
    + pose proof (BrokerLoopFacts.handle_allocation_response_effect msg
                    (draw i) (now i) (at_start i) (at_end i) b m)
        as (H & _).
      destruct (handle_allocation_response msg (draw i) (now i) (at_start i)
                  (at_end i) (b, m)) as [[b' m'] out].
      cbn [fst] in *. by rewrite H.
    + done.
    + cbn [fst].
      rewrite (BrokerRunFacts.handle_provider_registration_known msg (now i)
                 b info Hmsg).
      cbn. by apply NoDup_set.
    + cbn [fst]. unfold handle_status_update. rewrite Hmsg.
      destruct (OrderedDict.get pid (providers b)) as [r|]; [|done].
      by destruct (objects b !! r).
  - cbn. exact (proj1 (get_foldr_del _ String.EmptyString _ Hd)).
Qed.

Lemma run_NoDup (ops : list operation)
    (w : IntermediaryNetworkAgent.t * SimulationMetrics.t) :
  NoDup (map fst (providers w.1)) ->
  NoDup (map fst (providers (run ops w).1)).
Proof.
  revert w. induction ops as [|op ops IH]; intros w H; [done|].
  change (run (op :: ops) w) with (run ops (perform w op)).
  by apply IH, perform_NoDup.
Qed.

Lemma inactive_keys (current_time : Q) (seen : gmap string Q) (k : string) :
  k ∈ map fst
        (map_to_list
           (filter (fun kv => Qltb 60 (current_time - kv.2)%Q = true) seen))
  <-> exists t, seen !! k = Some t /\ Qltb 60 (current_time - t)%Q = true.
Proof.
  rewrite list_elem_of_fmap. split.
  - intros ([k' t] & -> & Hin). apply elem_of_map_to_list in Hin.
    apply map_lookup_filter_Some in Hin. by exists t.
  - intros (t & Hk & Ht). exists (k, t). split; [done|].
    apply elem_of_map_to_list. by apply map_lookup_filter_Some.
Qed.

(** The provider a request was matched with. *)
Lemma select_provider_suitable (b : IntermediaryNetworkAgent.t)
    (request : StorageRequest.t) (current_time : Q) (r : nat)
    (selected : ProviderInfo.t) :
  select_provider b request current_time = Some (r, selected) ->
  objects b !! r = Some selected
  /\ (StorageRequest.space_gb request
      <= ProviderInfo.available_space_gb selected)%Z
  /\ (ProviderInfo.price_per_gb_hour selected
      <= StorageRequest.max_price_per_gb_hour request)%Q
  /\ (1.0 <= ProviderInfo.reputation selected)%Q.
Proof.
  intros Hsel.
  apply BrokerFacts.select_provider_spec in Hsel as (ks & score & Hks & Hmax).
  apply SortFacts.first_max_elem in Hmax.
  apply BrokerFacts.keyed_spec in Hks as [Hmap _].
  assert ((r, selected) ∈ candidates b request current_time) as Hin.
  { rewrite <- Hmap. apply list_elem_of_fmap. by exists (score, (r, selected)). }
  apply BrokerFacts.candidates_spec in Hin as (Hobj & Hs & Hp & Hr & _).
  split; [|done].
  unfold provider_objects in Hobj. apply list_elem_of_omap in Hobj
    as (r' & _ & Hr').
  destruct (objects b !! r') as [p|] eqn:E; simpl in Hr'; [|done].
  by simplify_eq.
Qed.

(** The provisional reputation update leaves every price alone. *)
Lemma nudge_price (accepted : bool) (provider_id : string)
    (b : IntermediaryNetworkAgent.t) (r : nat) (p : ProviderInfo.t) :
  objects b !! r = Some p ->
  exists p',
    objects (nudge accepted provider_id b) !! r = Some p'
    /\ ProviderInfo.price_per_gb_hour p' = ProviderInfo.price_per_gb_hour p
    /\ ProviderInfo.agent_id p' = ProviderInfo.agent_id p.
Proof.
  intros Hp. unfold nudge.
  destruct (OrderedDict.get _ _) as [r0|]; [|by exists p].
  destruct (objects b !! r0) as [p0|] eqn:E; [|by exists p].
  cbn [objects set_objects]. destruct (decide (r0 = r)) as [->|Hne].
  - rewrite lookup_insert_eq. simplify_eq. eexists. split; [done|].
    by destruct accepted.
  - rewrite lookup_insert_ne by done. by exists p.
Qed.
End RegistryFacts.

(** X18.  A status update for a registered provider replaces the
    available space, the reputation and the price the broker holds for
    it by those of the message, and refreshes its last-seen time; the
    total space and the success and failure counts the broker keeps are
    left as they were.  A status update for a provider that is not
    registered changes nothing. *)
Theorem status_update_refreshes (msg : Message.envelope) (now later : Q)
    (b : IntermediaryNetworkAgent.t) provider_id available utilization
    reputation price active :
  Message.payload msg
  = Message.status_update provider_id available utilization reputation price
      active ->
  let b' := IntermediaryNetworkAgent.handle_status_update msg now later b in
  match Selection.lookup b provider_id with
  | Some old =>
      Selection.lookup b' provider_id
      = Some (ProviderInfo.mk (ProviderInfo.agent_id old)
                (ProviderInfo.total_space_gb old) available reputation price
                now (ProviderInfo.success_count old)
                (ProviderInfo.failure_count old)
                (ProviderInfo.response_time_avg old))
      /\ IntermediaryNetworkAgent.provider_last_seen b' !! provider_id
         = Some later
  | None => b' = b
  end.
Proof.
  intros Hmsg b'. unfold b', Selection.lookup.
  unfold IntermediaryNetworkAgent.handle_status_update. rewrite Hmsg.
  destruct (OrderedDict.get provider_id (IntermediaryNetworkAgent.providers b))
    as [r|] eqn:Hget; [|done].
  destruct (IntermediaryNetworkAgent.objects b !! r) as [old|]; [|done].
  cbn [IntermediaryNetworkAgent.providers IntermediaryNetworkAgent.objects
         IntermediaryNetworkAgent.provider_last_seen
         IntermediaryNetworkAgent.set_registry
         IntermediaryNetworkAgent.set_objects].
  by rewrite Hget, !lookup_insert_eq.
Qed.

(** The broker of scenario A learns of the price rise of its provider. *)
Lemma status_update_refreshes_witness :
  Selection.lookup
    (IntermediaryNetworkAgent.handle_status_update status_a 11.5 11.5
       broker_a.1) "provider0"
  = Some (ProviderInfo.mk "provider0" 100 50 5.1 2 11.5 0 0 0.1).
Proof.
  pose proof (status_update_refreshes status_a 11.5 11.5 broker_a.1
                "provider0" 50 0.5 5.1 2 1 eq_refl) as H.
  exact (proj1 H).
Defined.

(** X19.  One pass of the provider manager removes from the registry and
    from the last-seen times exactly the providers last seen more than
    60 seconds before, in every state a broker reaches from its
    creation; every other provider keeps its entry. *)
Theorem stale_providers_evicted (agent_id : string)
    (corruption_probability : Q) (bus : MessageBus.t)
    (m : SimulationMetrics.t) (ops : list BrokerLoop.operation)
    (current_time : Q) (provider_id : string) :
  let b :=
    (BrokerLoop.run ops
       ((IntermediaryNetworkAgent.init agent_id corruption_probability
           bus).1, m)).1 in
  let b' := IntermediaryNetworkAgent.provider_manager current_time b in
  let stale :=
    match IntermediaryNetworkAgent.provider_last_seen b !! provider_id with
    | Some seen => Qltb 60 (current_time - seen)
    | None => false
    end in
  OrderedDict.get provider_id (IntermediaryNetworkAgent.providers b')
  = (if stale then None
     else OrderedDict.get provider_id (IntermediaryNetworkAgent.providers b))
  /\ IntermediaryNetworkAgent.provider_last_seen b' !! provider_id
     = (if stale then None
        else IntermediaryNetworkAgent.provider_last_seen b !! provider_id).
Proof.
  intros b b' stale.
  assert (NoDup (map fst (IntermediaryNetworkAgent.providers b))) as Hd.
  { apply RegistryFacts.run_NoDup. apply NoDup_nil_2. }
  split.
  - unfold b', IntermediaryNetworkAgent.provider_manager.
    cbn [IntermediaryNetworkAgent.providers
           IntermediaryNetworkAgent.set_active_providers
           IntermediaryNetworkAgent.set_stats
           IntermediaryNetworkAgent.set_registry].
    destruct (RegistryFacts.get_foldr_del
                (map fst
                   (map_to_list
                      (filter
                         (fun kv => Qltb 60 (current_time - kv.2)%Q = true)
                         (IntermediaryNetworkAgent.provider_last_seen b))))
                provider_id (IntermediaryNetworkAgent.providers b) Hd)
      as [_ ->].
    unfold stale.
    destruct (IntermediaryNetworkAgent.provider_last_seen b !! provider_id)
      as [seen|] eqn:Hseen.
    + destruct (Qltb 60 (current_time - seen)) eqn:E.
      * rewrite bool_decide_true; [done|].
        apply RegistryFacts.inactive_keys. by exists seen.
      * rewrite bool_decide_false; [done|].
        intros Hin. apply RegistryFacts.inactive_keys in Hin
          as (t & Ht & Hstale). congruence.
    + rewrite bool_decide_false; [done|].
      intros Hin. apply RegistryFacts.inactive_keys in Hin
        as (t & Ht & Hstale). congruence.
  - unfold b', IntermediaryNetworkAgent.provider_manager.
    cbn [IntermediaryNetworkAgent.provider_last_seen
           IntermediaryNetworkAgent.set_active_providers
           IntermediaryNetworkAgent.set_stats
           IntermediaryNetworkAgent.set_registry].
    unfold stale.
    destruct (IntermediaryNetworkAgent.provider_last_seen b !! provider_id)
      as [seen|] eqn:Hseen.
    + destruct (Qltb 60 (current_time - seen)) eqn:E.
      * apply map_lookup_filter_None_2. right. intros t Ht. simpl.
        simplify_eq. congruence.
      * apply map_lookup_filter_Some. done.
    + apply map_lookup_filter_None_2. by left.
Qed.

(** X20.  The contract the broker offers a provider stays within the
    request: it is offered to the provider held for the pending entry,
    for the space and the duration asked, at that provider's price, which
    is at most the maximum price of the request, and the space fits in
    what the provider has available. *)
Theorem pending_contract_within_offer (msg : Message.envelope) (suffix : Z)
    (clock : IntermediaryNetworkAgent.request_clock)
    (b : IntermediaryNetworkAgent.t) (to request_id : string)
    (contract : StorageContract.t) :
  (to, Message.allocation_request request_id contract)
    ∈ (IntermediaryNetworkAgent.handle_storage_request msg suffix clock b).2 ->
  exists request ref selected,
    Message.payload msg = Message.storage_request request
    /\ request_id = StorageRequest.request_id request
    /\ IntermediaryNetworkAgent.pending_allocations
         (IntermediaryNetworkAgent.handle_storage_request msg suffix clock
            b).1 !! request_id
       = Some (Message.from msg, request, ref)
    /\ IntermediaryNetworkAgent.objects b !! ref = Some selected
    /\ to = ProviderInfo.agent_id selected
    /\ StorageContract.provider_id contract = to
    /\ StorageContract.buyer_id contract = StorageRequest.buyer_id request
    /\ StorageContract.space_gb contract = StorageRequest.space_gb request
    /\ StorageContract.duration_hours contract
       = StorageRequest.duration_hours request
    /\ StorageContract.price_per_gb_hour contract
       = ProviderInfo.price_per_gb_hour selected
    /\ (StorageContract.space_gb contract
        <= ProviderInfo.available_space_gb selected)%Z
    /\ (StorageContract.price_per_gb_hour contract
        <= StorageRequest.max_price_per_gb_hour request)%Q
    /\ StorageContract.status contract = "pending".
Proof.
  unfold IntermediaryNetworkAgent.handle_storage_request.
  destruct (Message.payload msg) as [request | | | | |];
    try (intros H; by apply elem_of_nil in H).
  cbv zeta.
  destruct (IntermediaryNetworkAgent.select_provider _ _ _)
    as [[r selected]|] eqn:Hsel.
  - cbn [fst snd]. intros H. apply list_elem_of_singleton in H. simplify_eq.
    apply RegistryFacts.select_provider_suitable in Hsel
      as (Hobj & Hspace & Hprice & _).
    exists request, r, selected.
    cbn [IntermediaryNetworkAgent.pending_allocations
           IntermediaryNetworkAgent.set_pending].
    rewrite lookup_insert_eq. repeat split; done.
  - unfold IntermediaryNetworkAgent.send_failure_response. cbn [snd].
    intros H. apply list_elem_of_singleton in H. simplify_eq.
Qed.

(** The contract offered in scenario A. *)
Lemma pending_contract_within_offer_witness :
  exists request,
    Message.payload storage_request_a = Message.storage_request request
    /\ (StorageContract.price_per_gb_hour contract_a
        <= StorageRequest.max_price_per_gb_hour request)%Q.
Proof.
  destruct (pending_contract_within_offer storage_request_a 1234 clock_a
              (Selection.registry [info_a] 0) "provider0"
              "REQ-buyer0-10-100" contract_a)
    as (request & ref & selected & H1 & _ & _ & _ & _ & _ & _ & _ & _ & _ & _
        & H2 & _).
  - vm_compute. apply list_elem_of_singleton. reflexivity.
  - exists request. split; [exact H1 | exact H2].
Defined.

Module ExchangeFacts.
Import IntermediaryNetworkAgent.


(** An acceptance that is not corrupted: the contract relayed is built
    from the request and from the provider object held for the entry. *)
Lemma handle_allocation_response_accepted (msg : Message.envelope)
    (draw now at_start at_end : Q) (b : IntermediaryNetworkAgent.t)
    (m : SimulationMetrics.t) request_id contract_id reason provider_id
    buyer_id request ref selected :
  Message.payload msg
  = Message.allocation_response request_id (Some contract_id) "accepted"
      reason provider_id ->
  pending_allocations b !! request_id = Some (buyer_id, request, ref) ->
  objects b !! ref = Some selected ->
  (corruption_probability b <= draw)%Q ->
  exists selected',
    ProviderInfo.price_per_gb_hour selected'
    = ProviderInfo.price_per_gb_hour selected
    /\ ProviderInfo.agent_id selected' = ProviderInfo.agent_id selected
    /\ (handle_allocation_response msg draw now at_start at_end (b, m)).2
       = [(buyer_id,
           Message.storage_response request_id "success"
             (Some (active_contract contract_id request selected' at_start
                      at_end)) None)].
Proof.
  intros Hmsg Hpending Hobj Hdraw.
  unfold handle_allocation_response. rewrite Hmsg, Hpending, Hobj. cbv zeta.
  change (String.eqb "accepted" "accepted") with true. cbv iota.
  pose proof (BrokerLoopFacts.nudge_frame true (ProviderInfo.agent_id selected)
                b) as (_ & _ & _ & _ & Nc).
  pose proof (RegistryFacts.nudge_price true (ProviderInfo.agent_id selected)
                b ref selected Hobj) as (selected' & Hobj' & Hprice & Hid).
  cbv zeta in Nc. rewrite Nc, Hobj'.
  apply Qltb_ge in Hdraw. rewrite Hdraw.
  match goal with
  | |- context [relay ?a ?b ?c ?d ?e] =>
      pose proof (ContractFacts.relay_out a b c d e) as Hout;
      destruct (relay a b c d e) as [b' out]
  end.
  exists selected'. cbn [snd] in *. by rewrite Hout.
Qed.

(** A rejection: the provider's reason goes to the buyer. *)
Lemma handle_allocation_response_rejected (msg : Message.envelope)
    (draw now at_start at_end : Q) (b : IntermediaryNetworkAgent.t)
    (m : SimulationMetrics.t) request_id contract_id reason provider_id
    buyer_id request ref selected :
  Message.payload msg
  = Message.allocation_response request_id contract_id "rejected" reason
      provider_id ->
  pending_allocations b !! request_id = Some (buyer_id, request, ref) ->
  objects b !! ref = Some selected ->
  let r := handle_allocation_response msg draw now at_start at_end (b, m) in
  r.2 = [(buyer_id,
          Message.storage_response request_id "failure" None
            (Some (default "provider_rejected" reason)))]
  /\ r.1.2 = m.
Proof.
  intros Hmsg Hpending Hobj.
  unfold handle_allocation_response. rewrite Hmsg, Hpending, Hobj. cbv zeta.
  change (String.eqb "rejected" "accepted") with false. cbv iota.
  match goal with
  | |- context [relay ?a ?b ?c ?d ?e] =>
      pose proof (ContractFacts.relay_out a b c d e) as Hout;
      destruct (relay a b c d e) as [b' out]
  end.
  cbn [fst snd] in *. by rewrite Hout.
Qed.


(** A failure handled by the buyer. *)
Lemma process_response_failure (msg : Message.envelope) (now : Q)
    (a : BuyerAgent.t) (m : SimulationMetrics.t) request_id contract reason
    original :
  Message.payload msg
  = Message.storage_response request_id "failure" contract reason ->
  BuyerAgent.pending_requests a !! request_id = Some original ->
  let r := BuyerAgent.process_response msg now (a, m) in
  BuyerAgent.active_contracts r.1 = BuyerAgent.active_contracts a
  /\ BuyerAgent.total_spent (BuyerAgent.stats r.1)
     = BuyerAgent.total_spent (BuyerAgent.stats a)
  /\ BuyerAgent.requests_failed (BuyerAgent.stats r.1)
     = (BuyerAgent.requests_failed (BuyerAgent.stats a) + 1)%Z
  /\ BuyerAgent.requests_successful (BuyerAgent.stats r.1)
     = BuyerAgent.requests_successful (BuyerAgent.stats a)
  /\ BuyerAgent.pending_requests r.1
     = delete request_id (BuyerAgent.pending_requests a)
  /\ r.2
     = SimulationMetrics.record_request false
         (now - StorageRequest.timestamp original) m.
Proof.
  intros Hmsg Hp. unfold BuyerAgent.process_response. rewrite Hmsg, Hp.
  change (String.eqb "failure" "success") with false. cbv iota zeta.
  cbn [fst snd]. unfold BuyerAgent.update_avg_response_time.
  cbn [BuyerAgent.requests_successful BuyerAgent.requests_failed].
  by destruct (0 <? _)%Z.
Qed.

End ExchangeFacts.

(** X21.  The contract relayed to the buyer carries the price the broker
    holds for the provider when the answer arrives, not the price that
    was matched: after a status update of the matched provider, the
    contract of a non-corrupted acceptance has the price of the update
    and a total cost computed from it. *)
Theorem relayed_price_follows_status_update
    (status_msg response_msg : Message.envelope)
    (now later draw current_time at_start at_end : Q)
    (b : IntermediaryNetworkAgent.t) (m : SimulationMetrics.t)
    provider_id available utilization reputation price active
    request_id contract_id reason sender buyer_id request ref selected :
  Message.payload status_msg
  = Message.status_update provider_id available utilization reputation price
      active ->
  Message.payload response_msg
  = Message.allocation_response request_id (Some contract_id) "accepted"
      reason sender ->
  IntermediaryNetworkAgent.pending_allocations b !! request_id
  = Some (buyer_id, request, ref) ->
  OrderedDict.get provider_id (IntermediaryNetworkAgent.providers b)
  = Some ref ->
  IntermediaryNetworkAgent.objects b !! ref = Some selected ->
  (IntermediaryNetworkAgent.corruption_probability b <= draw)%Q ->
  exists contract,
    (IntermediaryNetworkAgent.handle_allocation_response response_msg draw
       current_time at_start at_end
       (IntermediaryNetworkAgent.handle_status_update status_msg now later b,
        m)).2
    = [(buyer_id,
        Message.storage_response request_id "success" (Some contract) None)]
    /\ StorageContract.price_per_gb_hour contract = price
    /\ StorageContract.total_cost contract
       = (inject_Z (StorageRequest.space_gb request)
          * StorageRequest.duration_hours request * price)%Q.
Proof.
  intros Hstatus Hresponse Hpending Hget Hobj Hdraw.
  set (b1 := IntermediaryNetworkAgent.handle_status_update status_msg now
               later b).
  assert (IntermediaryNetworkAgent.pending_allocations b1
          = IntermediaryNetworkAgent.pending_allocations b
          /\ IntermediaryNetworkAgent.corruption_probability b1
             = IntermediaryNetworkAgent.corruption_probability b
          /\ exists updated,
               IntermediaryNetworkAgent.objects b1 !! ref = Some updated
               /\ ProviderInfo.price_per_gb_hour updated = price)
    as (Hp1 & Hc1 & updated & Hobj1 & Hprice1).
  { unfold b1, IntermediaryNetworkAgent.handle_status_update.
    rewrite Hstatus, Hget, Hobj. cbn. rewrite lookup_insert_eq.
    split; [done|]. split; [done|]. by eexists. }
  destruct (ExchangeFacts.handle_allocation_response_accepted response_msg
              draw current_time at_start at_end b1 m request_id contract_id
              reason sender buyer_id request ref updated Hresponse)
    as (selected' & Hprice & _ & Hout).
  - by rewrite Hp1.
  - done.
  - by rewrite Hc1.
  - eexists. split; [exact Hout|]. cbn. by rewrite Hprice, Hprice1.
Qed.

(** In scenario A the provider was matched at 0.5 and raised its price
    to 2 before its acceptance arrived: the buyer, who offered at most
    1, gets a contract at 2. *)
Lemma relayed_price_follows_status_update_witness :
  exists contract,
    (IntermediaryNetworkAgent.handle_allocation_response accepted_a 0.5 12 12
       12
       (IntermediaryNetworkAgent.handle_status_update status_a 11.5 11.5
          broker_a.1, broker_a.2)).2
    = [("buyer0",
        Message.storage_response "REQ-buyer0-10-100" "success"
          (Some contract) None)]
    /\ StorageContract.price_per_gb_hour contract = 2%Q.
Proof.
  destruct (relayed_price_follows_status_update status_a accepted_a 11.5 11.5
              0.5 12 12 12 broker_a.1 broker_a.2 "provider0" 50 0.5 5.1 2 1
              "REQ-buyer0-10-100" (StorageContract.contract_id contract_a)
              None "provider0" "buyer0" request_a 0%nat info_a)
    as (contract & Hout & Hprice & _).
  - reflexivity.
  - reflexivity.
  - vm_compute. reflexivity.
  - vm_compute. reflexivity.
  - vm_compute. reflexivity.
  - vm_compute. discriminate.
  - exists contract. split; [exact Hout | exact Hprice].
Defined.



Module RejectionFacts.
Import StorageProviderAgent.

(** The global counters after a rejected request. *)
Lemma process_allocation_request_rejects (msg : Message.envelope) (draw : Q)
    (p : StorageProviderAgent.t) (m : SimulationMetrics.t) rid c :
  Message.payload msg = Message.allocation_request rid c ->
  total_space_gb p ≠ 0%Z ->
  can_fulfill_request (StorageContract.space_gb c) draw p = false ->
  let r := process_allocation_request msg draw (p, m) in
  SimulationMetrics.provider_failures r.1.2
  = (SimulationMetrics.provider_failures m + 1)%Z
  /\ SimulationMetrics.failed_requests r.1.2
     = SimulationMetrics.failed_requests m
  /\ SimulationMetrics.successful_requests r.1.2
     = SimulationMetrics.successful_requests m
  /\ SimulationMetrics.total_requests r.1.2
     = SimulationMetrics.total_requests m.
Proof.
  intros Hmsg Htotal Hcan. unfold process_allocation_request.
  rewrite Hmsg. cbv zeta.
  change (can_fulfill_request (StorageContract.space_gb c) draw
            (count_received p))
    with (can_fulfill_request (StorageContract.space_gb c) draw p).
  rewrite Hcan. unfold update_reputation, get_utilization.
  cbn [total_space_gb available_space_gb set_stats set_reputation
         count_rejected count_received].
  rewrite int_truediv_nonzero by done. done.
Qed.

Lemma cannot_fulfill (space_needed : Z) (draw : Q)
    (p : StorageProviderAgent.t) :
  (available_space_gb p < space_needed)%Z
  \/ (draw < failure_probability p)%Q ->
  can_fulfill_request space_needed draw p = false.
Proof.
  intros H. apply not_true_iff_false. intros Hcan.
  apply ProviderFacts.can_fulfill_request_true in Hcan as [H1 H2].
  destruct H as [H|H]; [lia|]. apply (Qlt_not_le _ _ H H2).
Qed.
End RejectionFacts.

(** X23.  A rejection followed from the provider to the buyer.  When a
    provider with some capacity has too little space for the contract
    offered, or its failure draw falls under its failure probability,
    it keeps its space and its contracts; the broker passes the reason
    the provider gave to the buyer of the pending entry; the buyer
    counts one failed request and holds no new contract; and the global
    metrics count one provider failure and one failed request. *)
Theorem rejection_reaches_buyer (msg2 msg3 msg4 : Message.envelope)
    (draw_provider draw_broker now_broker at_start at_end now_buyer : Q)
    (a : BuyerAgent.t) (b : IntermediaryNetworkAgent.t)
    (p : StorageProviderAgent.t) (m : SimulationMetrics.t)
    (request_id buyer_id : string) (contract : StorageContract.t)
    (request original : StorageRequest.t) (ref : nat)
    (selected : ProviderInfo.t) :
  let rp :=
    StorageProviderAgent.process_allocation_request msg2 draw_provider
      (p, m) in
  let rb :=
    IntermediaryNetworkAgent.handle_allocation_response msg3 draw_broker
      now_broker at_start at_end (b, rp.1.2) in
  let ra := BuyerAgent.process_response msg4 now_buyer (a, rb.1.2) in
  let reason :=
    if (StorageProviderAgent.available_space_gb p
        <? StorageContract.space_gb contract)%Z
    then "insufficient_space" else "provider_failure" in
  Message.payload msg2 = Message.allocation_request request_id contract ->
  StorageProviderAgent.total_space_gb p ≠ 0%Z ->
  (StorageProviderAgent.available_space_gb p
   < StorageContract.space_gb contract)%Z
  \/ (draw_provider < StorageProviderAgent.failure_probability p)%Q ->
  (Message.to msg3, Message.payload msg3) ∈ rp.2 ->
  IntermediaryNetworkAgent.pending_allocations b !! request_id
  = Some (buyer_id, request, ref) ->
  IntermediaryNetworkAgent.objects b !! ref = Some selected ->
  (Message.to msg4, Message.payload msg4) ∈ rb.2 ->
  BuyerAgent.pending_requests a !! request_id = Some original ->
  Message.to msg3 = Message.from msg2
  /\ Message.to msg4 = buyer_id
  /\ Message.payload msg4
     = Message.storage_response request_id "failure" None (Some reason)
  /\ StorageProviderAgent.available_space_gb rp.1.1
     = StorageProviderAgent.available_space_gb p
  /\ StorageProviderAgent.active_contracts rp.1.1
     = StorageProviderAgent.active_contracts p
  /\ BuyerAgent.requests_failed (BuyerAgent.stats ra.1)
     = (BuyerAgent.requests_failed (BuyerAgent.stats a) + 1)%Z
  /\ BuyerAgent.pending_requests ra.1 !! request_id = None
  /\ BuyerAgent.active_contracts ra.1 = BuyerAgent.active_contracts a
  /\ SimulationMetrics.provider_failures ra.2
     = (SimulationMetrics.provider_failures m + 1)%Z
  /\ SimulationMetrics.failed_requests ra.2
     = (SimulationMetrics.failed_requests m + 1)%Z
  /\ SimulationMetrics.successful_requests ra.2
     = SimulationMetrics.successful_requests m.
Proof.
  intros rp rb ra reason Hmsg2 Htotal Hno Hmsg3 Hpending Hobj Hmsg4 Hwait.
  apply RejectionFacts.cannot_fulfill in Hno as Hcan.
  (* the provider rejects *)
  pose proof (ProviderFacts.process_allocation_request_response msg2
                draw_provider request_id contract (p, m) Hmsg2 Htotal)
    as Hout2.
  fold rp in Hout2. cbn [fst] in Hout2. rewrite Hcan in Hout2.
  rewrite Hout2 in Hmsg3. apply list_elem_of_singleton in Hmsg3.
  injection Hmsg3 as Hto3 Hpay3.
  pose proof (ProviderFacts.process_allocation_request_ledger msg2
                draw_provider (p, m)) as [_ Hledger].
  fold rp in Hledger. rewrite Hmsg2 in Hledger. cbn [fst] in Hledger.
  rewrite Hcan in Hledger. destruct Hledger as [Havail Hactive].
  destruct (RejectionFacts.process_allocation_request_rejects msg2
              draw_provider p m request_id contract Hmsg2 Htotal Hcan)
    as (Hm1 & Hm2 & Hm3 & _).
  fold rp in Hm1, Hm2, Hm3.
  (* the broker relays the reason *)
  destruct (ExchangeFacts.handle_allocation_response_rejected msg3 draw_broker
              now_broker at_start at_end b rp.1.2 request_id None
              (Some reason) (StorageProviderAgent.agent_id p) buyer_id
              request ref selected Hpay3 Hpending Hobj) as [Hout3 Hmb].
  fold rb in Hout3, Hmb. rewrite Hout3 in Hmsg4.
  apply list_elem_of_singleton in Hmsg4. injection Hmsg4 as Hto4 Hpay4.
  (* the buyer counts the failure *)
  destruct (ExchangeFacts.process_response_failure msg4 now_buyer a rb.1.2
              request_id None (Some reason) original Hpay4 Hwait)
    as (Ha1 & _ & Ha3 & _ & Ha5 & Ha6).
  fold ra in Ha1, Ha3, Ha5, Ha6.
  rewrite Ha5, Ha6, Hmb, lookup_delete_eq.
  repeat split; try done;
    unfold SimulationMetrics.record_request;
    cbn [SimulationMetrics.provider_failures SimulationMetrics.failed_requests
           SimulationMetrics.successful_requests];
    by rewrite ?Hm1, ?Hm2, ?Hm3.
Qed.

(** The provider of scenario A, with 30 GB left, refuses a contract of
    50 GB and keeps its space. *)
Lemma rejection_reaches_buyer_witness :
  StorageProviderAgent.available_space_gb
    (StorageProviderAgent.process_allocation_request allocation_a 0.5
       (provider_full, SimulationMetrics.reset 0)).1.1
  = StorageProviderAgent.available_space_gb provider_full.
Proof.
  refine (proj1 (proj2 (proj2 (proj2
    (rejection_reaches_buyer allocation_a rejected_a failure_a
       0.5 0.5 12 12 12 13 pending_a broker_a.1 provider_full
       (SimulationMetrics.reset 0) "REQ-buyer0-10-100" "buyer0" contract_a
       request_a request_a 0%nat info_a _ _ _ _ _ _ _ _))))).
  - reflexivity.
  - vm_compute. discriminate.
  - left. vm_compute. reflexivity.
  - vm_compute. apply list_elem_of_singleton. reflexivity.
  - vm_compute. reflexivity.
  - vm_compute. reflexivity.
  - vm_compute. apply list_elem_of_singleton. reflexivity.
  - vm_compute. reflexivity.
Defined.

Module SyncFacts.
Import IntermediaryNetworkAgent.

Section Dict.
Context {V : Type}.
Implicit Types d : OrderedDict.t V.

Lemma get_set_eq k v d : OrderedDict.get k (OrderedDict.set k v d) = Some v.
Proof.
  induction d as [|[k' v'] d IH]; simpl.
  - by rewrite String.eqb_refl.
  - destruct (String.eqb_spec k' k) as [->|Hne]; simpl.
    + by rewrite String.eqb_refl.
    + destruct (String.eqb_spec k' k); [congruence|done].
Qed.

Lemma get_set_ne k k' v d :
  k ≠ k' -> OrderedDict.get k' (OrderedDict.set k v d) = OrderedDict.get k' d.
Proof.
  intros Hne. induction d as [|[k0 v0] d IH]; simpl.
  - destruct (String.eqb_spec k k'); [congruence|done].
  - destruct (String.eqb_spec k0 k) as [->|Hk]; simpl.
    + destruct (String.eqb_spec k k'); [congruence|done].
    + by rewrite IH.
Qed.
End Dict.

(** The status message of a provider with some capacity. *)
Lemma status_updater_message (now : Q) (p : StorageProviderAgent.t) :
  StorageProviderAgent.total_space_gb p ≠ 0%Z ->
  (StorageProviderAgent.status_updater now p).2
  = [(StorageProviderAgent.broker_id p,
      Message.status_update (StorageProviderAgent.agent_id p)
        (StorageProviderAgent.available_space_gb p)
        (ProviderRun.utilization p) (StorageProviderAgent.reputation p)
        (StorageProviderAgent.current_price_per_gb_hour p)
        (Z.of_nat (size (StorageProviderAgent.active_contracts p))))].
Proof.
  intros Htotal. unfold StorageProviderAgent.status_updater. cbv zeta.
  unfold StorageProviderAgent.get_utilization.
  cbn [StorageProviderAgent.total_space_gb
         StorageProviderAgent.available_space_gb
         StorageProviderAgent.set_stats].
  by rewrite int_truediv_nonzero.
Qed.
End SyncFacts.

(** X24.  A provider that registers is known to the broker as it
    described itself: after the broker handles the registration message
    of a provider, the registry holds under the provider's id its total
    and available space, its reputation, its price and its success and
    failure counts, the provider counts as seen at the time of handling,
    and the entries of the other providers are untouched. *)
Theorem registration_round_trip (msg : Message.envelope) (now_provider now : Q)
    (p : StorageProviderAgent.t) (b : IntermediaryNetworkAgent.t) :
  (Message.to msg, Message.payload msg)
  = StorageProviderAgent.register_with_broker now_provider p ->
  let b' := IntermediaryNetworkAgent.handle_provider_registration msg now b in
  Message.to msg = StorageProviderAgent.broker_id p
  /\ Selection.lookup b' (StorageProviderAgent.agent_id p)
     = Some (ProviderInfo.mk (StorageProviderAgent.agent_id p)
               (StorageProviderAgent.total_space_gb p)
               (StorageProviderAgent.available_space_gb p)
               (StorageProviderAgent.reputation p)
               (StorageProviderAgent.current_price_per_gb_hour p)
               now_provider (StorageProviderAgent.success_count p)
               (StorageProviderAgent.failure_count p) 0.1)
  /\ IntermediaryNetworkAgent.provider_last_seen b'
     !! StorageProviderAgent.agent_id p = Some now
  /\ IntermediaryNetworkAgent.active_providers
       (IntermediaryNetworkAgent.stats b')
     = Z.of_nat (length (IntermediaryNetworkAgent.providers b'))
  /\ (forall other,
         other ≠ StorageProviderAgent.agent_id p ->
         OrderedDict.get other (IntermediaryNetworkAgent.providers b')
         = OrderedDict.get other (IntermediaryNetworkAgent.providers b)
         /\ IntermediaryNetworkAgent.provider_last_seen b' !! other
            = IntermediaryNetworkAgent.provider_last_seen b !! other).
Proof.
  intros Hmsg b'. unfold StorageProviderAgent.register_with_broker in Hmsg.
  injection Hmsg as Hto Hpay. split; [done|].
  unfold b'.
  rewrite (BrokerRunFacts.handle_provider_registration_known msg now b _ Hpay).
  unfold Selection.lookup.
  cbn [IntermediaryNetworkAgent.providers IntermediaryNetworkAgent.objects
         IntermediaryNetworkAgent.provider_last_seen
         IntermediaryNetworkAgent.stats
         IntermediaryNetworkAgent.active_providers
         IntermediaryNetworkAgent.set_active_providers
         IntermediaryNetworkAgent.set_stats
         IntermediaryNetworkAgent.set_registry
         IntermediaryNetworkAgent.set_objects ProviderInfo.agent_id].
  rewrite SyncFacts.get_set_eq, !lookup_insert_eq.
  repeat split; try done.
  - by apply SyncFacts.get_set_ne.
  - by apply lookup_insert_ne.
Qed.

(** The provider of scenario A registers with a new broker. *)
Lemma registration_round_trip_witness :
  Selection.lookup
    (IntermediaryNetworkAgent.handle_provider_registration
       (Message.mk "provider0" "network"
          (StorageProviderAgent.register_with_broker 0 provider_a.1).2
          0 0.1 0)
       1 (IntermediaryNetworkAgent.init "network" 0.05 MessageBus.init).1)
    "provider0"
  = Some (ProviderInfo.mk "provider0" 100 100 5.0 0.5 0 0 0 0.1).
Proof.
  exact (proj1 (proj2
    (registration_round_trip
       (Message.mk "provider0" "network"
          (StorageProviderAgent.register_with_broker 0 provider_a.1).2
          0 0.1 0)
       0 1 provider_a.1
       (IntermediaryNetworkAgent.init "network" 0.05 MessageBus.init).1
       eq_refl))).
Defined.

(** X25.  A status push brings the broker's view of a provider back to
    the provider's own state: after the broker handles the status
    message of a registered provider with some capacity, the available
    space, the reputation and the price it holds for that provider are
    those of the provider, whatever it held before. *)
Theorem status_push_synchronises (msg : Message.envelope)
    (now_provider now later : Q) (p : StorageProviderAgent.t)
    (b : IntermediaryNetworkAgent.t) :
  StorageProviderAgent.total_space_gb p ≠ 0%Z ->
  (Message.to msg, Message.payload msg)
    ∈ (StorageProviderAgent.status_updater now_provider p).2 ->
  is_Some (Selection.lookup b (StorageProviderAgent.agent_id p)) ->
  exists info,
    Selection.lookup
      (IntermediaryNetworkAgent.handle_status_update msg now later b)
      (StorageProviderAgent.agent_id p) = Some info
    /\ ProviderInfo.available_space_gb info
       = StorageProviderAgent.available_space_gb p
    /\ ProviderInfo.reputation info = StorageProviderAgent.reputation p
    /\ ProviderInfo.price_per_gb_hour info
       = StorageProviderAgent.current_price_per_gb_hour p
    /\ IntermediaryNetworkAgent.provider_last_seen
         (IntermediaryNetworkAgent.handle_status_update msg now later b)
       !! StorageProviderAgent.agent_id p = Some later.
Proof.
  intros Htotal Hmsg [old Hold].
  rewrite (SyncFacts.status_updater_message now_provider p Htotal) in Hmsg.
  apply list_elem_of_singleton in Hmsg. injection Hmsg as _ Hpay.
  unfold Selection.lookup in *.
  unfold IntermediaryNetworkAgent.handle_status_update. rewrite Hpay.
  destruct (OrderedDict.get (StorageProviderAgent.agent_id p)
              (IntermediaryNetworkAgent.providers b)) as [r|] eqn:Hget;
    [|done].
  rewrite Hold.
  cbn [IntermediaryNetworkAgent.providers IntermediaryNetworkAgent.objects
         IntermediaryNetworkAgent.provider_last_seen
         IntermediaryNetworkAgent.set_registry
         IntermediaryNetworkAgent.set_objects].
  rewrite Hget, !lookup_insert_eq. by eexists.
Qed.

(** The broker of scenario A hears from its provider after the provider
    took the contract: 50 GB are left. *)
Lemma status_push_synchronises_witness :
  exists info,
    Selection.lookup
      (IntermediaryNetworkAgent.handle_status_update status_b 12 12
         broker_a.1) "provider0" = Some info
    /\ ProviderInfo.available_space_gb info = 50%Z.
Proof.
  destruct (status_push_synchronises status_b 12 12 12
              (StorageProviderAgent.process_allocation_request allocation_a
                 0.5 provider_a).1.1 broker_a.1)
    as (info & H1 & H2 & _).
  - vm_compute. discriminate.
  - vm_compute. apply list_elem_of_singleton. reflexivity.
  - vm_compute. by eexists.
  - exists info. split; [exact H1 | exact H2].
Defined.
